(** * Mini CFO Copilot: the query planner and the metric tools

    A shallow embedding of [src/agent/planner.py] and [src/agent/tools.py],
    and the properties of the specification settled against it.

    Conventions of the embedding.
    - A query is a Python [str]; it is a [string] here, every character
      being a code point below 256.  [str.lower], [\s], [\d], [\w] and [\b]
      are written out for that range as CPython's Unicode tables have them.
      [int] of a string of digits is its value; CPython refuses a string
      of more than 4300 digits with a [ValueError].
    - A pandas timestamp of the [month] column is a calendar date at
      midnight, a record [date].  A timestamp holds the days from
      1677-09-22 to 2262-04-11: [pd.to_datetime], [ts + DateOffset] and
      [.last] raise outside ([OutOfBoundsDatetime], a [ValueError]).  The
      rows of the tables are taken to be dated from 1678 on, so that the
      three months of the burn window stay in that range.
    - The constructor [datetime] keeps its range of years, 1 to 9999, and
      its [strftime] writes the year as the C library does, without
      padding: 999 for the year 999.  [pd.to_datetime] is embedded on the
      strings [YYYY-MM-DD]; pandas leaves any other string to [dateutil],
      which is not embedded: no statement below rests on such a parse.
    - The process clock is read through an oracle: the k-th reading of the
      clock during one call returns [clk k]; a computation counts its
      readings.
    - Amounts are float64 columns; they are exact rationals here ([Q]).  The
      places of the source that divide whole columns without a guard
      produce the IEEE special values, type [fval].  A test, an order or
      an [int] that the source takes on float64 values agrees with the
      exact one where the arithmetic is exact; the statements that depend
      on one carry that condition ([exact_rows], [exact_quotient]).
    - A summary is an f-string: it is kept as the list of its literal and
      interpolated parts ([piece]), numbers staying unformatted.
    - A matplotlib figure is kept as the data that is plotted ([chart]);
      a plot that the libraries refuse (an empty frame, a pie of a negative
      amount) raises.
    - An exception of the Python code is an outcome [Raise]; it keeps the
      class of the error and an abridged message, without the value at
      fault. *)

From Stdlib Require Import String Ascii List ZArith NArith QArith Bool Lia.
From Stdlib Require Import Sorting.Sorted Sorting.Permutation Qround.
Import ListNotations.

Local Open Scope string_scope.
Local Open Scope Z_scope.

(* ================================================================== *)
(** ** Characters and strings *)

Module Chars.

Definition code (c : ascii) : N := N_of_ascii c.

Definition between (lo hi n : N) : bool := ((lo <=? n) && (n <=? hi))%N.

(** [\d]: the decimal digits. *)
Definition is_digit (c : ascii) : bool := between 48 57 (code c).

(** [\s]: [str.isspace]. *)
Definition is_space (c : ascii) : bool :=
  let n := code c in
  (between 9 13 n || between 28 32 n || (n =? 133) || (n =? 160))%N.

(** [str.isalnum], which [\w] extends with the underscore. *)
Definition is_alnum (c : ascii) : bool :=
  let n := code c in
  (between 48 57 n || between 65 90 n || between 97 122 n
   || (n =? 170) || (n =? 178) || (n =? 179) || (n =? 181)
   || (n =? 185) || (n =? 186) || between 188 190 n
   || between 192 214 n || between 216 246 n || between 248 255 n)%N.

Definition is_word (c : ascii) : bool := (is_alnum c || (code c =? 95)%N).

(** One character of [str.lower]. *)
Definition lower_char (c : ascii) : ascii :=
  let n := code c in
  if (between 65 90 n || between 192 214 n || between 216 222 n)%N
  then ascii_of_N (n + 32) else c.

Fixpoint lower (s : string) : string :=
  match s with
  | EmptyString => EmptyString
  | String c s' => String (lower_char c) (lower s')
  end.

(** [pat in s]. *)
Fixpoint contains (pat s : string) : bool :=
  prefix pat s ||
  match s with
  | EmptyString => false
  | String _ s' => contains pat s'
  end.

(** [s[n:]]. *)
Fixpoint drop (n : nat) (s : string) : string :=
  match n, s with
  | O, _ => s
  | S n', String _ s' => drop n' s'
  | S _, EmptyString => EmptyString
  end.

Definition head (s : string) : option ascii :=
  match s with
  | EmptyString => None
  | String c _ => Some c
  end.

(** A greedy run of characters of one class: the run and what follows. *)
Fixpoint span (p : ascii -> bool) (s : string) : string * string :=
  match s with
  | EmptyString => (EmptyString, EmptyString)
  | String c s' =>
      if p c then let (a, b) := span p s' in (String c a, b)
      else (EmptyString, s)
  end.

(** [\b] between two neighbours; the ends of the string count as
    non-word characters. *)
Definition opt_word (c : option ascii) : bool :=
  match c with
  | Some c => is_word c
  | None => false
  end.

Definition word_boundary (prev next : option ascii) : bool :=
  xorb (opt_word prev) (opt_word next).

(** [int(s)] of a string of decimal digits. *)
Definition digit_val (c : ascii) : Z := Z.of_N (code c) - 48.

Fixpoint int_acc (acc : Z) (s : string) : Z :=
  match s with
  | EmptyString => acc
  | String c s' => int_acc (10 * acc + digit_val c) s'
  end.

Definition int_of (s : string) : Z := int_acc 0 s.

(** Decimal digits of a number, [w] of them, most significant first. *)
Definition digit_char (d : Z) : ascii := ascii_of_N (Z.to_N (48 + d)).

Fixpoint digits (w : nat) (n : Z) : string :=
  match w with
  | O => EmptyString
  | S w' => String (digit_char (n / 10 ^ Z.of_nat w')) (digits w' (n mod 10 ^ Z.of_nat w'))
  end.

(** [str(n)] of a number that is not negative: no padding. *)
Fixpoint width_of (fuel : nat) (n : Z) : nat :=
  match fuel with
  | O => 1%nat
  | S f => if n <? 10 then 1%nat else S (width_of f (n / 10))
  end.

Definition str_of_Z (n : Z) : string :=
  if n <? 0 then String "-" (digits (width_of (Z.to_nat (- n)) (- n)) (- n))
  else digits (width_of (Z.to_nat n) n) n.

(** [str.capitalize] on a word that is already lower case. *)
Definition upper_char (c : ascii) : ascii :=
  if between 97 122 (code c) then ascii_of_N (code c - 32) else c.

Definition capitalize (s : string) : string :=
  match s with
  | EmptyString => EmptyString
  | String c s' => String (upper_char c) s'
  end.

End Chars.
Import Chars.

(* ================================================================== *)
(** ** Dates, tables and the dataset bundle *)

Record date := mkDate { year : Z; month : Z; day : Z }.

Definition date_eqb (a b : date) : bool :=
  (year a =? year b) && (month a =? month b) && (day a =? day b).

(** [a <= b] on timestamps at midnight. *)
Definition date_leb (a b : date) : bool :=
  (year a <? year b)
  || ((year a =? year b)
      && ((month a <? month b) || ((month a =? month b) && (day a <=? day b)))).

Definition date_ltb (a b : date) : bool := date_leb a b && negb (date_eqb a b).

(** [ts.to_period('M')] as a count of months. *)
Definition period_M (d : date) : Z := year d * 12 + (month d - 1).

Definition same_period (a b : date) : bool := period_M a =? period_M b.

Record transaction := mkTransaction {
  t_month : date;
  entity : string;
  account_category : string;
  currency : string;
  amount : Q
}.

Record fx_rate := mkFx {
  f_month : date;
  f_currency : string;
  f_rate_to_usd : Q
}.

Record cash_row := mkCash { c_month : date; cash_usd : Q }.

Record data_frames := mkData {
  actuals : list transaction;
  budget : list transaction;
  cash : list cash_row;
  fx : list fx_rate
}.

(* ================================================================== *)
(** ** Outcomes, the process clock and the monad of the tools *)

Inductive exn :=
| KeyError (key : string)
| ValueError (msg : string).

Inductive outcome (A : Type) :=
| Ok (a : A)
| Raise (e : exn).
Arguments Ok {A} a.
Arguments Raise {A} e.

(** [clk k] is what the k-th reading of the process clock returns. *)
Definition clock := nat -> date.

(** A computation reads the clock oracle, counts its readings and returns
    or raises. *)
Definition M (A : Type) := clock -> nat -> outcome A * nat.

Definition ret {A} (a : A) : M A := fun _ n => (Ok a, n).

Definition bind {A B} (c : M A) (k : A -> M B) : M B :=
  fun clk n =>
    match c clk n with
    | (Ok a, n') => k a clk n'
    | (Raise e, n') => (Raise e, n')
    end.

Definition raise {A} (e : exn) : M A := fun _ n => (Raise e, n).

(** [datetime.now()] and [pd.Timestamp.now()]. *)
Definition now : M date := fun clk n => (Ok (clk n), S n).

Declare Scope monad_scope.
Delimit Scope monad_scope with monad.
Notation "x <- c ;; k" := (bind c (fun x => k))
  (at level 61, c at next level, right associativity) : monad_scope.
Local Open Scope monad_scope.

(* ================================================================== *)
(** ** The planner: regular expressions of [planner.py] *)

Module Planner.

(** The ranking search of [get_intent]: one of six words, then any
    white space, then any digits.  Groups 1 and 2 of the leftmost match. *)
Definition ranking_words : list string :=
  ["top"; "bottom"; "highest"; "lowest"; "best"; "worst"].

Fixpoint first_prefix (ws : list string) (s : string) : option (string * string) :=
  match ws with
  | [] => None
  | w :: ws' =>
      if prefix w s then Some (w, drop (String.length w) s)
      else first_prefix ws' s
  end.

Definition ranking_at (s : string) : option (string * string) :=
  match first_prefix ranking_words s with
  | Some (w, rest) =>
      let (_, r1) := span is_space rest in
      let (ds, _) := span is_digit r1 in
      Some (w, ds)
  | None => None
  end.

Fixpoint search_ranking (s : string) : option (string * string) :=
  match ranking_at s with
  | Some r => Some r
  | None =>
      match s with
      | EmptyString => None
      | String _ s' => search_ranking s'
      end
  end.

(** The search of [_extract_number_of_months]: [last] or [past], any white
    space, one digit or more, any white space, [months].  Group 2 of the
    leftmost match. *)
Definition number_at (s : string) : option string :=
  match first_prefix ["last"; "past"] s with
  | Some (_, rest) =>
      let (_, r1) := span is_space rest in
      let (ds, r2) := span is_digit r1 in
      let (_, r3) := span is_space r2 in
      match ds with
      | EmptyString => None
      | _ => if prefix "months" r3 then Some ds else None
      end
  | None => None
  end.

Fixpoint search_number (s : string) : option string :=
  match number_at s with
  | Some r => Some r
  | None =>
      match s with
      | EmptyString => None
      | String _ s' => search_number s'
      end
  end.

(** [int(s)] of a string of decimal digits: CPython refuses more than 4300
    digits. *)
Definition int_str (s : string) : M Z :=
  if 4300 <? Z.of_nat (String.length s)
  then raise (ValueError "Exceeds the limit (4300 digits) for integer string conversion")
  else ret (int_of s).

(** Extracts the number of months for a trend (e.g., "last 3 months"). *)
Definition _extract_number_of_months (query : string) (default : Z) : M Z :=
  match search_number query with
  | Some ds => int_str ds
  | None => ret default
  end.

(** The month regex [month_regex]: a word boundary, a month name in full or
    abbreviated to three letters, a word boundary, and optionally white
    space and four digits.  Each alternative is an abbreviation and its
    optional ending. *)
Definition month_alts : list (string * string) :=
  [("jan", "uary"); ("feb", "ruary"); ("mar", "ch"); ("apr", "il");
   ("may", ""); ("jun", "e"); ("jul", "y"); ("aug", "ust");
   ("sep", "tember"); ("oct", "ober"); ("nov", "ember"); ("dec", "ember")].

Fixpoint last_char (s : string) : option ascii :=
  match s with
  | EmptyString => None
  | String c EmptyString => Some c
  | String _ s' => last_char s'
  end.

(** Group 1 and [\b]: the long form first, then the abbreviation, then the
    next alternative. *)
Fixpoint name_at (alts : list (string * string)) (s : string)
  : option (string * string) :=
  match alts with
  | [] => None
  | (a, suf) :: alts' =>
      if prefix a s then
        let r := drop (String.length a) s in
        let r' := drop (String.length suf) r in
        if prefix suf r && word_boundary (last_char (a ++ suf)) (head r')
        then Some (a ++ suf, r')
        else if word_boundary (last_char a) (head r)
        then Some (a, r)
        else name_at alts' s
      else name_at alts' s
  end.

(** The optional year: group 2 and the number of characters consumed. *)
Definition year_at (rest : string) : option (string * nat) :=
  let (sp, r1) := span is_space rest in
  match sp with
  | EmptyString => None
  | _ =>
      match r1 with
      | String d1 (String d2 (String d3 (String d4 _))) =>
          if is_digit d1 && is_digit d2 && is_digit d3 && is_digit d4
          then Some (String d1 (String d2 (String d3 (String d4 EmptyString))),
                     (String.length sp + 4)%nat)
          else None
      | _ => None
      end
  end.

Record month_match := mkMatch {
  m_start : nat;              (* match.start() *)
  m_len : nat;                (* match.end() - match.start() *)
  m_name : string;            (* group 1 *)
  m_year : option string      (* group 2 *)
}.

Definition month_at (pos : nat) (prev : option ascii) (s : string)
  : option month_match :=
  if word_boundary prev (head s) then
    match name_at month_alts s with
    | Some (name, rest) =>
        match year_at rest with
        | Some (y, k) => Some (mkMatch pos (String.length name + k) name (Some y))
        | None => Some (mkMatch pos (String.length name) name None)
        end
    | None => None
    end
  else None.

(** [month_regex.finditer(query)]: the matches from left to right, none
    overlapping; [skip] characters still belong to the last match. *)
Fixpoint finditer_from (pos skip : nat) (prev : option ascii) (s : string)
  : list month_match :=
  match s with
  | EmptyString => []
  | String c s' =>
      match skip with
      | S k => finditer_from (S pos) k (Some c) s'
      | O =>
          match month_at pos prev s with
          | Some m => m :: finditer_from (S pos) (m_len m - 1) (Some c) s'
          | None => finditer_from (S pos) 0 (Some c) s'
          end
      end
  end.

Definition finditer (query : string) : list month_match :=
  finditer_from 0 0 None query.

End Planner.
Import Planner.

(* ================================================================== *)
(** ** The planner: month extraction and intent classification *)

Module Sorting.

(** [sorted]: a stable sort, ascending for the order [leb]. *)
Fixpoint insert {A} (leb : A -> A -> bool) (x : A) (l : list A) : list A :=
  match l with
  | [] => [x]
  | y :: l' => if leb x y then x :: l else y :: insert leb x l'
  end.

Definition sort_by {A} (leb : A -> A -> bool) (l : list A) : list A :=
  fold_right (insert leb) [] l.

Definition mem_str (s : string) (l : list string) : bool :=
  existsb (String.eqb s) l.

(** [set(l)], its elements listed once each. *)
Fixpoint set_of (l : list string) : list string :=
  match l with
  | [] => []
  | x :: l' => if mem_str x l' then set_of l' else x :: set_of l'
  end.

Definition sorted_str (l : list string) : list string := sort_by String.leb l.

End Sorting.
Import Sorting.

Inductive metric := Revenue | Opex | EBITDA | GrossMargin.

Definition metric_name (m : metric) : string :=
  match m with
  | Revenue => "Revenue"
  | Opex => "Opex"
  | EBITDA => "EBITDA"
  | GrossMargin => "Gross Margin"
  end.

Inductive ranking := top | bottom.

Definition ranking_name (r : ranking) : string :=
  match r with
  | top => "top"
  | bottom => "bottom"
  end.

(** The dictionary that [get_intent] returns, by its key ["intent"]. *)
Inductive intent :=
| revenue_vs_budget (month : string)
| opex_breakdown (month : string)
| cash_runway_projection
| ebitda_single_month (month : string)
| metric_trend (m : metric) (months : Z)
| gross_margin_trend (months : Z)
| revenue_variance_by_entity (month : string)
| cash_balance_trend (months : Z)
| metric_ranking (m : metric) (r : ranking) (n : Z)
| single_metric (m : metric) (month : string)
| multi_month_metric (m : metric) (months : list string)
| unknown.

Module Extract.

Definition month_abbrs : list string :=
  ["jan"; "feb"; "mar"; "apr"; "may"; "jun";
   "jul"; "aug"; "sep"; "oct"; "nov"; "dec"].

Fixpoint index_of (s : string) (l : list string) (i : Z) : option Z :=
  match l with
  | [] => None
  | x :: l' => if String.eqb s x then Some i else index_of s l' (i + 1)
  end.

(** [datetime.strptime(s, '%b').month]; a [ValueError] when [s] is not the
    abbreviation of a month. *)
Definition strptime_b (s : string) : M Z :=
  match index_of s month_abbrs 1 with
  | Some k => ret k
  | None => raise (ValueError "time data does not match format '%b'")
  end.

(** [datetime(year, month, 1)]: the year is between MINYEAR and MAXYEAR. *)
Definition datetime_first (y m : Z) : M date :=
  if (1 <=? y) && (y <=? 9999) then
    if (1 <=? m) && (m <=? 12) then ret (mkDate y m 1)
    else raise (ValueError "month must be in 1..12")
  else raise (ValueError "year is out of range").

(** [d.strftime('%Y-%m-%d')] of a [datetime]: the year is not padded. *)
Definition strftime_ymd (d : date) : string :=
  str_of_Z (year d) ++ "-" ++ digits 2 (month d) ++ "-" ++ digits 2 (day d).

Fixpoint max_list (l : list Z) : option Z :=
  match l with
  | [] => None
  | x :: l' =>
      match max_list l' with
      | None => Some x
      | Some y => Some (Z.max x y)
      end
  end.

(** The rows of actuals of one calendar month, and their latest year. *)
Definition relevant_dates (df : data_frames) (month_num : Z) : list transaction :=
  filter (fun r => month (t_month r) =? month_num) (actuals df).

Definition latest_year (df : data_frames) (month_num : Z) : option Z :=
  max_list (map (fun r => year (t_month r)) (relevant_dates df month_num)).

(** The year of one match: the explicit one, else the latest year of that
    month in actuals, else the year of the clock, read now. *)
Definition resolve_year (m : month_match) (month_num : Z) (df : data_frames) : M Z :=
  match m_year m with
  | Some ys => ret (int_of ys)
  | None =>
      match latest_year df month_num with
      | Some y => ret y
      | None => today <- now ;; ret (year today)
      end
  end.

(** One turn of the loop over the matches: the string of the date. *)
Definition full_date_of (m : month_match) (df : data_frames) : M string :=
  month_num <- strptime_b (substring 0 3 (m_name m)) ;;
  y <- resolve_year m month_num df ;;
  d <- datetime_first y month_num ;;
  ret (strftime_ymd d).

Fixpoint extract_loop (ms : list month_match) (df : data_frames)
    (found_months : list string) : M (list string) :=
  match ms with
  | [] => ret found_months
  | m :: ms' =>
      full_date <- full_date_of m df ;;
      extract_loop ms' df
        (if mem_str full_date found_months then found_months
         else found_months ++ [full_date])
  end.

(** Extracts all mentioned months and years from a query.  The regex is
    compiled with IGNORECASE: it matches on the lowered text. *)
Definition _extract_months (query : string) (df : data_frames) : M (list string) :=
  found_months <- extract_loop (finditer (lower query)) df [] ;;
  ret (sorted_str (set_of found_months)).

End Extract.
Import Extract.

Module Intent.

Definition orelse {A} (a b : option A) : option A :=
  match a with
  | Some _ => a
  | None => b
  end.

Definition when {A} (c : bool) (a : A) : option A := if c then Some a else None.

(** Ranking / extrema: the tests on the metric, once N is read. *)
Definition ranking_choice (query ranking_type : string) (n : Z) : option intent :=
  let r := if mem_str ranking_type ["top"; "highest"; "best"] then top else bottom in
  orelse (when (contains "revenue" query) (metric_ranking Revenue r n))
  (orelse (when (contains "opex" query) (metric_ranking Opex r n))
  (orelse (when (contains "ebitda" query) (metric_ranking EBITDA r n))
          (when (contains "gross margin" query) (metric_ranking GrossMargin r n)))).

(** Trend analysis: the tests on the metric, once the number of months is
    read. *)
Definition trend_choice (query : string) (months_n : Z) : option intent :=
  orelse (when (contains "revenue" query) (metric_trend Revenue months_n))
  (orelse (when (contains "opex" query) (metric_trend Opex months_n))
  (orelse (when (contains "ebitda" query) (metric_trend EBITDA months_n))
  (orelse (when (contains "gross margin" query) (gross_margin_trend months_n))
          (when (contains "cash balance" query) (cash_balance_trend months_n))))).

(** Specific month(s) analysis. *)
Definition multi_month_rule (query : string) (months : list string) : option intent :=
  if (1 <? Z.of_nat (List.length months)) then
    orelse (when (contains "revenue" query) (multi_month_metric Revenue months))
    (orelse (when (contains "opex" query) (multi_month_metric Opex months))
            (when (contains "gross margin" query) (multi_month_metric GrossMargin months)))
  else None.

Definition single_month_rule (query : string) (months : list string) : option intent :=
  match months with
  | [month] =>
      orelse (when (contains "revenue" query && contains "budget" query)
                (revenue_vs_budget month))
      (orelse (when (contains "opex" query
                     && (contains "break down" query || contains "breakdown" query))
                (opex_breakdown month))
      (orelse (when (contains "ebitda" query) (ebitda_single_month month))
      (orelse (when (contains "revenue" query && contains "entity" query)
                (revenue_variance_by_entity month))
      (orelse (when (contains "revenue" query) (single_metric Revenue month))
      (orelse (when (contains "opex" query) (single_metric Opex month))
              (when (contains "gross margin" query) (single_metric GrossMargin month)))))))
  | _ => None
  end.

(** General questions. *)
Definition general_rule (query : string) : option intent :=
  when (contains "cash runway" query || contains "runway" query) cash_runway_projection.

(** The blocks for the months and the general questions. *)
Definition month_rules (query : string) (months : list string) : intent :=
  match orelse (multi_month_rule query months)
        (orelse (single_month_rule query months)
                (general_rule query)) with
  | Some i => i
  | None => unknown
  end.

(** The ranking block: N is read, with [int], before the metric is
    tested. *)
Definition ranking_block (query : string) : M (option intent) :=
  match search_ranking query with
  | Some (ranking_type, ds) =>
      n <- match ds with
           | EmptyString => ret 1
           | _ => int_str ds
           end ;;
      ret (ranking_choice query ranking_type n)
  | None => ret None
  end.

(** The trend block: the number of months is read before the metric is
    tested. *)
Definition trend_block (query : string) : M (option intent) :=
  if contains "trend" query || contains "history" query || contains "historical" query
  then months_n <- _extract_number_of_months query 6 ;;
       ret (trend_choice query months_n)
  else ret None.

(** Classifies the user's intent based on keywords: the chain of [if]
    blocks, each returning at its first metric found. *)
Definition get_intent (query : string) (df : data_frames) : M intent :=
  let query := lower query in
  months <- _extract_months query df ;;
  ranking <- ranking_block query ;;
  match ranking with
  | Some i => ret i
  | None =>
      trend <- trend_block query ;;
      match trend with
      | Some i => ret i
      | None => ret (month_rules query months)
      end
  end.

End Intent.
Import Intent.

(* ================================================================== *)
(** ** The tools: values, summaries, charts and pandas helpers *)

Module Frame.

(** The value of a float64 cell after a division that is not guarded. *)
Inductive fval :=
| Fin (q : Q)
| PInf
| NInf
| NaN.

Definition Qsum (l : list Q) : Q := fold_right Qplus 0%Q l.

(** Element-wise [a / b] of two float64 columns: no exception, the IEEE
    special values when [b] is zero. *)
Definition fdiv (a b : Q) : fval :=
  if Qeq_bool b 0 then
    if Qeq_bool a 0 then NaN
    else if Qle_bool 0 a then PInf else NInf
  else Fin (a / b).

Definition fscale (v : fval) (k : Q) : fval :=
  match v with
  | Fin q => Fin (q * k)
  | other => other
  end.

(** The format of an interpolated number. *)
Inductive fmt :=
| Comma2   (* {:,.2f} *)
| Plain2   (* {:.2f} *)
| Plain1.  (* {:.1f} *)

Inductive piece :=
| Lit (s : string)
| Num (f : fmt) (v : fval).

Definition summary := list piece.

Inductive chart_kind := bar | line | pie | barh.

Inductive xval :=
| XDate (d : date)
| XLabel (s : string).

Record chart := mkChart {
  kind : chart_kind;
  title : string;
  axis_label : string;
  series : list (list (xval * fval))
}.

(** What a tool returns: the summary and the figure or [None]. *)
Definition answer := (summary * option chart)%type.

(** Month names of [strftime]. *)
Definition full_names : list string :=
  ["January"; "February"; "March"; "April"; "May"; "June"; "July";
   "August"; "September"; "October"; "November"; "December"].

Definition abbr_names : list string :=
  ["Jan"; "Feb"; "Mar"; "Apr"; "May"; "Jun"; "Jul"; "Aug"; "Sep"; "Oct"; "Nov"; "Dec"].

(** [d.strftime('%B %Y')] and [d.strftime('%b %Y')]. *)
Definition strftime_BY (d : date) : string :=
  nth (Z.to_nat (month d - 1)) full_names "" ++ " " ++ digits 4 (year d).

Definition strftime_bY (d : date) : string :=
  nth (Z.to_nat (month d - 1)) abbr_names "" ++ " " ++ digits 4 (year d).

Definition is_leap (y : Z) : bool :=
  ((y mod 4 =? 0) && negb (y mod 100 =? 0)) || (y mod 400 =? 0).

Definition days_in_month (y m : Z) : Z :=
  if m =? 2 then (if is_leap y then 29 else 28)
  else if (m =? 4) || (m =? 6) || (m =? 9) || (m =? 11) then 30 else 31.

(** The days that a timestamp holds at midnight. *)
Definition in_bounds (d : date) : bool :=
  date_leb (mkDate 1677 9 22) d && date_leb d (mkDate 2262 4 11).

(** [OutOfBoundsDatetime], a [ValueError]. *)
Definition out_of_bounds : exn := ValueError "Out of bounds nanosecond timestamp".

(** [pd.to_datetime(s)] on a string [YYYY-MM-DD]; any other string counts
    as refused. *)
Definition to_datetime (s : string) : M date :=
  match s with
  | String y1 (String y2 (String y3 (String y4 (String sep1
      (String m1 (String m2 (String sep2 (String d1 (String d2 EmptyString))))))))) =>
      if Ascii.eqb sep1 "-" && Ascii.eqb sep2 "-"
         && forallb is_digit [y1; y2; y3; y4; m1; m2; d1; d2] then
        let y := int_of (String y1 (String y2 (String y3 (String y4 EmptyString)))) in
        let m := int_of (String m1 (String m2 EmptyString)) in
        let d := int_of (String d1 (String d2 EmptyString)) in
        if (1 <=? m) && (m <=? 12) && (1 <=? d) && (d <=? days_in_month y m)
        then
          if in_bounds (mkDate y m d) then ret (mkDate y m d)
          else raise out_of_bounds
        else raise (ValueError "day or month is out of range")
      else raise (ValueError "unknown datetime string format")
  | _ => raise (ValueError "unknown datetime string format")
  end.

(** [ts + DateOffset(months=k)]: the day is kept, or cut to the length of
    the month reached. *)
Definition add_months (d : date) (k : Z) : date :=
  let p := period_M d + k in
  let y := p / 12 in
  let m := p mod 12 + 1 in
  mkDate y m (Z.min (day d) (days_in_month y m)).

(** [ts + DateOffset(months=k)] as pandas computes it: it raises when the
    date reached is not a timestamp. *)
Definition ts_add_months (d : date) (k : Z) : M date :=
  let r := add_months d k in
  if in_bounds r then ret r else raise out_of_bounds.

(** A row of a table after [_convert_to_usd]. *)
Record usd_row := mkUsd {
  base : transaction;
  rate_to_usd : Q;
  amount_usd : Q
}.

Definition fx_matches (r : transaction) (f : fx_rate) : bool :=
  date_eqb (t_month r) (f_month f) && String.eqb (currency r) (f_currency f).

(** Converts amounts to USD using monthly exchange rates: a left merge on
    month and currency, a missing rate filled with 1.0. *)
Definition _convert_to_usd (df : list transaction) (fx_rates : list fx_rate)
  : list usd_row :=
  flat_map
    (fun r =>
       match filter (fx_matches r) fx_rates with
       | [] => [mkUsd r 1 (amount r * 1)]
       | fs => map (fun f => mkUsd r (f_rate_to_usd f) (amount r * f_rate_to_usd f)) fs
       end)
    df.

Definition row_month (r : usd_row) : date := t_month (base r).
Definition row_category (r : usd_row) : string := account_category (base r).

Definition mem_date (d : date) (l : list date) : bool := existsb (date_eqb d) l.

Fixpoint dedup_dates (l : list date) : list date :=
  match l with
  | [] => []
  | x :: l' => if mem_date x l' then dedup_dates l' else x :: dedup_dates l'
  end.

(** The distinct values of a key, in ascending order, as [groupby] and
    [pivot_table] list them. *)
Definition sorted_dates (l : list date) : list date :=
  sort_by date_leb (dedup_dates l).

Definition sorted_keys (l : list string) : list string := sorted_str (set_of l).

(** [pivot_table(index='month', columns='account_category',
    values='amount_usd', aggfunc='sum').fillna(0)]. *)
Record pivot := mkPivot {
  p_index : list date;
  p_columns : list string;
  p_rows : list usd_row
}.

Definition pivot_table (rows : list usd_row) : pivot :=
  mkPivot (sorted_dates (map row_month rows))
          (sorted_keys (map row_category rows))
          rows.

Definition cell (p : pivot) (d : date) (c : string) : Q :=
  Qsum (map amount_usd
          (filter (fun r => date_eqb (row_month r) d && String.eqb (row_category r) c)
                  (p_rows p))).

(** [pivot[c]]: a [KeyError] when no row has the category [c]. *)
Definition column (p : pivot) (c : string) : M (list (date * Q)) :=
  if mem_str c (p_columns p)
  then ret (map (fun d => (d, cell p d c)) (p_index p))
  else raise (KeyError c).

(** [pivot.get(c, pd.Series([0])).sum()]. *)
Definition get_sum (p : pivot) (c : string) : Q :=
  if mem_str c (p_columns p)
  then Qsum (map (fun d => cell p d c) (p_index p))
  else Qsum [0%Q].

(** [pivot.filter(regex='^Opex')]: the columns whose name starts with Opex. *)
Definition opex_columns (p : pivot) : list string :=
  filter (prefix "Opex") (p_columns p).

(** [pivot.filter(regex='^Opex').sum(axis=1)] at one month. *)
Definition opex_at (p : pivot) (d : date) : Q :=
  Qsum (map (cell p d) (opex_columns p)).

(** [pivot.filter(regex='^Opex').sum().sum()]. *)
Definition opex_total (p : pivot) : Q :=
  Qsum (map (fun c => Qsum (map (fun d => cell p d c) (p_index p))) (opex_columns p)).

(** [x.last(f'{n}M')] on rows in ascending order of their date: the rows
    after the end of the n-th month before the month of the last row. *)
Definition last_months {A} (n : Z) (rows : list (date * A)) : list (date * A) :=
  match rows with
  | [] => []
  | r0 :: _ =>
      let d_last := fst (List.last rows r0) in
      filter (fun r => period_M d_last - n <? period_M (fst r)) rows
  end.

(** [index[-1] - MonthEnd(n)], the day that [.last(f'{n}M')] counts from:
    the last day of the n-th month before the month of the last row. *)
Definition month_end (p : Z) : date :=
  mkDate (p / 12) (p mod 12 + 1) (days_in_month (p / 12) (p mod 12 + 1)).

Definition window_start (n : Z) (d_last : date) : date :=
  if (n <? 0) && negb (day d_last =? days_in_month (year d_last) (month d_last))
  then month_end (period_M d_last - n - 1)
  else month_end (period_M d_last - n).

(** [x.last(f'{n}M')] with its subtraction of dates, which raises when it
    leaves the range of timestamps; an empty frame is returned as it is. *)
Definition last_window {A} (n : Z) (rows : list (date * A)) : M (list (date * A)) :=
  match rows with
  | [] => ret []
  | r0 :: _ =>
      if in_bounds (window_start n (fst (List.last rows r0)))
      then ret (last_months n rows)
      else raise out_of_bounds
  end.

(** The rows of one calendar month. *)
Definition in_month (target_month : date) (rows : list usd_row) : list usd_row :=
  filter (fun r => same_period (row_month r) target_month) rows.

Definition up_to (today : date) (rows : list usd_row) : list usd_row :=
  filter (fun r => date_leb (row_month r) today) rows.

Definition revenue_sum (rows : list usd_row) : Q :=
  Qsum (map amount_usd (filter (fun r => String.eqb (row_category r) "Revenue") rows)).

End Frame.
Import Frame.

(* ================================================================== *)
(** ** The tools of [tools.py] *)

Module Tools.

(** The line feed of the f-strings. *)
Definition nl : string := String (ascii_of_nat 10) EmptyString.

Definition money (q : Q) : piece := Num Comma2 (Fin q).

Definition is_finite (v : fval) : bool :=
  match v with
  | Fin _ => true
  | _ => false
  end.

(** [sns.lineplot(data=frame, x=frame.index, y=column)]: seaborn refuses
    an empty frame with [KeyError('x')], and draws the cells that are
    finite numbers. *)
Definition lineplot (rows : list (date * fval)) : M (list (xval * fval)) :=
  match rows with
  | [] => raise (KeyError "x")
  | _ => ret (map (fun r : date * fval => (XDate (fst r), snd r))
                  (filter (fun r => is_finite (snd r)) rows))
  end.

(** Compares actual revenue vs. budget for a given month. *)
Definition get_revenue_vs_budget (month_str : string) (df : data_frames) : M answer :=
  let actuals := _convert_to_usd (actuals df) (fx df) in
  let budget := _convert_to_usd (budget df) (fx df) in
  target_month <- to_datetime month_str ;;
  let actual_rev := revenue_sum (in_month target_month actuals) in
  let budget_rev := revenue_sum (in_month target_month budget) in
  let variance := (actual_rev - budget_rev)%Q in
  ret ([Lit "**Revenue for "; Lit (strftime_BY target_month); Lit (":**" ++ nl);
        Lit "- **Actual:** $"; money actual_rev; Lit (" USD" ++ nl);
        Lit "- **Budget:** $"; money budget_rev; Lit (" USD" ++ nl);
        Lit "- **Variance:** $"; money variance; Lit " USD"],
       Some (mkChart bar ("Revenue vs. Budget for " ++ strftime_BY target_month)
               "Amount (USD)"
               [[(XLabel "Actual", Fin actual_rev); (XLabel "Budget", Fin budget_rev)]])).

(** The column that the trend and the ranking both compute, with the same
    expression: (Revenue - COGS) / Revenue * 100 on whole columns of the
    pivot, one cell a month. *)
Definition gross_margin_column (p : pivot) : M (list (date * fval)) :=
  revenue <- column p "Revenue" ;;
  _ <- column p "COGS" ;;
  ret (map (fun r : date * Q =>
              (fst r, fscale (fdiv (snd r - cell p (fst r) "COGS") (snd r)) 100))
           revenue).

(** Calculates and plots the gross margin trend for the last N months. *)
Definition get_gross_margin_trend (months : Z) (df : data_frames) : M answer :=
  let df_usd := _convert_to_usd (actuals df) (fx df) in
  today <- now ;;
  let monthly_pivot := pivot_table (up_to today df_usd) in
  gross_margin <- gross_margin_column monthly_pivot ;;
  trend_data <- last_window months gross_margin ;;
  points <- lineplot trend_data ;;
  ret (Lit "**Gross Margin Trend (" :: Lit (str_of_Z months) :: Lit (" Months):**" ++ nl)
         :: flat_map (fun r : date * fval =>
                        [Lit "- **"; Lit (strftime_bY (fst r)); Lit ":** ";
                         Num Plain2 (snd r); Lit ("%" ++ nl)])
                     trend_data,
       Some (mkChart line ("Gross Margin Trend (Last " ++ str_of_Z months ++ " Months)")
               "Gross Margin (%)" [points])).

(** [s.replace(pat, '')]. *)
Fixpoint remove_all_from (skip : nat) (pat s : string) : string :=
  match s with
  | EmptyString => EmptyString
  | String c s' =>
      match skip with
      | S k => remove_all_from k pat s'
      | O =>
          if prefix pat s then remove_all_from (String.length pat - 1) pat s'
          else String c (remove_all_from 0 pat s')
      end
  end.

Definition remove_all (pat s : string) : string := remove_all_from 0 pat s.

(** [sort_values] of a series of finite values. *)
Definition sort_values_Q {A} (ascending : bool) (l : list (A * Q)) : list (A * Q) :=
  if ascending then sort_by (fun a b => Qle_bool (snd a) (snd b)) l
  else sort_by (fun a b => Qle_bool (snd b) (snd a)) l.

(** Shows a breakdown of Opex by category for a given month.  The pie of
    no category, or of a negative amount, is refused with a
    [ValueError]. *)
Definition get_opex_breakdown (month_str : string) (df : data_frames) : M answer :=
  let df_usd := _convert_to_usd (actuals df) (fx df) in
  target_month <- to_datetime month_str ;;
  let month_data := in_month target_month df_usd in
  let opex_data :=
    map (fun r => (remove_all "Opex: " (row_category r), amount_usd r))
        (filter (fun r => prefix "Opex:" (row_category r)) month_data) in
  let grouped :=
    map (fun c => (c, Qsum (map snd (filter (fun r : string * Q => String.eqb (fst r) c) opex_data))))
        (sorted_keys (map fst opex_data)) in
  let opex_summary := sort_values_Q false grouped in
  let total_opex := Qsum (map snd opex_summary) in
  _ <- match opex_summary with
       | [] => raise (ValueError "the plot of an empty series is refused")
       | _ =>
           if forallb (fun r : string * Q => Qle_bool 0 (snd r)) opex_summary then ret tt
           else raise (ValueError "pie plot doesn't allow negative values")
       end ;;
  ret (Lit "**Opex Breakdown for " :: Lit (strftime_BY target_month)
         :: Lit " (Total: $" :: money total_opex :: Lit (" USD):**" ++ nl)
         :: flat_map (fun r : string * Q =>
                        [Lit "- **"; Lit (fst r); Lit ":** $"; money (snd r);
                         Lit (" USD" ++ nl)])
                     opex_summary,
       Some (mkChart pie ("Opex Breakdown for " ++ strftime_BY target_month) ""
               [map (fun r : string * Q => (XLabel (fst r), Fin (snd r))) opex_summary])).

(** [groupby('month')['amount_usd'].sum()]. *)
Definition monthly_totals (rows : list usd_row) : list (date * Q) :=
  map (fun d => (d, Qsum (map amount_usd (filter (fun r => date_eqb (row_month r) d) rows))))
      (sorted_dates (map row_month rows)).

Definition last_opt {A} (l : list A) : option A :=
  match l with
  | [] => None
  | x :: _ => Some (List.last l x)
  end.

(** The monthly totals of actuals up to today, and the rows of the burn
    window: these totals cut to the last three months. *)
Definition burn_up_to_today (df : data_frames) (today : date) : list (date * Q) :=
  let df_usd := _convert_to_usd (actuals df) (fx df) in
  filter (fun r : date * Q => date_leb (fst r) today) (monthly_totals df_usd).

Definition last_3_months_burn (df : data_frames) (today : date) : list (date * Q) :=
  last_months 3 (burn_up_to_today df today).

Definition mean (l : list Q) : Q := (Qsum l / inject_Z (Z.of_nat (List.length l)))%Q.

(** Helper to calculate average net burn and latest cash; the triple of
    [None] is [None] here. *)
Definition _calculate_net_burn (df : data_frames) : M (option (Q * Q * date)) :=
  today <- now ;;
  let cash_up_to_today := filter (fun r => date_leb (c_month r) today) (cash df) in
  match last_opt cash_up_to_today with
  | None => ret None
  | Some latest =>
      let latest_cash_balance := cash_usd latest in
      let last_cash_month := c_month latest in
      let burn := last_3_months_burn df today in
      if (Z.of_nat (List.length burn) <? 3) then ret None
      else
        let avg_monthly_burn := (- mean (map snd burn))%Q in
        ret (Some (avg_monthly_burn, latest_cash_balance, last_cash_month))
  end.

Fixpoint mapM {A B} (f : A -> M B) (l : list A) : M (list B) :=
  match l with
  | [] => ret []
  | x :: l' => y <- f x ;; ys <- mapM f l' ;; ret (y :: ys)
  end.

(** [int(x)]: the fraction is dropped, towards zero. *)
Definition int_Q (x : Q) : Z := Z.quot (Qnum x) (Zpos (Qden x)).

(** [range(n)]. *)
Definition range (n : Z) : list Z := map Z.of_nat (seq 0 (Z.to_nat n)).

Definition historical_cash (df : data_frames) (last_month : date) : list (xval * fval) :=
  map (fun r => (XDate (c_month r), Fin (cash_usd r)))
      (filter (fun r => date_leb (c_month r) last_month) (cash df)).

(** Calculates and plots cash runway for cash-negative scenario. *)
Definition get_cash_runway (avg_monthly_burn latest_cash : Q) (last_month : date)
    (df : data_frames) : M answer :=
  let runway_months := (latest_cash / avg_monthly_burn)%Q in
  end_date <- ts_add_months last_month (int_Q runway_months) ;;
  projection_dates <-
    mapM (ts_add_months last_month) (range (int_Q runway_months + 2)) ;;
  let projection_cash :=
    map (fun i => (latest_cash - avg_monthly_burn * inject_Z i)%Q)
        (range (Z.of_nat (List.length projection_dates))) in
  ret ([Lit ("**Cash Runway Analysis:**" ++ nl);
        Lit "- **Current Cash Balance:** $"; money latest_cash; Lit (" USD" ++ nl);
        Lit "- **Avg. Monthly Net Burn (3-mo):** $"; money avg_monthly_burn; Lit (" USD" ++ nl);
        Lit "- **Estimated Runway:** "; Num Plain1 (Fin runway_months);
        Lit " months (until **"; Lit (strftime_BY end_date); Lit "**)"],
       Some (mkChart line "Cash Runway Projection" "Cash Balance (USD)"
               [map (fun r : date * Q => (XDate (fst r), Fin (snd r)))
                    (combine projection_dates projection_cash);
                historical_cash df last_month])).

(** Calculates and plots cash projection for cash-positive scenario. *)
Definition get_cash_projection (avg_monthly_gain latest_cash : Q) (last_month : date)
    (df : data_frames) : M answer :=
  projection_dates <- mapM (ts_add_months last_month) (range 13) ;;
  let projection_cash :=
    map (fun i => (latest_cash + avg_monthly_gain * inject_Z i)%Q)
        (range (Z.of_nat (List.length projection_dates))) in
  ret ([Lit ("**Cash Flow Positive Analysis:**" ++ nl);
        Lit "- **Current Cash Balance:** $"; money latest_cash; Lit (" USD" ++ nl);
        Lit "- **Avg. Monthly Net Gain (3-mo):** $"; money avg_monthly_gain; Lit (" USD" ++ nl);
        Lit "- Your business is currently cash flow positive."],
       Some (mkChart line "Cash Growth Projection (12 Months)" "Cash Balance (USD)"
               [map (fun r : date * Q => (XDate (fst r), Fin (snd r)))
                    (combine projection_dates projection_cash);
                historical_cash df last_month])).

(** Calculates EBITDA for a given month and shows a waterfall chart. *)
Definition get_ebitda (month_str : string) (df : data_frames) : M answer :=
  let df_usd := _convert_to_usd (actuals df) (fx df) in
  target_month <- to_datetime month_str ;;
  let p := pivot_table (in_month target_month df_usd) in
  let revenue := get_sum p "Revenue" in
  let cogs := get_sum p "COGS" in
  let opex := opex_total p in
  let ebitda := (revenue - cogs - opex)%Q in
  ret ([Lit "**EBITDA Calculation for "; Lit (strftime_BY target_month); Lit (":**" ++ nl);
        Lit "- **Revenue:** $"; money revenue; Lit (" USD" ++ nl);
        Lit "- **COGS:** -$"; money cogs; Lit (" USD" ++ nl);
        Lit "- **Opex:** -$"; money opex; Lit (" USD" ++ nl);
        Lit ("-----------------------------" ++ nl);
        Lit "- **EBITDA:** **$"; money ebitda; Lit " USD**"],
       Some (mkChart bar ("EBITDA Waterfall for " ++ strftime_BY target_month)
               "Amount (USD)"
               [[(XLabel "Revenue", Fin revenue); (XLabel "COGS", Fin (- cogs));
                 (XLabel "Opex", Fin (- opex)); (XLabel "EBITDA", Fin ebitda)]])).

(** The column [value] of the trend and ranking tools, one cell a month. *)
Definition metric_column (metric : metric) (p : pivot) : M (list (date * fval)) :=
  match metric with
  | Revenue =>
      revenue <- column p "Revenue" ;;
      ret (map (fun r : date * Q => (fst r, Fin (snd r))) revenue)
  | Opex =>
      ret (map (fun d => (d, Fin (opex_at p d))) (p_index p))
  | EBITDA =>
      revenue <- column p "Revenue" ;;
      _ <- column p "COGS" ;;
      ret (map (fun r : date * Q =>
                  (fst r, Fin (snd r - cell p (fst r) "COGS" - opex_at p (fst r))))
               revenue)
  | GrossMargin => gross_margin_column p
  end.

(** Calculates and plots a trend for a given metric (Rev, Opex, EBITDA);
    no branch sets the column [value] for the gross margin. *)
Definition get_metric_trend (metric : metric) (months : Z) (df : data_frames) : M answer :=
  let df_usd := _convert_to_usd (actuals df) (fx df) in
  today <- now ;;
  let p := pivot_table (up_to today df_usd) in
  value <- match metric with
           | GrossMargin => raise (KeyError "value")
           | _ => metric_column metric p
           end ;;
  trend_data <- last_window months value ;;
  points <- lineplot trend_data ;;
  ret (Lit "**" :: Lit (metric_name metric) :: Lit " Trend (" :: Lit (str_of_Z months)
         :: Lit (" Months):**" ++ nl)
         :: flat_map (fun r : date * fval =>
                        [Lit "- **"; Lit (strftime_bY (fst r)); Lit ":** $";
                         Num Comma2 (snd r); Lit (" USD" ++ nl)])
                     trend_data,
       Some (mkChart line
               (metric_name metric ++ " Trend (Last " ++ str_of_Z months ++ " Months)")
               (metric_name metric ++ " (USD)") [points])).

(** [groupby('entity')['amount_usd'].sum()]. *)
Definition by_entity (rows : list usd_row) : list (string * Q) :=
  map (fun e => (e, Qsum (map amount_usd
                            (filter (fun r => String.eqb (entity (base r)) e) rows))))
      (sorted_keys (map (fun r => entity (base r)) rows)).

Definition lookup0 (e : string) (l : list (string * Q)) : Q :=
  match find (fun r : string * Q => String.eqb (fst r) e) l with
  | Some r => snd r
  | None => 0%Q
  end.

Definition Qabs_val (q : Q) : Q := if Qle_bool 0 q then q else (- q)%Q.

(** Analyzes which entities missed their revenue budget for a month.  The
    bar plot of no entity at all is refused with a [ValueError]. *)
Definition get_revenue_variance_by_entity (month_str : string) (df : data_frames)
  : M answer :=
  let actuals := _convert_to_usd (actuals df) (fx df) in
  let budget := _convert_to_usd (budget df) (fx df) in
  target_month <- to_datetime month_str ;;
  let is_revenue := fun r => String.eqb (row_category r) "Revenue" in
  let actual_by_entity := by_entity (filter is_revenue (in_month target_month actuals)) in
  let budget_by_entity := by_entity (filter is_revenue (in_month target_month budget)) in
  let variance_df :=
    map (fun e => let a := lookup0 e actual_by_entity in
                  let b := lookup0 e budget_by_entity in
                  (e, (a, b, (a - b)%Q)))
        (sorted_keys (map fst actual_by_entity ++ map fst budget_by_entity)) in
  let variance_of := fun r : string * (Q * Q * Q) => snd (snd r) in
  let by_variance := fun a b => Qle_bool (variance_of a) (variance_of b) in
  let missed_budget :=
    sort_by by_variance
      (filter (fun r => negb (Qle_bool 0 (variance_of r))) variance_df) in
  _ <- match variance_df with
       | [] => raise (ValueError "the plot of an empty series is refused")
       | _ => ret tt
       end ;;
  ret (Lit "**Entities That Missed Revenue Budget for " :: Lit (strftime_BY target_month)
         :: Lit (":**" ++ nl)
         :: match missed_budget with
            | [] => [Lit "Congratulations! All entities met or exceeded their revenue budget."]
            | _ =>
                flat_map
                  (fun r : string * (Q * Q * Q) =>
                     [Lit "- **"; Lit (fst r); Lit ":** Missed by $";
                      money (Qabs_val (variance_of r)); Lit " USD (Actual: $";
                      money (fst (fst (snd r))); Lit ", Budget: $";
                      money (snd (fst (snd r))); Lit (")" ++ nl)])
                  missed_budget
            end,
       Some (mkChart barh
               ("Revenue Variance by Entity for " ++ strftime_BY target_month)
               "Variance (USD) - Actual vs. Budget"
               [map (fun r => (XLabel (fst r), Fin (variance_of r)))
                    (sort_by by_variance variance_df)])).

(** Plots the cash balance for the last N months. *)
Definition get_cash_balance_trend (months : Z) (df : data_frames) : M answer :=
  today <- now ;;
  let cash_up_to_today :=
    map (fun r => (c_month r, cash_usd r))
        (filter (fun r => date_leb (c_month r) today) (cash df)) in
  last_n_months <-
    last_window months
      (sort_by (fun a b : date * Q => date_leb (fst a) (fst b)) cash_up_to_today) ;;
  points <- lineplot (map (fun r : date * Q => (fst r, Fin (snd r))) last_n_months) ;;
  ret (Lit "**Cash Balance Trend (" :: Lit (str_of_Z months) :: Lit (" Months):**" ++ nl)
         :: flat_map (fun r : date * Q =>
                        [Lit "- **"; Lit (strftime_bY (fst r)); Lit ":** $";
                         money (snd r); Lit (" USD" ++ nl)])
                     last_n_months,
       Some (mkChart line ("Cash Balance Trend (Last " ++ str_of_Z months ++ " Months)")
               "Cash Balance (USD)" [points])).

(** The order of float64 values that are not NaN. *)
Definition fval_leb (a b : fval) : bool :=
  match a, b with
  | NInf, _ => true
  | _, PInf => true
  | Fin x, Fin y => Qle_bool x y
  | _, _ => false
  end.

Definition is_nan (v : fval) : bool :=
  match v with
  | NaN => true
  | _ => false
  end.

(** [sort_values(ascending=...)]: the NaN cells come last either way. *)
Definition sort_values {A} (ascending : bool) (l : list (A * fval)) : list (A * fval) :=
  let numbers := filter (fun r => negb (is_nan (snd r))) l in
  let nans := filter (fun r => is_nan (snd r)) l in
  (if ascending then sort_by (fun a b => fval_leb (snd a) (snd b)) numbers
   else sort_by (fun a b => fval_leb (snd b) (snd a)) numbers) ++ nans.

(** Finds the top or bottom N months for a given metric.  The bar plot of
    no month at all is refused with a [ValueError]. *)
Definition get_metric_ranking (metric : metric) (ranking_type : ranking) (n : Z)
    (df : data_frames) : M answer :=
  let df_usd := _convert_to_usd (actuals df) (fx df) in
  today <- now ;;
  let p := pivot_table (up_to today df_usd) in
  value <- metric_column metric p ;;
  let ascending := match ranking_type with bottom => true | top => false end in
  let ranked_data := firstn (Z.to_nat n) (sort_values ascending value) in
  let heading := capitalize (ranking_name ranking_type) in
  _ <- match ranked_data with
       | [] => raise (ValueError "the plot of an empty series is refused")
       | _ => ret tt
       end ;;
  ret (Lit "**" :: Lit heading :: Lit " " :: Lit (str_of_Z n) :: Lit " Month(s) for "
         :: Lit (metric_name metric) :: Lit (":**" ++ nl)
         :: flat_map (fun r : date * fval =>
                        match metric with
                        | GrossMargin =>
                            [Lit "- **"; Lit (strftime_BY (fst r)); Lit ":** ";
                             Num Plain2 (snd r); Lit ("%" ++ nl)]
                        | _ =>
                            [Lit "- **"; Lit (strftime_BY (fst r)); Lit ":** $";
                             Num Comma2 (snd r); Lit (" USD" ++ nl)]
                        end)
                     ranked_data,
       Some (mkChart barh
               (heading ++ " " ++ str_of_Z n ++ " " ++ metric_name metric ++ " Months")
               (metric_name metric ++ " "
                ++ match metric with GrossMargin => "(%)" | _ => "(USD)" end)
               [map (fun r : date * fval => (XDate (fst r), snd r))
                    (sort_values true ranked_data)])).

(** Calculates a single metric for a single month. *)
Definition get_single_metric (metric : metric) (month_str : string) (df : data_frames)
  : M answer :=
  let df_usd := _convert_to_usd (actuals df) (fx df) in
  target_month <- to_datetime month_str ;;
  let month_data := in_month target_month df_usd in
  match month_data with
  | [] => ret ([Lit "No data found for "; Lit (strftime_BY target_month); Lit "."], None)
  | _ =>
      let pivot_month := pivot_table month_data in
      let '(value, unit) :=
        match metric with
        | GrossMargin =>
            let revenue := get_sum pivot_month "Revenue" in
            let cogs := get_sum pivot_month "COGS" in
            (if negb (Qeq_bool revenue 0) then ((revenue - cogs) / revenue * 100)%Q else 0%Q,
             "%")
        | Revenue => (get_sum pivot_month "Revenue", "USD")
        | Opex => (opex_total pivot_month, "USD")
        | EBITDA => (0%Q, "USD")
        end in
      ret ([Lit "**"; Lit (metric_name metric); Lit " for "; Lit (strftime_BY target_month);
            Lit ":** "; money value; Lit " "; Lit unit],
           None)
  end.

(** [results[k] = v] on a dictionary kept in insertion order. *)
Fixpoint dict_set (k : string) (v : Q) (d : list (string * Q)) : list (string * Q) :=
  match d with
  | [] => [(k, v)]
  | (k', v') :: d' => if String.eqb k k' then (k, v) :: d' else (k', v') :: dict_set k v d'
  end.

(** The value of the metric for one month of the comparison, [None] when
    the month is left out. *)
Definition multi_month_value (metric : metric) (month_data : list usd_row) : option Q :=
  match month_data with
  | [] => None
  | _ =>
      let p := pivot_table month_data in
      match metric with
      | GrossMargin =>
          let revenue := get_sum p "Revenue" in
          let cogs := get_sum p "COGS" in
          if negb (Qeq_bool revenue 0) then Some ((revenue - cogs) / revenue * 100)%Q
          else None
      | Revenue => Some (get_sum p "Revenue")
      | Opex => Some (opex_total p)
      | EBITDA => None
      end
  end.

(** Calculates a metric for multiple specified months and compares them. *)
Definition get_multi_month_metric (metric : metric) (months_list : list string)
    (df : data_frames) : M answer :=
  let df_usd := _convert_to_usd (actuals df) (fx df) in
  target_months <- mapM to_datetime months_list ;;
  let results :=
    fold_left
      (fun results target_month =>
         match multi_month_value metric (in_month target_month df_usd) with
         | Some value => dict_set (strftime_bY target_month) value results
         | None => results
         end)
      target_months [] in
  match results with
  | [] => ret ([Lit "No data found for the specified months."], None)
  | _ =>
      let results_df :=
        sort_by (fun a b : string * Q => String.leb (fst a) (fst b)) results in
      let metric_display_name :=
        match metric with GrossMargin => "Gross Margin %" | _ => metric_name metric end in
      ret (Lit "**Comparison for " :: Lit metric_display_name :: Lit (":**" ++ nl)
             :: flat_map (fun r : string * Q =>
                            [Lit "- **"; Lit (fst r); Lit "**: ";
                             Lit (match metric with GrossMargin => "" | _ => "$" end);
                             money (snd r);
                             Lit (match metric with GrossMargin => "%" | _ => " USD" end);
                             Lit nl])
                         results_df,
           Some (mkChart bar (metric_display_name ++ " Comparison") metric_display_name
                   [map (fun r : string * Q => (XLabel (fst r), Fin (snd r))) results_df]))
  end.

End Tools.
Import Tools.

(* ================================================================== *)
(** ** The entry point *)

Definition not_enough_data : summary :=
  [Lit "Not enough data to calculate cash runway or projection."].

Definition sorry_message : summary :=
  [Lit "Sorry, I'm not equipped to answer that question. Please try asking about revenue, opex, cash, or margins."].

(** Route to the correct tool based on intent. *)
Definition route (i : intent) (df : data_frames) : M answer :=
  match i with
  | revenue_vs_budget month => get_revenue_vs_budget month df
  | opex_breakdown month => get_opex_breakdown month df
  | cash_runway_projection =>
      burn <- _calculate_net_burn df ;;
      match burn with
      | None => ret (not_enough_data, None)
      | Some (avg_burn, latest_cash, last_month) =>
          if negb (Qle_bool avg_burn 0)
          then get_cash_runway avg_burn latest_cash last_month df
          else get_cash_projection (- avg_burn) latest_cash last_month df
      end
  | ebitda_single_month month => get_ebitda month df
  | metric_trend metric months => get_metric_trend metric months df
  | gross_margin_trend months => get_gross_margin_trend months df
  | revenue_variance_by_entity month => get_revenue_variance_by_entity month df
  | cash_balance_trend months => get_cash_balance_trend months df
  | metric_ranking metric ranking n => get_metric_ranking metric ranking n df
  | single_metric metric month => get_single_metric metric month df
  | multi_month_metric metric months => get_multi_month_metric metric months df
  | unknown => ret (sorry_message, None)
  end.

(** The main entry point for the agent. *)
Definition run_agent (query : string) (df : data_frames) : M answer :=
  intent <- get_intent query df ;;
  route intent df.

(* ================================================================== *)
(** * Definitions of the statements *)

(** The fields of a date fit the widths of the format: a year of four
    digits, a month and a day of two. *)
Definition fmt_ok (d : date) : Prop :=
  1000 <= year d < 10000 /\ 0 <= month d < 100 /\ 0 <= day d < 100.

(** The value of [int(s)] when it is accepted. *)
Definition digits_ok (ds : string) : bool := Z.of_nat (String.length ds) <=? 4300.

(** The number of months that [_extract_number_of_months] returns when
    [int] accepts the digits. *)
Definition number_of_months (query : string) (default : Z) : Z :=
  match search_number query with
  | Some ds => int_of ds
  | None => default
  end.

(** What each block of [get_intent] answers when [int] accepts the digits
    it is given, and the answer of the whole chain. *)
Definition ranking_rule (query : string) : option intent :=
  match search_ranking query with
  | Some (ranking_type, ds) =>
      ranking_choice query ranking_type (match ds with EmptyString => 1 | _ => int_of ds end)
  | None => None
  end.

Definition has_trend_word (query : string) : bool :=
  contains "trend" query || contains "history" query || contains "historical" query.

Definition trend_rule (query : string) : option intent :=
  if has_trend_word query then trend_choice query (number_of_months query 6) else None.

Definition intent_rules (query : string) (months : list string) : intent :=
  match orelse (ranking_rule query)
        (orelse (trend_rule query)
        (orelse (multi_month_rule query months)
        (orelse (single_month_rule query months)
                (general_rule query)))) with
  | Some i => i
  | None => unknown
  end.

(** The strings of digits that [get_intent] hands to [int] are of 4300
    digits at most: the digits of the ranking, and the digits of the trend
    when the ranking block does not answer. *)
Definition ranking_digits_ok (query : string) : bool :=
  match search_ranking query with
  | Some (_, ds) => digits_ok ds
  | None => true
  end.

Definition trend_digits_ok (query : string) : bool :=
  if has_trend_word query then
    match search_number query with
    | Some ds => digits_ok ds
    | None => true
    end
  else true.

Definition ints_ok (query : string) : bool :=
  ranking_digits_ok query
  && match ranking_rule query with
     | Some _ => true
     | None => trend_digits_ok query
     end.

Definition int_refused : exn :=
  ValueError "Exceeds the limit (4300 digits) for integer string conversion".

(** A date whose month is a month of the calendar, as every timestamp
    is, and a date in a year that timestamps hold from end to end. *)
Definition calendar_month (d : date) : Prop := 1 <= month d <= 12.

Definition in_timestamp_range (d : date) : Prop := 1678 <= year d <= 2261.

(** Numbers and rows on which float64 arithmetic is exact: whole amounts
    and whole rates whose absolute values add up to less than 2^53.  Every
    product and every sum of such rows, in any order, is a whole number
    below 2^53, which a float64 holds exactly. *)
Definition is_whole (q : Q) : bool := Qnum q mod Zpos (Qden q) =? 0.

Definition float_limit : Q := inject_Z (2 ^ 53).

Definition exact_rows (rows : list usd_row) : bool :=
  forallb (fun r => is_whole (amount (base r)) && is_whole (rate_to_usd r)) rows
  && negb (Qle_bool float_limit (Qsum (map (fun r => Qabs_val (amount_usd r)) rows))).

(** A quotient of two whole numbers [a / b] with [|a| + |b| < 2^53]: the
    float64 quotient is the exact one rounded, and cutting it gives the
    same whole number as cutting the exact one. *)
Definition exact_quotient (a b : Q) : bool :=
  is_whole a && is_whole b
  && negb (Qle_bool float_limit (Qabs_val a + Qabs_val b)%Q).

(** The month number that [_extract_months] reads off a match. *)
Definition month_num (m : month_match) : Z :=
  match index_of (substring 0 3 (m_name m)) month_abbrs 1 with
  | Some k => k
  | None => 0
  end.

(** The names the regex accepts: the abbreviations and the full names. *)
Definition month_words : list string :=
  map fst month_alts ++ map (fun p => fst p ++ snd p) month_alts.

(** A match as the regex produces it: a month name and, when group 2 took
    part, four digits. *)
Definition regex_match (m : month_match) : Prop :=
  In (m_name m) month_words /\
  match m_year m with
  | Some ys => 0 <= int_of ys <= 9999
  | None => True
  end.

(** The character before position [k] of a text that follows [prev]. *)
Definition char_before (prev : option ascii) (k : nat) (s : string) : option ascii :=
  match k with
  | O => prev
  | S j => String.get j s
  end.

(** Whether the year of a match comes from the clock: no explicit year and
    no row of actuals in that calendar month. *)
Definition needs_clock (df : data_frames) (m : month_match) : bool :=
  match m_year m, latest_year df (month_num m) with
  | None, None => true
  | _, _ => false
  end.

(** The year of a month token as the specification words it: the explicit
    year, else the latest year of that calendar month in actuals, else the
    current calendar year. *)
Definition spec_year (df : data_frames) (current_year : Z) (m : month_match) : Z :=
  match m_year m with
  | Some ys => int_of ys
  | None =>
      match latest_year df (month_num m) with
      | Some y => y
      | None => current_year
      end
  end.

(** The absolute months of a list of tokens; the clock is read at each
    token that needs it. *)
Fixpoint spec_dates (ms : list month_match) (df : data_frames) (clk : clock) (n : nat)
  : list date :=
  match ms with
  | [] => []
  | m :: ms' =>
      mkDate (spec_year df (year (clk n)) m) (month_num m) 1
      :: spec_dates ms' df clk (if needs_clock df m then S n else n)
  end.

Definition valid_year (d : date) : bool := (1 <=? year d) && (year d <=? 9999).


(** A month token in the sense of the specification: a month name, in full
    or abbreviated, with no word character before it and none after it. *)
Definition token_at (prev : option ascii) (s : string) : bool :=
  negb (opt_word prev)
  && existsb (fun w => prefix w s && negb (opt_word (head (drop (String.length w) s))))
       month_words.

Fixpoint has_month_token_from (prev : option ascii) (s : string) : bool :=
  token_at prev s ||
  match s with
  | EmptyString => false
  | String c s' => has_month_token_from (Some c) s'
  end.

Definition has_month_token (query : string) : bool := has_month_token_from None query.

Definition no_data : data_frames := mkData [] [] [] [].

Definition usd (y m : Z) (category : string) (a : Z) : transaction :=
  mkTransaction (mkDate y m 1) "ParentCo" category "USD" (inject_Z a).

Definition demo_actuals : list transaction :=
  [usd 2025 6 "Revenue" 100000; usd 2025 6 "COGS" 40000; usd 2025 6 "Opex: Marketing" 30000;
   usd 2025 7 "Revenue" 110000; usd 2025 7 "COGS" 45000; usd 2025 7 "Opex: Marketing" 35000;
   usd 2025 8 "COGS" 20000; usd 2025 8 "Opex: Marketing" 10000].

Definition demo_cash : list cash_row :=
  [mkCash (mkDate 2025 6 1) (inject_Z 500000);
   mkCash (mkDate 2025 7 1) (inject_Z 400000);
   mkCash (mkDate 2025 8 1) (inject_Z 300000)].

Definition demo : data_frames :=
  mkData demo_actuals [usd 2025 6 "Revenue" 90000] demo_cash
         [mkFx (mkDate 2025 6 1) "EUR" (11 # 10)].

(** A clock that stands still in September 2025. *)
Definition sept_2025 : clock := fun _ => mkDate 2025 9 15.

(** The month has data: actuals have a row in that calendar month. *)
Definition has_data (df : data_frames) (target_month : date) : bool :=
  existsb (fun r => same_period (t_month r) target_month) (actuals df).



(** The summary of [get_single_metric] when the month has rows. *)
Definition single_metric_value (metric : metric) (month_data : list usd_row) : Q * string :=
  let pivot_month := pivot_table month_data in
  match metric with
  | GrossMargin =>
      let revenue := get_sum pivot_month "Revenue" in
      let cogs := get_sum pivot_month "COGS" in
      (if negb (Qeq_bool revenue 0) then ((revenue - cogs) / revenue * 100)%Q else 0%Q, "%")
  | Revenue => (get_sum pivot_month "Revenue", "USD")
  | Opex => (opex_total pivot_month, "USD")
  | EBITDA => (0%Q, "USD")
  end.


(** A table of actuals without a single row of revenue. *)
Definition costs_only : data_frames :=
  mkData [usd 2025 6 "COGS" 40000] [] demo_cash [].

(** The query holds one of the ranking words, and one of the metric
    keywords. *)
Definition has_ranking_token (query : string) : bool :=
  existsb (fun w => contains w query) ranking_words.

Definition metric_keywords : list (string * metric) :=
  [("revenue", Revenue); ("opex", Opex); ("ebitda", EBITDA); ("gross margin", GrossMargin)].

Definition has_metric_keyword (query : string) : bool :=
  existsb (fun k => contains (fst k) query) metric_keywords.

(** The metric of the first keyword, in the order of the rules, that the
    query holds. *)
Definition first_metric (query : string) : option metric :=
  option_map snd (find (fun k => contains (fst k) query) metric_keywords).

(** A computation that neither reads the clock nor depends on it. *)
Definition clock_free {A} (c : M A) : Prop :=
  exists r, forall clk n, c clk n = (r, n).

(** A clock that passes midnight of the new year between two readings. *)
Definition new_year : clock :=
  fun k => match k with
           | O => mkDate 2025 12 31
           | S _ => mkDate 2026 1 1
           end.



(** Revenue and COGS of a period: the sum of [amount_usd] over the rows of
    one category. *)
Definition category_sum (c : string) (rows : list usd_row) : Q :=
  Qsum (map amount_usd (filter (fun r => String.eqb (row_category r) c) rows)).

(** Gross Margin % = (Revenue - COGS) / Revenue * 100. *)
Definition gross_margin_pct (revenue cogs : Q) : Q :=
  ((revenue - cogs) / revenue * 100)%Q.

(** The words that a rule of the classifier looks for, besides the ranking
    words and the trend words. *)
Definition answer_keywords : list string :=
  ["revenue"; "opex"; "ebitda"; "gross margin"; "cash balance"; "runway"].

(** The trend intent of a metric. *)
Definition trend_intent (m : metric) (months : Z) : intent :=
  match m with
  | GrossMargin => gross_margin_trend months
  | _ => metric_trend m months
  end.

(** An intent that the tools accept: its metric is one the tool has a
    branch for, its counts are not negative, and its months are the
    strings that [strftime('%Y-%m-%d')] gives for the first day of a month
    of the calendar of a year from 1 to 9999: [2025-06-01], and [999-01-01]
    for a year below 1000, which is not padded. *)
Definition month_string (s : string) : Prop :=
  exists d, s = strftime_ymd d /\ day d = 1 /\ calendar_month d /\ 1 <= year d <= 9999.

Definition intent_ok (i : intent) : Prop :=
  match i with
  | revenue_vs_budget s | opex_breakdown s | ebitda_single_month s
  | revenue_variance_by_entity s => month_string s
  | metric_trend m k => m <> GrossMargin /\ 0 <= k
  | gross_margin_trend k | cash_balance_trend k => 0 <= k
  | metric_ranking _ _ k => 0 <= k
  | single_metric m s => m <> EBITDA /\ month_string s
  | multi_month_metric m l =>
      m <> EBITDA /\ (2 <= List.length l)%nat /\ Forall month_string l
  | cash_runway_projection | unknown => True
  end.

(** The columns of the pivot that the column [value] of a metric reads
    with [pivot[...]], in the order it reads them. *)
Definition needed_columns (m : metric) : list string :=
  match m with
  | Revenue => ["Revenue"]
  | Opex => []
  | EBITDA | GrossMargin => ["Revenue"; "COGS"]
  end.

Definition has_category (c : string) (rows : list usd_row) : bool :=
  existsb (fun r => String.eqb (row_category r) c) rows.

(** The first needed column that no row of the table provides. *)
Definition missing_column (m : metric) (rows : list usd_row) : option string :=
  find (fun c => negb (has_category c rows)) (needed_columns m).

(** The rows of actuals, converted, at or before a day. *)
Definition historical (df : data_frames) (today : date) : list usd_row :=
  up_to today (_convert_to_usd (actuals df) (fx df)).

(** The sum of [amount_usd] over the rows whose category starts with a
    prefix. *)
Definition prefix_sum (pre : string) (rows : list usd_row) : Q :=
  Qsum (map amount_usd (filter (fun r => prefix pre (row_category r)) rows)).

(** The rows of one calendar month of actuals, converted. *)
Definition month_rows (df : data_frames) (target_month : date) : list usd_row :=
  in_month target_month (_convert_to_usd (actuals df) (fx df)).

(** The rows of one calendar month of a table, converted, that are
    revenue of one entity; their sum. *)
Definition entity_revenue (e : string) (rows : list usd_row) : Q :=
  Qsum (map amount_usd
          (filter (fun r => String.eqb (entity (base r)) e)
                  (filter (fun r => String.eqb (row_category r) "Revenue") rows))).

(** The sum of the rows of the month whose category, the text [Opex: ]
    taken out, is a label. *)
Definition opex_label_sum (label : string) (rows : list usd_row) : Q :=
  Qsum (map amount_usd
          (filter (fun r => prefix "Opex:" (row_category r)
                            && String.eqb (remove_all "Opex: " (row_category r)) label)
                  rows)).

(** The dictionary [results] of the comparison, from the months in
    order. *)
Definition comparison_results (metric : metric) (df : data_frames) (targets : list date)
    (start : list (string * Q)) : list (string * Q) :=
  fold_left
    (fun results target_month =>
       match multi_month_value metric
               (in_month target_month (_convert_to_usd (actuals df) (fx df))) with
       | Some value => dict_set (strftime_bY target_month) value results
       | None => results
       end)
    targets start.


(** What a month brings to the comparison of a metric: nothing when it
    has no row; its revenue, or its opex; its gross margin when its revenue
    is not zero. *)
Definition month_brings (m : metric) (rows : list usd_row) (v : Q) : Prop :=
  rows <> [] /\
  match m with
  | Revenue => (v == category_sum "Revenue" rows)%Q
  | Opex => (v == prefix_sum "Opex" rows)%Q
  | GrossMargin =>
      ~ (category_sum "Revenue" rows == 0)%Q
      /\ (v == gross_margin_pct (category_sum "Revenue" rows) (category_sum "COGS" rows))%Q
  | EBITDA => False
  end.


Definition cash_month (df : data_frames) (today d : date) : Prop :=
  date_leb d today = true /\ exists r, In r (cash df) /\ c_month r = d.

(** The dates along the first line of a chart. *)
Definition chart_dates (c : chart) : list date :=
  flat_map (fun p : xval * fval =>
              match fst p with
              | XDate d => [d]
              | XLabel _ => []
              end)
           (hd [] (series c)).

(** A date is in the window of [n] months that ends with the latest of
    the months [P]. *)
Definition in_window (P : date -> Prop) (n : Z) (d : date) : Prop :=
  P d /\ forall d', P d' -> period_M d' - n < period_M d.

(** The order of a ranking: a month comes before another when its value
    is at least the other's for the top, at most the other's for the
    bottom. *)
Definition ranked_before (t : ranking) (a b : date * fval) : Prop :=
  match t with
  | top => fval_leb (snd b) (snd a) = true
  | bottom => fval_leb (snd a) (snd b) = true
  end.

(** An outcome that is a [KeyError]. *)
Definition raises_key_error {A} (r : outcome A * nat) : Prop :=
  exists c k, r = (Raise (KeyError c), k).

(** The rows of a table dated one day. *)
Definition rows_at (d : date) (rows : list usd_row) : list usd_row :=
  filter (fun r => date_eqb (row_month r) d) rows.

(** The value of a metric over rows, as the trend computes it; it has
    none for the gross margin. *)
Definition metric_value (m : metric) (rows : list usd_row) : Q :=
  match m with
  | Revenue => category_sum "Revenue" rows
  | Opex => prefix_sum "Opex" rows
  | EBITDA =>
      (category_sum "Revenue" rows - category_sum "COGS" rows - prefix_sum "Opex" rows)%Q
  | GrossMargin => 0%Q
  end.

(* ================================================================== *)
(** * Properties *)

(** ** Decimal digits *)

Lemma digit_char_is_digit d : 0 <= d <= 9 -> is_digit (digit_char d) = true.
Proof.
  intros H.
  assert (E : d = 0 \/ d = 1 \/ d = 2 \/ d = 3 \/ d = 4 \/ d = 5 \/ d = 6
              \/ d = 7 \/ d = 8 \/ d = 9) by lia.
  repeat (destruct E as [E | E]; [subst d; reflexivity |]).
  subst d; reflexivity.
Qed.

Lemma digit_val_char d : 0 <= d <= 9 -> digit_val (digit_char d) = d.
Proof.
  intros H.
  assert (E : d = 0 \/ d = 1 \/ d = 2 \/ d = 3 \/ d = 4 \/ d = 5 \/ d = 6
              \/ d = 7 \/ d = 8 \/ d = 9) by lia.
  repeat (destruct E as [E | E]; [subst d; reflexivity |]).
  subst d; reflexivity.
Qed.

Lemma digit_bound a b : 0 < b -> 0 <= a < 10 * b -> 0 <= a / b <= 9.
Proof.
  intros Hb Ha. split.
  - apply Z.div_pos; lia.
  - enough (a / b < 10) by lia. apply Z.div_lt_upper_bound; lia.
Qed.



(** A year of four digits is written on four digits. *)
Lemma str_of_Z_4 y : 1000 <= y <= 9999 -> str_of_Z y = digits 4 y.
Proof.
  intros Hy. unfold str_of_Z. destruct (Z.ltb_spec y 0); [lia |].
  destruct (Z.to_nat y) as [| [| [| [| k]]]] eqn:E; try lia.
  cbn [width_of].
  assert (H1 : 100 <= y / 10) by (apply Z.div_le_lower_bound; lia).
  assert (H2 : 10 <= y / 10 / 10) by (apply Z.div_le_lower_bound; lia).
  assert (H3 : y / 10 / 10 / 10 < 10).
  { apply Z.div_lt_upper_bound; [lia |]. apply Z.div_lt_upper_bound; [lia |].
    apply Z.div_lt_upper_bound; lia. }
  destruct (Z.ltb_spec y 10); [lia |].
  destruct (Z.ltb_spec (y / 10) 10); [lia |].
  destruct (Z.ltb_spec (y / 10 / 10) 10); [lia |].
  destruct (Z.ltb_spec (y / 10 / 10 / 10) 10); [reflexivity | lia].
Qed.

Lemma in_range_bounds d : in_timestamp_range d -> in_bounds d = true.
Proof.
  unfold in_timestamp_range, in_bounds, date_leb. cbn [year month day]. intros Hy.
  destruct (Z.ltb_spec 1677 (year d)); [| lia].
  destruct (Z.ltb_spec (year d) 2262); [| lia]. reflexivity.
Qed.



(** ** The stable sort and the lists of distinct keys *)

Section SortFacts.
Context {A : Type} (leb : A -> A -> bool).
Hypothesis leb_total : forall a b, leb a b = true \/ leb b a = true.
Hypothesis leb_trans : forall a b c, leb a b = true -> leb b c = true -> leb a c = true.

Let le (a b : A) : Prop := leb a b = true.

Lemma insert_perm x l : Permutation (x :: l) (insert leb x l).
Proof.
  induction l as [| y l IH]; cbn.
  - apply Permutation_refl.
  - destruct (leb x y).
    + apply Permutation_refl.
    + eapply perm_trans; [apply perm_swap |]. now apply perm_skip.
Qed.

Lemma sort_by_perm l : Permutation l (sort_by leb l).
Proof.
  induction l as [| x l IH]; cbn.
  - constructor.
  - eapply perm_trans; [| apply insert_perm]. now apply perm_skip.
Qed.

Lemma sort_by_In x l : In x (sort_by leb l) <-> In x l.
Proof.
  split; intros H.
  - eapply Permutation_in; [apply Permutation_sym, sort_by_perm | exact H].
  - eapply Permutation_in; [apply sort_by_perm | exact H].
Qed.

Lemma insert_sorted x l :
  StronglySorted le l -> StronglySorted le (insert leb x l).
Proof.
  induction 1 as [| y l Hs IH Hy]; cbn.
  - repeat constructor.
  - destruct (leb x y) eqn:E.
    + constructor; [now constructor |].
      constructor; [exact E |].
      eapply Forall_impl; [| exact Hy]. intros z Hz. eapply leb_trans; eassumption.
    + constructor; [exact IH |].
      assert (Hyx : le y x) by (destruct (leb_total x y); [congruence | assumption]).
      rewrite Forall_forall in *. intros z Hz.
      apply (Permutation_in _ (Permutation_sym (insert_perm x l))) in Hz.
      destruct Hz as [<- | Hz]; auto.
Qed.

Lemma sort_by_sorted l : StronglySorted le (sort_by leb l).
Proof.
  induction l as [| x l IH]; cbn.
  - constructor.
  - now apply insert_sorted.
Qed.

Lemma sort_by_NoDup l : NoDup l -> NoDup (sort_by leb l).
Proof. intros H. eapply Permutation_NoDup; [apply sort_by_perm | exact H]. Qed.
End SortFacts.

(** Sorting commutes with a map that carries one order to the other. *)
Lemma sort_by_map {A B} (f : A -> B) (lebA : A -> A -> bool) (lebB : B -> B -> bool)
    (P : A -> Prop) (l : list A) :
  (forall a b, P a -> P b -> lebB (f a) (f b) = lebA a b) ->
  Forall P l ->
  sort_by lebB (map f l) = map f (sort_by lebA l) /\ Forall P (sort_by lebA l).
Proof.
  intros Hf. unfold sort_by. induction 1 as [| x l Hx Hl [IH IHP]]; cbn [map fold_right].
  - split; [reflexivity | constructor].
  - rewrite IH. clear IH. revert IHP.
    generalize (fold_right (insert lebA) [] l) as s.
    induction s as [| y s IHs]; intros Hs; cbn [insert map].
    + split; [reflexivity | now constructor].
    + inversion Hs as [| ? ? Hy Hs']; subst.
      rewrite Hf by assumption. destruct (lebA x y).
      * split; [reflexivity | now repeat constructor].
      * destruct (IHs Hs') as [E HP]. cbn [map]. rewrite E.
        split; [reflexivity | now constructor].
Qed.

(** ** The order of dates *)

Lemma date_eqb_eq a b : date_eqb a b = true <-> a = b.
Proof.
  unfold date_eqb. destruct a as [y1 m1 d1], b as [y2 m2 d2]. cbn.
  rewrite !andb_true_iff, !Z.eqb_eq. split.
  - intros [[-> ->] ->]. reflexivity.
  - intros E. inversion E. auto.
Qed.

Ltac date_order :=
  unfold date_ltb, date_leb, date_eqb in *;
  repeat match goal with
         | d : date |- _ => destruct d
         end;
  cbn [year month day] in *;
  repeat match goal with
         | H : _ = true |- _ =>
             first [ apply andb_true_iff in H; destruct H
                   | apply orb_true_iff in H; destruct H
                   | apply negb_true_iff in H
                   | apply Z.ltb_lt in H | apply Z.leb_le in H | apply Z.eqb_eq in H ]
         | H : _ = false |- _ =>
             first [ apply andb_false_iff in H; destruct H
                   | apply orb_false_iff in H; destruct H
                   | apply Z.ltb_ge in H | apply Z.leb_gt in H | apply Z.eqb_neq in H ]
         end.

Lemma date_leb_total a b : date_leb a b = true \/ date_leb b a = true.
Proof.
  destruct (date_leb a b) eqn:E; [now left | right].
  destruct (date_leb b a) eqn:E'; [reflexivity |].
  date_order; lia.
Qed.

Lemma date_leb_trans a b c :
  date_leb a b = true -> date_leb b c = true -> date_leb a c = true.
Proof.
  intros H1 H2. destruct (date_leb a c) eqn:E; [reflexivity |].
  date_order; lia.
Qed.

Lemma date_leb_antisym a b : date_leb a b = true -> date_leb b a = true -> a = b.
Proof. intros H1 H2. date_order; f_equal; lia. Qed.

Lemma mem_date_In d l : mem_date d l = true <-> In d l.
Proof.
  unfold mem_date. rewrite existsb_exists. split.
  - intros [x [Hx E]]. apply date_eqb_eq in E. now subst.
  - intros H. exists d. split; [exact H | now apply date_eqb_eq].
Qed.

Lemma dedup_dates_In d l : In d (dedup_dates l) <-> In d l.
Proof.
  induction l as [| x l IH]; cbn; [tauto |].
  destruct (mem_date x l) eqn:E.
  - rewrite IH. apply mem_date_In in E. split; [auto | intros [<- | H]; auto].
  - cbn. rewrite IH. tauto.
Qed.

Lemma dedup_dates_NoDup l : NoDup (dedup_dates l).
Proof.
  induction l as [| x l IH]; cbn; [constructor |].
  destruct (mem_date x l) eqn:E; [exact IH |].
  constructor; [| exact IH].
  rewrite dedup_dates_In, <- mem_date_In. congruence.
Qed.

Lemma sorted_dates_In d l : In d (sorted_dates l) <-> In d l.
Proof. unfold sorted_dates. rewrite sort_by_In. apply dedup_dates_In. Qed.


(** ** The strings of dates are ordered as the dates *)

Lemma code_digit_char d : 0 <= d <= 9 -> N_of_ascii (digit_char d) = Z.to_N (48 + d).
Proof.
  intros H.
  assert (E : d = 0 \/ d = 1 \/ d = 2 \/ d = 3 \/ d = 4 \/ d = 5 \/ d = 6
              \/ d = 7 \/ d = 8 \/ d = 9) by lia.
  repeat (destruct E as [E | E]; [subst d; reflexivity |]).
  subst d; reflexivity.
Qed.

Lemma compare_digit_char a b :
  0 <= a <= 9 -> 0 <= b <= 9 ->
  Ascii.compare (digit_char a) (digit_char b) = (a ?= b).
Proof.
  intros Ha Hb. unfold Ascii.compare. rewrite !code_digit_char by assumption.
  rewrite Z2N.inj_compare by lia. apply Z.add_compare_mono_l.
Qed.

Lemma string_compare_refl s : String.compare s s = Eq.
Proof.
  induction s as [| c s IH]; cbn; [reflexivity |].
  unfold Ascii.compare. now rewrite N.compare_refl.
Qed.

Lemma append_nil_r_local s : (s ++ "")%string = s.
Proof. induction s as [| c s IH]; cbn; [reflexivity | now rewrite IH]. Qed.

Lemma digits_compare w : forall a b s t,
  0 <= a < 10 ^ Z.of_nat w -> 0 <= b < 10 ^ Z.of_nat w ->
  String.compare (digits w a ++ s) (digits w b ++ t) =
  match a ?= b with
  | Eq => String.compare s t
  | c => c
  end.
Proof.
  induction w as [| w IH]; intros a b s t Ha Hb.
  - cbn in Ha, Hb. assert (a = 0) by lia. assert (b = 0) by lia. subst. reflexivity.
  - rewrite Nat2Z.inj_succ, Z.pow_succ_r in Ha, Hb by lia.
    cbn [digits append String.compare].
    set (p := 10 ^ Z.of_nat w) in *.
    assert (Hp : 0 < p) by (apply Z.pow_pos_nonneg; lia).
    pose proof (Z.div_mod a p ltac:(lia)) as Ea.
    pose proof (Z.div_mod b p ltac:(lia)) as Eb.
    pose proof (Z.mod_pos_bound a p Hp) as Ra.
    pose proof (Z.mod_pos_bound b p Hp) as Rb.
    assert (Qa : 0 <= a / p <= 9) by (apply digit_bound; lia).
    assert (Qb : 0 <= b / p <= 9) by (apply digit_bound; lia).
    rewrite compare_digit_char by assumption.
    rewrite IH by assumption.
    destruct (Z.compare_spec (a / p) (b / p)) as [E | E | E];
      destruct (Z.compare_spec (a mod p) (b mod p)) as [E' | E' | E'];
      destruct (Z.compare_spec a b) as [E'' | E'' | E'']; try reflexivity; exfalso; nia.
Qed.

Lemma strftime_compare a b :
  fmt_ok a -> fmt_ok b ->
  String.compare (strftime_ymd a) (strftime_ymd b) =
  match year a ?= year b with
  | Eq => match month a ?= month b with
          | Eq => day a ?= day b
          | c => c
          end
  | c => c
  end.
Proof.
  intros (Ya & Ma & Da) (Yb & Mb & Db). unfold strftime_ymd.
  rewrite !str_of_Z_4 by lia.
  rewrite digits_compare by (change (10 ^ Z.of_nat 4) with 10000; lia).
  destruct (year a ?= year b); try reflexivity.
  cbn [append String.compare]. change (Ascii.compare "-" "-") with Eq. cbv iota.
  rewrite digits_compare by (change (10 ^ Z.of_nat 2) with 100; lia).
  destruct (month a ?= month b); try reflexivity.
  cbn [append String.compare]. change (Ascii.compare "-" "-") with Eq. cbv iota.
  rewrite <- (append_nil_r_local (digits 2 (day a))), <- (append_nil_r_local (digits 2 (day b))).
  rewrite digits_compare by (change (10 ^ Z.of_nat 2) with 100; lia).
  now destruct (day a ?= day b).
Qed.

Lemma strftime_leb a b :
  fmt_ok a -> fmt_ok b -> String.leb (strftime_ymd a) (strftime_ymd b) = date_leb a b.
Proof.
  intros Ha Hb. unfold String.leb. rewrite strftime_compare by assumption.
  unfold date_leb.
  destruct (Z.compare_spec (year a) (year b)) as [E | E | E];
    destruct (Z.compare_spec (month a) (month b)) as [E' | E' | E'];
    destruct (Z.compare_spec (day a) (day b)) as [E'' | E'' | E''];
    repeat match goal with
           | |- context [?x <? ?y] => destruct (Z.ltb_spec x y); try lia
           | |- context [?x =? ?y] => destruct (Z.eqb_spec x y); try lia
           | |- context [?x <=? ?y] => destruct (Z.leb_spec x y); try lia
           end; reflexivity.
Qed.

Lemma strftime_eqb a b :
  fmt_ok a -> fmt_ok b -> String.eqb (strftime_ymd a) (strftime_ymd b) = date_eqb a b.
Proof.
  intros Ha Hb. destruct (date_eqb a b) eqn:E.
  - apply date_eqb_eq in E. subst. apply String.eqb_refl.
  - apply String.eqb_neq. intros Hs.
    pose proof (strftime_compare a b Ha Hb) as Hc.
    rewrite Hs, string_compare_refl in Hc.
    assert (a = b); [| subst; rewrite (proj2 (date_eqb_eq b b) eq_refl) in E; discriminate].
    destruct a, b; cbn [year month day] in *.
    destruct (Z.compare_spec year0 year1); try discriminate.
    destruct (Z.compare_spec month0 month1); try discriminate.
    destruct (Z.compare_spec day0 day1); try discriminate.
    now subst.
Qed.

(** A year below 1000 is written on fewer digits: the strings of two
    dates are still different. *)
Lemma str_of_Z_digits y :
  0 <= y <= 9999 ->
  exists w, str_of_Z y = digits w y /\ 0 <= y < 10 ^ Z.of_nat w.
Proof.
  intros Hy. destruct (Z_lt_le_dec y 1000) as [H3 | H3].
  2:{ exists 4%nat. split; [apply str_of_Z_4; lia |].
      change (10 ^ Z.of_nat 4) with 10000; lia. }
  unfold str_of_Z. destruct (Z.ltb_spec y 0); [lia |].
  destruct (Z_lt_le_dec y 10) as [H1 | H1].
  { exists 1%nat. split; [| change (10 ^ Z.of_nat 1) with 10; lia].
    destruct (Z.to_nat y); cbn [width_of]; [reflexivity |].
    destruct (Z.ltb_spec y 10); [reflexivity | lia]. }
  destruct (Z_lt_le_dec y 100) as [H2 | H2].
  { exists 2%nat. split; [| change (10 ^ Z.of_nat 2) with 100; lia].
    destruct (Z.to_nat y) as [| [| k]] eqn:E; try lia. cbn [width_of].
    assert (y / 10 < 10) by (apply Z.div_lt_upper_bound; lia).
    destruct (Z.ltb_spec y 10); [lia |].
    destruct (Z.ltb_spec (y / 10) 10); [reflexivity | lia]. }
  exists 3%nat. split; [| change (10 ^ Z.of_nat 3) with 1000; lia].
  destruct (Z.to_nat y) as [| [| [| k]]] eqn:E; try lia. cbn [width_of].
  assert (10 <= y / 10) by (apply Z.div_le_lower_bound; lia).
  assert (y / 10 / 10 < 10).
  { apply Z.div_lt_upper_bound; [lia |]. apply Z.div_lt_upper_bound; lia. }
  destruct (Z.ltb_spec y 10); [lia |].
  destruct (Z.ltb_spec (y / 10) 10); [lia |].
  destruct (Z.ltb_spec (y / 10 / 10) 10); [reflexivity | lia].
Qed.

Lemma int_acc_digits w : forall acc n,
  0 <= n < 10 ^ Z.of_nat w -> int_acc acc (digits w n) = acc * 10 ^ Z.of_nat w + n.
Proof.
  induction w as [| w IH]; intros acc n Hn.
  - cbn. change (10 ^ Z.of_nat 0) with 1 in Hn. lia.
  - cbn [digits int_acc].
    assert (Hp : 0 < 10 ^ Z.of_nat w) by (apply Z.pow_pos_nonneg; lia).
    assert (Hs : 10 ^ Z.of_nat (S w) = 10 * 10 ^ Z.of_nat w)
      by (rewrite Nat2Z.inj_succ, Z.pow_succ_r by lia; reflexivity).
    rewrite Hs in *.
    assert (Hd : 0 <= n / 10 ^ Z.of_nat w <= 9) by (apply digit_bound; lia).
    rewrite digit_val_char by exact Hd.
    rewrite IH by (apply Z.mod_pos_bound; lia).
    pose proof (Z.div_mod n (10 ^ Z.of_nat w) ltac:(lia)). nia.
Qed.

Lemma span_digits w : forall n t,
  0 <= n < 10 ^ Z.of_nat w ->
  span is_digit (digits w n ++ String "-" t) = (digits w n, String "-" t).
Proof.
  induction w as [| w IH]; intros n t Hn; [reflexivity |].
  cbn [digits append span].
  assert (Hp : 0 < 10 ^ Z.of_nat w) by (apply Z.pow_pos_nonneg; lia).
  assert (Hs : 10 ^ Z.of_nat (S w) = 10 * 10 ^ Z.of_nat w)
    by (rewrite Nat2Z.inj_succ, Z.pow_succ_r by lia; reflexivity).
  rewrite Hs in *.
  rewrite digit_char_is_digit by (apply digit_bound; lia).
  now rewrite IH by (apply Z.mod_pos_bound; lia).
Qed.

Lemma strftime_ymd_inj a b :
  0 <= year a <= 9999 -> 0 <= year b <= 9999 ->
  0 <= month a < 100 -> 0 <= month b < 100 -> 0 <= day a < 100 -> 0 <= day b < 100 ->
  strftime_ymd a = strftime_ymd b -> a = b.
Proof.
  intros Ya Yb Ma Mb Da Db E. unfold strftime_ymd in E.
  destruct (str_of_Z_digits (year a) Ya) as (wa & Ea & Ha).
  destruct (str_of_Z_digits (year b) Yb) as (wb & Eb & Hb).
  rewrite Ea, Eb in E. cbn [append] in E.
  pose proof (f_equal (span is_digit) E) as Hspan.
  rewrite !span_digits in Hspan by assumption.
  pose proof (f_equal fst Hspan) as Hy. pose proof (f_equal snd Hspan) as Hrest.
  cbn [fst snd] in Hy, Hrest. clear Hspan E.
  assert (Eyear : year a = year b).
  { pose proof (f_equal (int_acc 0) Hy) as Hi.
    rewrite !int_acc_digits in Hi by assumption. lia. }
  pose proof (f_equal (fun s => String.compare s
                         (String "-" (digits 2 (month b) ++ String "-" (digits 2 (day b)))))
                Hrest) as Hc.
  cbn beta in Hc. rewrite string_compare_refl in Hc.
  cbn [String.compare] in Hc. change (Ascii.compare "-" "-") with Eq in Hc. cbv iota in Hc.
  rewrite digits_compare in Hc by (change (10 ^ Z.of_nat 2) with 100; lia).
  destruct (Z.compare_spec (month a) (month b)) as [Emonth | |]; try discriminate.
  cbn [String.compare] in Hc. change (Ascii.compare "-" "-") with Eq in Hc. cbv iota in Hc.
  rewrite <- (append_nil_r_local (digits 2 (day a))),
    <- (append_nil_r_local (digits 2 (day b))) in Hc.
  rewrite digits_compare in Hc by (change (10 ^ Z.of_nat 2) with 100; lia).
  destruct (Z.compare_spec (day a) (day b)) as [Eday | |]; try discriminate.
  destruct a, b; cbn [year month day] in *. now subst.
Qed.

Lemma string_leb_trans a : forall b c,
  String.leb a b = true -> String.leb b c = true -> String.leb a c = true.
Proof.
  unfold String.leb.
  induction a as [| x a IH]; intros [| y b] [| z c]; cbn [String.compare];
    try discriminate; try reflexivity.
  unfold Ascii.compare.
  destruct (N.compare_spec (N_of_ascii x) (N_of_ascii y)) as [E1 | E1 | E1];
    destruct (N.compare_spec (N_of_ascii y) (N_of_ascii z)) as [E2 | E2 | E2];
    destruct (N.compare_spec (N_of_ascii x) (N_of_ascii z)) as [E3 | E3 | E3];
    try discriminate; try reflexivity; try lia.
  apply IH.
Qed.

(** Distinct strings sorted for [<=] are in strictly ascending order. *)
Lemma sorted_str_strict l :
  NoDup l -> StronglySorted (fun a b => String.ltb a b = true) (sorted_str l).
Proof.
  intros Hnd. unfold sorted_str.
  pose proof (sort_by_sorted String.leb String.leb_total
                (fun a b c => string_leb_trans a b c) l) as Hs.
  pose proof (sort_by_NoDup String.leb l Hnd) as Hn.
  induction Hs as [| x s Hs IH Hx]; [constructor |].
  inversion Hn as [| ? ? Hnx Hn']; subst.
  constructor; [now apply IH |].
  rewrite Forall_forall in *. intros z Hz. specialize (Hx z Hz).
  unfold String.leb in Hx. unfold String.ltb.
  destruct (String.compare x z) eqn:E; try reflexivity; try discriminate.
  apply String.compare_eq_iff in E. subst. contradiction.
Qed.

(** ** What the month regex matches *)

Lemma append_assoc_local (a b c : string) : ((a ++ b) ++ c = a ++ (b ++ c))%string.
Proof. induction a as [| x a IH]; cbn; [reflexivity | now rewrite IH]. Qed.

Lemma prefix_append a s : prefix a s = true -> s = a ++ drop (String.length a) s.
Proof.
  revert s. induction a as [| c a IH]; intros s H; cbn.
  - reflexivity.
  - destruct s as [| c' s]; cbn in H; [discriminate |].
    destruct (ascii_dec c c') as [-> | ]; [| discriminate].
    cbn. f_equal. now apply IH.
Qed.

Lemma name_at_spec alts s name rest :
  name_at alts s = Some (name, rest) ->
  (exists a suf, In (a, suf) alts /\ (name = a ++ suf \/ name = a)) /\
  s = name ++ rest /\
  word_boundary (last_char name) (head rest) = true.
Proof.
  induction alts as [| [a suf] alts IH]; cbn; [discriminate |].
  destruct (prefix a s) eqn:Pa.
  - destruct (prefix suf (drop (String.length a) s)
              && word_boundary (last_char (a ++ suf))
                   (head (drop (String.length suf) (drop (String.length a) s)))) eqn:E.
    + intros [= <- <-]. apply andb_true_iff in E. destruct E as [Ps Hb].
      split; [exists a, suf; auto |]. split; [| exact Hb].
      rewrite append_assoc_local, <- (prefix_append suf _ Ps). now apply prefix_append.
    + destruct (word_boundary (last_char a) (head (drop (String.length a) s))) eqn:Hb.
      * intros [= <- <-]. split; [exists a, suf; auto |].
        split; [now apply prefix_append | exact Hb].
      * intros H. destruct (IH H) as ((a' & suf' & Hin & Hn) & Hs & Hw).
        split; [exists a', suf'; auto | auto].
  - intros H. destruct (IH H) as ((a' & suf' & Hin & Hn) & Hs & Hw).
    split; [exists a', suf'; auto | auto].
Qed.

Lemma name_at_word s name rest :
  name_at month_alts s = Some (name, rest) -> In name month_words.
Proof.
  intros H. apply name_at_spec in H. destruct H as ((a & suf & Hin & Hn) & _).
  unfold month_words. apply in_or_app. destruct Hn as [-> | ->].
  - right. now apply (in_map (fun p => fst p ++ snd p) _ (a, suf)).
  - left. now apply (in_map fst _ (a, suf)).
Qed.

Lemma month_word_num name :
  In name month_words ->
  exists k, index_of (substring 0 3 name) month_abbrs 1 = Some k /\ 1 <= k <= 12.
Proof.
  intros H. cbn in H.
  repeat (destruct H as [<- | H]; [eexists; split; [reflexivity | lia] |]).
  contradiction.
Qed.

Lemma is_digit_val c : is_digit c = true -> 0 <= digit_val c <= 9.
Proof.
  unfold is_digit, between, digit_val. intros H.
  apply andb_true_iff in H. destruct H as [H1 H2].
  apply N.leb_le in H1, H2. lia.
Qed.

Lemma year_at_digits rest ys k :
  year_at rest = Some (ys, k) -> 0 <= int_of ys <= 9999.
Proof.
  unfold year_at. destruct (span is_space rest) as [sp r1].
  destruct sp; [discriminate |].
  destruct r1 as [| d1 [| d2 [| d3 [| d4 r]]]]; try discriminate.
  destruct (is_digit d1) eqn:E1; [| discriminate].
  destruct (is_digit d2) eqn:E2; [| discriminate].
  destruct (is_digit d3) eqn:E3; [| discriminate].
  destruct (is_digit d4) eqn:E4; [| discriminate].
  cbn [andb]. intros [= <- _]. unfold int_of. cbn [int_acc].
  apply is_digit_val in E1, E2, E3, E4. lia.
Qed.

Lemma month_at_regex pos prev s m : month_at pos prev s = Some m -> regex_match m.
Proof.
  unfold month_at. destruct (word_boundary prev (head s)); [| discriminate].
  destruct (name_at month_alts s) as [[name rest] |] eqn:En; [| discriminate].
  apply name_at_word in En.
  destruct (year_at rest) as [[ys k] |] eqn:Ey; intros [= <-]; split; cbn; auto.
  eapply year_at_digits; eassumption.
Qed.

(** Every match of [finditer] is a match of the regex at its position. *)
Lemma finditer_from_In s : forall pos skip prev m,
  In m (finditer_from pos skip prev s) ->
  exists k, m_start m = (pos + k)%nat /\
            month_at (pos + k) (char_before prev k s) (drop k s) = Some m.
Proof.
  induction s as [| c s IH]; intros pos skip prev m H; cbn in H; [contradiction |].
  assert (Hrec : forall skip', In m (finditer_from (S pos) skip' (Some c) s) ->
            exists k, m_start m = (pos + k)%nat /\
              month_at (pos + k) (char_before prev k (String c s)) (drop k (String c s)) = Some m).
  { intros skip' H'. destruct (IH _ _ _ _ H') as (k & Hk & Hm).
    exists (S k). rewrite <- plus_n_Sm. split; [exact Hk |].
    replace (char_before prev (S k) (String c s)) with (char_before (Some c) k s);
      [exact Hm |].
    destruct k; reflexivity. }
  destruct skip as [| skip].
  - destruct (month_at pos prev (String c s)) as [m0 |] eqn:E.
    + destruct H as [<- | H]; [| eauto].
      exists 0%nat. rewrite Nat.add_0_r. split; [| exact E].
      unfold month_at in E. destruct (word_boundary prev (head (String c s))); [| discriminate].
      destruct (name_at month_alts (String c s)) as [[name rest] |]; [| discriminate].
      destruct (year_at rest) as [[ys k] |]; now inversion E.
    + eauto.
  - eauto.
Qed.

Lemma finditer_regex q : Forall regex_match (finditer q).
Proof.
  apply Forall_forall. intros m H. apply finditer_from_In in H.
  destruct H as (k & _ & H). eapply month_at_regex; eassumption.
Qed.

(** ** Month extraction against its specification *)



(** One turn of the loop, on a match of the regex. *)
Lemma full_date_of_spec m df clk n :
  regex_match m ->
  let d := mkDate (spec_year df (year (clk n)) m) (month_num m) 1 in
  let n' := if needs_clock df m then S n else n in
  1 <= month_num m <= 12 /\
  full_date_of m df clk n =
  if valid_year d then (Ok (strftime_ymd d), n')
  else (Raise (ValueError "year is out of range"), n').
Proof.
  intros [Hname Hyear]. cbn zeta.
  destruct (month_word_num _ Hname) as (k & Hk & Hk12).
  assert (Ek : month_num m = k) by (unfold month_num; now rewrite Hk).
  rewrite Ek. split; [exact Hk12 |].
  unfold full_date_of, strptime_b, bind. rewrite Hk. cbn [ret].
  unfold resolve_year, spec_year, needs_clock, valid_year, datetime_first. rewrite Ek.
  cbn [year].
  assert (Hm : (1 <=? k) && (k <=? 12) = true)
    by (apply andb_true_iff; split; apply Z.leb_le; lia).
  destruct (m_year m) as [ys |]; [| destruct (latest_year df k) as [y |]];
    cbn [ret bind now];
    match goal with
    | |- context [(1 <=? ?y) && (?y <=? 9999)] => destruct ((1 <=? y) && (y <=? 9999))
    end; rewrite ?Hm; reflexivity.
Qed.

Lemma mem_str_In s l : mem_str s l = true <-> In s l.
Proof.
  unfold mem_str. rewrite existsb_exists. split.
  - intros [x [Hx E]]. apply String.eqb_eq in E. now subst.
  - intros H. exists s. split; [exact H | apply String.eqb_refl].
Qed.

Lemma set_of_In s l : In s (set_of l) <-> In s l.
Proof.
  induction l as [| x l IH]; cbn; [tauto |].
  destruct (mem_str x l) eqn:E.
  - rewrite IH. apply mem_str_In in E. split; [auto | intros [<- | H]; auto].
  - cbn. rewrite IH. tauto.
Qed.

Lemma set_of_NoDup l : NoDup (set_of l).
Proof.
  induction l as [| x l IH]; cbn; [constructor |].
  destruct (mem_str x l) eqn:E; [exact IH |].
  constructor; [| exact IH].
  rewrite set_of_In, <- mem_str_In. congruence.
Qed.

(** The loop over the matches: it returns the strings of the specified
    dates when every year is one of [datetime], and raises otherwise. *)
Lemma extract_loop_spec df clk : forall ms found n,
  Forall regex_match ms ->
  let ds := spec_dates ms df clk n in
  Forall (fun d => 1 <= month d <= 12 /\ day d = 1) ds /\
  if forallb valid_year ds then
    exists found',
      extract_loop ms df found clk n
      = (Ok found', (n + List.length (filter (needs_clock df) ms))%nat)
      /\ forall s, In s found' <-> In s found \/ In s (map strftime_ymd ds)
  else
    exists e n', extract_loop ms df found clk n = (Raise e, n')
                 /\ (n' <= n + List.length (filter (needs_clock df) ms))%nat.
Proof.
  induction ms as [| m ms IH]; intros found n Hms; cbn zeta.
  - split; [constructor |]. cbn. exists found. rewrite Nat.add_0_r. split; [reflexivity | tauto].
  - inversion Hms as [| ? ? Hm Hms']; subst.
    destruct (full_date_of_spec m df clk n Hm) as [Hk Hf]. cbn zeta in Hf.
    set (d := mkDate (spec_year df (year (clk n)) m) (month_num m) 1) in *.
    set (n1 := if needs_clock df m then S n else n) in *.
    set (found1 := if mem_str (strftime_ymd d) found then found
                   else (found ++ [strftime_ymd d])%list).
    assert (Hstep : extract_loop (m :: ms) df found clk n =
                    if valid_year d then extract_loop ms df found1 clk n1
                    else (Raise (ValueError "year is out of range"), n1)).
    { cbn [extract_loop]. unfold bind at 1. rewrite Hf. now destruct (valid_year d). }
    rewrite Hstep. clear Hstep Hf.
    cbn [spec_dates forallb filter]. fold d. fold n1.
    destruct (IH found1 n1 Hms') as [Hshape Hrest]. cbn zeta in Hrest.
    assert (Hcount : (n1 + List.length (filter (needs_clock df) ms)
                      = n + List.length (if needs_clock df m
                                         then m :: filter (needs_clock df) ms
                                         else filter (needs_clock df) ms))%nat).
    { subst n1. destruct (needs_clock df m); cbn [List.length]; lia. }
    split; [constructor; [cbn; auto | exact Hshape] |].
    destruct (valid_year d) eqn:Hv; cbn [andb].
    + destruct (forallb valid_year (spec_dates ms df clk n1)).
      * destruct Hrest as (found' & Hrun & Hin). exists found'.
        rewrite <- Hcount. split; [exact Hrun |].
        intros s. rewrite Hin. cbn [map In]. subst found1.
        destruct (mem_str (strftime_ymd d) found) eqn:Hmem.
        -- apply mem_str_In in Hmem. split; [tauto |].
           intros [H | [<- | H]]; auto.
        -- rewrite in_app_iff. cbn [In]. tauto.
      * destruct Hrest as (e & n' & Hrun & Hle). exists e, n'.
        rewrite <- Hcount. auto.
    + exists (ValueError "year is out of range"), n1. split; [reflexivity |].
      rewrite <- Hcount. lia.
Qed.

Lemma preimage_list {A B} (f : A -> B) (P : A -> Prop) (l : list B) :
  Forall (fun s => exists d, P d /\ s = f d) l ->
  exists xs, l = map f xs /\ Forall P xs.
Proof.
  induction 1 as [| s l (d & Hd & ->) _ (xs & -> & Hxs)].
  - exists []. split; [reflexivity | constructor].
  - exists (d :: xs). split; [reflexivity | now constructor].
Qed.

Lemma valid_year_fmt_ok d :
  1000 <= year d <= 9999 -> 1 <= month d <= 12 /\ day d = 1 -> fmt_ok d.
Proof. unfold fmt_ok. intros H [Hm Hd]. lia. Qed.

Lemma sort_by_strict l :
  NoDup l -> StronglySorted (fun a b => date_ltb a b = true) (sort_by date_leb l).
Proof.
  intros Hnd.
  pose proof (sort_by_sorted date_leb date_leb_total date_leb_trans l) as Hs.
  pose proof (sort_by_NoDup date_leb l Hnd) as Hn.
  induction Hs as [| x s Hs IH Hx]; [constructor |].
  inversion Hn as [| ? ? Hnx Hn']; subst.
  constructor; [now apply IH |].
  rewrite Forall_forall in *. intros z Hz.
  unfold date_ltb. rewrite (Hx z Hz). cbn.
  destruct (date_eqb x z) eqn:E; [| reflexivity].
  apply date_eqb_eq in E. subst. contradiction.
Qed.

Lemma strftime_ltb a b :
  fmt_ok a -> fmt_ok b -> String.ltb (strftime_ymd a) (strftime_ymd b) = date_ltb a b.
Proof.
  intros Ha Hb. unfold date_ltb.
  rewrite <- strftime_leb, <- strftime_eqb by assumption.
  unfold String.ltb, String.leb.
  destruct (String.eqb_spec (strftime_ymd a) (strftime_ymd b)) as [E | E].
  - rewrite E, string_compare_refl. reflexivity.
  - destruct (String.compare (strftime_ymd a) (strftime_ymd b)) eqn:Ec; try reflexivity.
    now apply String.compare_eq_iff in Ec.
Qed.

Lemma strftime_sorted ds :
  Forall fmt_ok ds ->
  StronglySorted (fun a b => date_ltb a b = true) ds ->
  StronglySorted (fun a b => String.ltb a b = true) (map strftime_ymd ds).
Proof.
  intros Hok Hs. induction Hs as [| d ds Hs IH Hd]; cbn [map]; [constructor |].
  inversion Hok as [| ? ? Hd_ok Hds_ok]; subst.
  constructor; [now apply IH |].
  apply Forall_forall. intros s Hs'. apply in_map_iff in Hs'.
  destruct Hs' as (d' & <- & Hd').
  rewrite Forall_forall in Hd, Hds_ok.
  rewrite strftime_ltb by auto. auto.
Qed.

Lemma strftime_sorted_dates ds :
  Forall fmt_ok ds ->
  StronglySorted (fun a b => String.ltb a b = true) (map strftime_ymd ds) ->
  StronglySorted (fun a b => date_ltb a b = true) ds.
Proof.
  intros Hok. induction ds as [| d ds IH]; cbn [map]; intros Hs; [constructor |].
  inversion Hok as [| ? ? Hd_ok Hds_ok]; subst.
  inversion Hs as [| ? ? Hs' Hd]; subst.
  constructor; [now apply IH |].
  rewrite Forall_forall in *. intros d' Hd'.
  rewrite <- strftime_ltb by auto. apply Hd. now apply in_map.
Qed.

Lemma forallb_false {A} (f : A -> bool) l :
  forallb f l = false -> exists x, In x l /\ f x = false.
Proof.
  induction l as [| x l IH]; cbn; [discriminate |].
  destruct (f x) eqn:E; cbn.
  - intros H. destruct (IH H) as (y & Hy & Hf). eauto.
  - intros _. eauto.
Qed.

(** What [_extract_months] returns: the strings of the specified dates,
    each once, in the ascending order of the strings, which is the order
    of the dates when every year has four digits; it raises when a year is
    not one of [datetime].  The clock is read once for each token that
    needs it. *)
Lemma extract_months_outcome (query : string) (df : data_frames) (clk : clock) (n : nat) :
  let ms := finditer (lower query) in
  let ds := spec_dates ms df clk n in
  match _extract_months query df clk n with
  | (Ok l, n') =>
      (exists months,
         l = map strftime_ymd months /\
         (forall d, In d months <-> In d ds) /\
         NoDup months /\
         StronglySorted (fun a b => String.ltb a b = true) l /\
         ((forall d, In d ds -> 1000 <= year d) ->
          StronglySorted (fun a b => date_ltb a b = true) months) /\
         Forall (fun d => 1 <= year d <= 9999 /\ 1 <= month d <= 12 /\ day d = 1) months)
      /\ n' = (n + List.length (filter (needs_clock df) ms))%nat
  | (Raise _, n') =>
      (exists d, In d ds /\ ~ 1 <= year d <= 9999)
      /\ (n' <= n + List.length (filter (needs_clock df) ms))%nat
  end.
Proof.
  cbn zeta.
  destruct (extract_loop_spec df clk (finditer (lower query)) [] n
              (finditer_regex (lower query))) as [Hshape Hrun].
  cbn zeta in Hrun. unfold _extract_months, bind.
  set (ds := spec_dates (finditer (lower query)) df clk n) in *.
  destruct (forallb valid_year ds) eqn:Hvalid.
  - destruct Hrun as (found & -> & Hin). cbn [ret]. split; [| reflexivity].
    assert (Hvalid' : forall d, In d ds -> 1 <= year d <= 9999).
    { intros d Hd. rewrite forallb_forall in Hvalid. specialize (Hvalid d Hd).
      unfold valid_year in Hvalid. apply andb_true_iff in Hvalid.
      destruct Hvalid as [H1 H2]. apply Z.leb_le in H1, H2. lia. }
    rewrite Forall_forall in Hshape.
    assert (Hl : forall s, In s (sorted_str (set_of found)) <-> In s (map strftime_ymd ds)).
    { intros s0. unfold sorted_str. rewrite sort_by_In, set_of_In, Hin. cbn [In]. tauto. }
    destruct (preimage_list strftime_ymd (fun d => In d ds) (sorted_str (set_of found)))
      as (xs & Exs & Hxs).
    { apply Forall_forall. intros s0 Hs. apply Hl, in_map_iff in Hs.
      destruct Hs as (d & <- & Hd). eauto. }
    rewrite Forall_forall in Hxs.
    assert (Hnd : NoDup (sorted_str (set_of found)))
      by (apply sort_by_NoDup, set_of_NoDup).
    exists xs. split; [exact Exs |]. split; [| split; [| split; [| split]]].
    + intros d. split; [auto |]. intros Hd.
      assert (Hs : In (strftime_ymd d) (sorted_str (set_of found)))
        by (apply Hl; now apply in_map).
      rewrite Exs in Hs. apply in_map_iff in Hs. destruct Hs as (d' & E & Hd').
      assert (d' = d); [| now subst].
      pose proof (Hvalid' d Hd). pose proof (Hvalid' d' (Hxs d' Hd')).
      pose proof (Hshape d Hd). pose proof (Hshape d' (Hxs d' Hd')).
      apply strftime_ymd_inj; try assumption; lia.
    + apply (NoDup_map_inv strftime_ymd). now rewrite <- Exs.
    + apply sorted_str_strict, set_of_NoDup.
    + intros Hfour. apply strftime_sorted_dates.
      * apply Forall_forall. intros d Hd. specialize (Hxs d Hd).
        apply valid_year_fmt_ok; [| now apply Hshape].
        specialize (Hvalid' d Hxs). specialize (Hfour d Hxs). lia.
      * rewrite <- Exs. apply sorted_str_strict, set_of_NoDup.
    + apply Forall_forall. intros d Hd. specialize (Hxs d Hd).
      specialize (Hshape d Hxs). specialize (Hvalid' d Hxs). tauto.
  - destruct Hrun as (e & n' & -> & Hle). split; [| exact Hle].
    apply forallb_false in Hvalid. destruct Hvalid as (d & Hd & Hv).
    exists d. split; [exact Hd |]. unfold valid_year in Hv.
    apply andb_false_iff in Hv. destruct Hv as [Hv | Hv];
      [apply Z.leb_gt in Hv | apply Z.leb_gt in Hv]; lia.
Qed.



(** ** Word boundaries of the month regex *)

Lemma drop_append pre s : drop (String.length pre) (pre ++ s) = s.
Proof. induction pre as [| c pre IH]; cbn; [now destruct s | exact IH]. Qed.

Lemma prefix_append_same a s : prefix a (a ++ s) = true.
Proof.
  induction a as [| c a IH]; cbn; [now destruct s |].
  destruct (ascii_dec c c); [exact IH | contradiction].
Qed.

Lemma month_word_ends name :
  In name month_words ->
  opt_word (head name) = true /\ opt_word (last_char name) = true
  /\ forall rest, head (name ++ rest) = head name.
Proof.
  intros H. cbn in H.
  repeat (destruct H as [<- | H]; [repeat split |]).
  contradiction.
Qed.

Lemma month_at_token pos prev s m : month_at pos prev s = Some m -> token_at prev s = true.
Proof.
  unfold month_at. destruct (word_boundary prev (head s)) eqn:Hb; [| discriminate].
  destruct (name_at month_alts s) as [[name rest] |] eqn:En; [| discriminate].
  intros _. pose proof (name_at_word _ _ _ En) as Hw.
  apply name_at_spec in En. destruct En as (_ & Es & Hb').
  destruct (month_word_ends name Hw) as (Hh & Hl & Hhead).
  unfold token_at. apply andb_true_iff. split.
  - unfold word_boundary in Hb. rewrite Es, Hhead, Hh in Hb. now destruct (opt_word prev).
  - apply existsb_exists. exists name. split; [exact Hw |].
    rewrite Es, prefix_append_same, drop_append. cbn [andb].
    unfold word_boundary in Hb'. rewrite Hl in Hb'. now destruct (opt_word (head rest)).
Qed.

Lemma token_at_offset s : forall k prev,
  token_at (char_before prev k s) (drop k s) = true -> has_month_token_from prev s = true.
Proof.
  induction s as [| c s IH]; intros k prev H.
  - destruct k as [| k]; cbn in *.
    + now rewrite H.
    + unfold token_at in H. cbn in H. discriminate.
  - destruct k as [| k]; cbn [has_month_token_from].
    + cbn in H. now rewrite H.
    + apply orb_true_iff. right. apply (IH k).
      replace (char_before (Some c) k s) with (char_before prev (S k) (String c s));
        [exact H |].
      destruct k; reflexivity.
Qed.

Lemma no_token_no_match q : has_month_token q = false -> finditer q = [].
Proof.
  intros H. destruct (finditer q) as [| m ms] eqn:E; [reflexivity |].
  assert (Hin : In m (finditer q)) by (rewrite E; now left).
  apply finditer_from_In in Hin. destruct Hin as (k & _ & Hm).
  apply month_at_token, token_at_offset in Hm.
  unfold has_month_token in H. congruence.
Qed.

(** C8. The month regex matches on word boundaries: no match starts at the
    letters [mar] of a word [margin], and a query without a month token
    between word boundaries gives the empty list of months. *)
Theorem margin_is_not_a_month (query : string) (df : data_frames) (clk : clock) (n : nat) :
  (forall pre post m,
     lower query = pre ++ "margin" ++ post ->
     In m (finditer (lower query)) -> m_start m <> String.length pre) /\
  (has_month_token (lower query) = false ->
   _extract_months query df clk n = (Ok [], n)).
Proof.
  split.
  - intros pre post m Eq Hm Hstart. rewrite Eq in Hm.
    apply finditer_from_In in Hm. destruct Hm as (k & Hk & Hm).
    assert (Ek : k = String.length pre) by (cbn in Hk; congruence).
    rewrite Ek, drop_append in Hm.
    unfold month_at in Hm.
    destruct (word_boundary _ _); [| discriminate].
    cbn in Hm. discriminate.
  - intros H. unfold _extract_months, bind.
    rewrite (no_token_no_match _ H). reflexivity.
Qed.

Lemma margin_is_not_a_month_witness :
  _extract_months "What is the Gross Margin?" no_data (fun _ => mkDate 2025 9 15) 0%nat
  = (Ok [], 0%nat).
Proof.
  apply (proj2 (margin_is_not_a_month "What is the Gross Margin?" no_data
                  (fun _ => mkDate 2025 9 15) 0%nat)).
  reflexivity.
Defined.

(** ** A small dataset for the concrete runs *)


(** ** Currency conversion *)

(** C7. Conversion at rate 1.0 is the identity on amounts: a converted row
    whose rate is 1.0 has [amount_usd == amount], and a row whose month and
    currency have no row in the fx table is converted, without an error,
    at the rate 1.0. *)
Theorem convert_rate_one (df : list transaction) (fx_rates : list fx_rate) :
  (forall r', In r' (_convert_to_usd df fx_rates) ->
     rate_to_usd r' == 1 -> amount_usd r' == amount (base r')) /\
  (forall r, In r df ->
     (forall f, In f fx_rates -> fx_matches r f = false) ->
     In (mkUsd r 1 (amount r * 1)) (_convert_to_usd df fx_rates) /\
     forall r', In r' (_convert_to_usd df fx_rates) -> base r' = r ->
                rate_to_usd r' = 1%Q /\ amount_usd r' == amount r).
Proof.
  assert (Hrow : forall r r', In r' (_convert_to_usd df fx_rates) -> base r' = r ->
            In r df /\ amount_usd r' = (amount r * rate_to_usd r')%Q /\
            (filter (fx_matches r) fx_rates = [] -> rate_to_usd r' = 1%Q)).
  { intros r r' Hin Hb. unfold _convert_to_usd in Hin. apply in_flat_map in Hin.
    destruct Hin as (r0 & Hr0 & Hin).
    destruct (filter (fx_matches r0) fx_rates) as [| f fs] eqn:Ef.
    - destruct Hin as [<- | []]. cbn in Hb. subst r0. auto.
    - apply in_map_iff in Hin. destruct Hin as (f' & <- & _). cbn in Hb. subst r0.
      split; [exact Hr0 |]. split; [reflexivity |]. rewrite Ef. discriminate. }
  split.
  - intros r' Hin Hone. destruct (Hrow (base r') r' Hin eq_refl) as (_ & -> & _).
    rewrite Hone. apply Qmult_1_r.
  - intros r Hr Hnone.
    assert (Ef : filter (fx_matches r) fx_rates = []).
    { destruct (filter (fx_matches r) fx_rates) as [| f fs] eqn:Ef; [reflexivity |].
      assert (Hf : In f (filter (fx_matches r) fx_rates)) by (rewrite Ef; now left).
      apply filter_In in Hf. destruct Hf as [Hf Hm]. rewrite (Hnone f Hf) in Hm. discriminate. }
    split.
    + unfold _convert_to_usd. apply in_flat_map. exists r. split; [exact Hr |].
      rewrite Ef. now left.
    + intros r' Hin Hb. destruct (Hrow r r' Hin Hb) as (_ & Ea & Hone).
      specialize (Hone Ef). split; [exact Hone |]. rewrite Ea, Hone. apply Qmult_1_r.
Qed.

Lemma convert_rate_one_witness :
  In (mkUsd (usd 2025 7 "Revenue" 110000) 1 (inject_Z 110000 * 1))
     (_convert_to_usd demo_actuals (fx demo)) /\
  amount_usd (mkUsd (usd 2025 7 "Revenue" 110000) 1 (inject_Z 110000 * 1))
  == inject_Z 110000.
Proof.
  destruct (convert_rate_one demo_actuals (fx demo)) as [Hone Hmissing].
  destruct (Hmissing (usd 2025 7 "Revenue" 110000)) as [Hin _].
  - cbn. tauto.
  - intros f Hf. cbn in Hf. destruct Hf as [<- | []]. reflexivity.
  - split; [exact Hin |]. apply (Hone _ Hin). reflexivity.
Defined.

(** ** The rules of the classifier *)

Ltac rule_cases :=
  unfold when, orelse in *;
  repeat match goal with
         | H : context [if ?b then _ else _] |- _ => destruct b eqn:?
         | H : Some _ = Some _ |- _ => inversion H; clear H; subst
         | H : None = Some _ |- _ => discriminate H
         end.




Lemma single_month_rule_Some q months i :
  single_month_rule q months = Some i -> exists month, months = [month].
Proof.
  unfold single_month_rule. destruct months as [| month [| ? ?]]; try discriminate. eauto.
Qed.


Lemma general_rule_Some q i : general_rule q = Some i -> i = cash_runway_projection.
Proof. unfold general_rule. intros H. rule_cases; reflexivity. Qed.


Lemma int_str_run ds clk n :
  int_str ds clk n = if digits_ok ds then (Ok (int_of ds), n) else (Raise int_refused, n).
Proof.
  unfold int_str, digits_ok.
  destruct (Z.ltb_spec 4300 (Z.of_nat (String.length ds)));
    destruct (Z.leb_spec (Z.of_nat (String.length ds)) 4300); try lia; reflexivity.
Qed.

Lemma ranking_block_run q clk n :
  ranking_block q clk n
  = if ranking_digits_ok q then (Ok (ranking_rule q), n) else (Raise int_refused, n).
Proof.
  unfold ranking_block, ranking_digits_ok, ranking_rule, bind.
  destruct (search_ranking q) as [[w ds] |]; [| reflexivity].
  destruct ds as [| c ds']; [reflexivity |].
  rewrite int_str_run. now destruct (digits_ok (String c ds')).
Qed.

Lemma trend_block_run q clk n :
  trend_block q clk n
  = if trend_digits_ok q then (Ok (trend_rule q), n) else (Raise int_refused, n).
Proof.
  unfold trend_block, trend_digits_ok, trend_rule, number_of_months,
    _extract_number_of_months, bind.
  fold (has_trend_word q). destruct (has_trend_word q); [| reflexivity].
  destruct (search_number q) as [ds |]; [| reflexivity].
  rewrite int_str_run. now destruct (digits_ok ds).
Qed.

(** [get_intent] runs the month extraction, then the blocks: it raises
    where [int] refuses its digits, and returns what the rules give on the
    extracted months otherwise. *)
Lemma get_intent_run query df clk n :
  get_intent query df clk n =
  match _extract_months (lower query) df clk n with
  | (Ok months, n') =>
      if ints_ok (lower query) then (Ok (intent_rules (lower query) months), n')
      else (Raise int_refused, n')
  | (Raise e, n') => (Raise e, n')
  end.
Proof.
  unfold get_intent, bind.
  destruct (_extract_months (lower query) df clk n) as [[months | e] n1]; [| reflexivity].
  rewrite ranking_block_run. unfold ints_ok, intent_rules.
  destruct (ranking_digits_ok (lower query)); cbn [andb]; [| reflexivity].
  destruct (ranking_rule (lower query)) as [i |]; cbn [orelse]; [reflexivity |].
  rewrite trend_block_run.
  destruct (trend_digits_ok (lower query)); [| reflexivity].
  destruct (trend_rule (lower query)) as [i |]; cbn [orelse]; reflexivity.
Qed.

(** What [get_intent] returns is what the rules give on the extracted
    months. *)
Lemma get_intent_Ok query df clk n i n' :
  get_intent query df clk n = (Ok i, n') ->
  exists months,
    _extract_months (lower query) df clk n = (Ok months, n')
    /\ i = intent_rules (lower query) months.
Proof.
  rewrite get_intent_run.
  destruct (_extract_months (lower query) df clk n) as [[months | e] n1]; [| discriminate].
  destruct (ints_ok (lower query)); [| discriminate].
  intros [= <- <-]. eauto.
Qed.


(** ** The rows of a converted table *)

Lemma convert_In_base df fx_rates r' :
  In r' (_convert_to_usd df fx_rates) ->
  In (base r') df /\ amount_usd r' = (amount (base r') * rate_to_usd r')%Q.
Proof.
  unfold _convert_to_usd. intros Hin. apply in_flat_map in Hin.
  destruct Hin as (r & Hr & Hin).
  destruct (filter (fx_matches r) fx_rates) as [| f fs].
  - destruct Hin as [<- | []]. auto.
  - apply in_map_iff in Hin. destruct Hin as (f' & <- & _). auto.
Qed.

Lemma convert_covers df fx_rates r :
  In r df -> exists r', In r' (_convert_to_usd df fx_rates) /\ base r' = r.
Proof.
  unfold _convert_to_usd. intros Hr.
  destruct (filter (fx_matches r) fx_rates) as [| f fs] eqn:E.
  - exists (mkUsd r 1 (amount r * 1)). split; [| reflexivity].
    apply in_flat_map. exists r. split; [exact Hr |]. rewrite E. now left.
  - exists (mkUsd r (f_rate_to_usd f) (amount r * f_rate_to_usd f)).
    split; [| reflexivity].
    apply in_flat_map. exists r. split; [exact Hr |]. rewrite E. now left.
Qed.

(** The converted rows of a month are the rows of the table of that
    month. *)
Lemma in_month_has_data df target_month :
  in_month target_month (_convert_to_usd (actuals df) (fx df)) = []
  <-> has_data df target_month = false.
Proof.
  unfold in_month, has_data. split.
  - intros Hnil. destruct (existsb _ (actuals df)) eqn:E; [| reflexivity].
    apply existsb_exists in E. destruct E as (r & Hr & Hp).
    destruct (convert_covers (actuals df) (fx df) r Hr) as (r' & Hr' & Hb).
    assert (Hin : In r' (filter (fun r0 => same_period (row_month r0) target_month)
                           (_convert_to_usd (actuals df) (fx df)))).
    { apply filter_In. split; [exact Hr' |]. unfold row_month. now rewrite Hb. }
    rewrite Hnil in Hin. contradiction.
  - intros Hnone.
    destruct (filter _ (_convert_to_usd (actuals df) (fx df))) as [| r' rows] eqn:E;
      [reflexivity |].
    assert (Hin : In r' (filter (fun r0 => same_period (row_month r0) target_month)
                           (_convert_to_usd (actuals df) (fx df))))
      by (rewrite E; now left).
    apply filter_In in Hin. destruct Hin as [Hr' Hp].
    assert (existsb (fun r => same_period (t_month r) target_month) (actuals df) = true).
    { apply existsb_exists. exists (base r'). split; [| exact Hp].
      now apply (convert_In_base _ _ _ Hr'). }
    congruence.
Qed.

(** ** The single-metric tool *)

Lemma get_single_metric_run metric month_str df clk n target_month :
  to_datetime month_str clk n = (Ok target_month, n) ->
  get_single_metric metric month_str df clk n =
  (Ok (match in_month target_month (_convert_to_usd (actuals df) (fx df)) with
       | [] => [Lit "No data found for "; Lit (strftime_BY target_month); Lit "."]
       | month_data =>
           [Lit "**"; Lit (metric_name metric); Lit " for "; Lit (strftime_BY target_month);
            Lit ":** "; money (fst (single_metric_value metric month_data)); Lit " ";
            Lit (snd (single_metric_value metric month_data))]
       end, None), n).
Proof.
  intros Hd. unfold get_single_metric, bind. rewrite Hd.
  destruct (in_month target_month _) as [| r rows]; [reflexivity |].
  unfold single_metric_value. destruct metric; reflexivity.
Qed.









(** ** The cash runway intent without enough data *)






(** ** The error paths of the entry point *)





(** ** Ranking detection *)

Lemma first_prefix_None ws s w :
  first_prefix ws s = None -> In w ws -> prefix w s = false.
Proof.
  induction ws as [| w0 ws IH]; cbn; [contradiction |].
  destruct (prefix w0 s) eqn:E; [discriminate |].
  intros H [<- | Hin]; auto.
Qed.

Lemma ranking_at_None s : ranking_at s = None -> first_prefix ranking_words s = None.
Proof.
  unfold ranking_at. destruct (first_prefix ranking_words s) as [[w rest] |]; [| reflexivity].
  destruct (span is_space rest) as [sp r1]. destruct (span is_digit r1). discriminate.
Qed.

Lemma search_ranking_None s w :
  search_ranking s = None -> In w ranking_words -> contains w s = false.
Proof.
  intros H Hw. induction s as [| c s IH]; cbn [search_ranking] in H.
  - destruct (ranking_at "") eqn:E; [discriminate |].
    change (contains w "") with (prefix w "" || false).
    now rewrite (first_prefix_None _ _ _ (ranking_at_None _ E) Hw).
  - destruct (ranking_at (String c s)) eqn:E; [discriminate |].
    change (contains w (String c s)) with (prefix w (String c s) || contains w s).
    rewrite (first_prefix_None _ _ _ (ranking_at_None _ E) Hw). cbn [orb]. auto.
Qed.

Lemma first_prefix_In ws s w rest : first_prefix ws s = Some (w, rest) -> In w ws.
Proof.
  induction ws as [| w0 ws IH]; cbn; [discriminate |].
  destruct (prefix w0 s); [intros [= <- _]; now left | auto].
Qed.

Lemma search_ranking_word s w ds : search_ranking s = Some (w, ds) -> In w ranking_words.
Proof.
  induction s as [| c s IH]; cbn [search_ranking].
  - cbn. discriminate.
  - destruct (ranking_at (String c s)) as [[w' ds'] |] eqn:E; [| exact IH].
    intros [= <- <-]. unfold ranking_at in E.
    destruct (first_prefix ranking_words (String c s)) as [[w0 rest] |] eqn:Ef;
      [| discriminate].
    destruct (span is_space rest) as [sp r1]. destruct (span is_digit r1).
    inversion E; subst. eapply first_prefix_In; eassumption.
Qed.

(** With a ranking word and a metric keyword in the query, the ranking rule
    answers, whatever the months are. *)
Lemma ranking_rule_fires q :
  has_ranking_token q = true -> has_metric_keyword q = true ->
  exists w ds m,
    search_ranking q = Some (w, ds) /\ In w ranking_words /\ first_metric q = Some m /\
    ranking_rule q
    = Some (metric_ranking m
              (if mem_str w ["top"; "highest"; "best"] then top else bottom)
              (match ds with EmptyString => 1 | _ => int_of ds end)).
Proof.
  intros Ht Hk.
  destruct (search_ranking q) as [[w ds] |] eqn:Es.
  - exists w, ds.
    assert (Hm : exists m, first_metric q = Some m
                 /\ ranking_rule q = Some (metric_ranking m
                      (if mem_str w ["top"; "highest"; "best"] then top else bottom)
                      (match ds with EmptyString => 1 | _ => int_of ds end))).
    { unfold ranking_rule, ranking_choice, first_metric, has_metric_keyword in *.
      rewrite Es.
      cbn [metric_keywords existsb find fst snd] in *. unfold when, orelse.
      destruct (contains "revenue" q); [eexists; split; reflexivity |].
      destruct (contains "opex" q); [eexists; split; reflexivity |].
      destruct (contains "ebitda" q); [eexists; split; reflexivity |].
      destruct (contains "gross margin" q); [eexists; split; reflexivity |].
      discriminate. }
    destruct Hm as (m & Hfm & Hr). exists m.
    split; [reflexivity |]. split; [eapply search_ranking_word; eassumption |].
    split; [exact Hfm | exact Hr].
  - exfalso. unfold has_ranking_token in Ht. apply existsb_exists in Ht.
    destruct Ht as (w & Hw & Hc). rewrite (search_ranking_None q w Es Hw) in Hc. discriminate.
Qed.

(** C3, as amended.  [get_intent] extracts the months before it looks for
    a ranking, and reads N with [int] before it looks for the metric.
    When the extraction returns, a query that holds a ranking word and a
    metric keyword is classified as a ranking, whatever months and trend
    words it holds, unless [int] refuses the digits (more than 4300): the
    word found first gives the direction, the digits after it give N, 1
    when there are none.  The query "top 3 revenue months" is the ranking
    of revenue, top 3. *)
Theorem ranking_preempts (query : string) (df : data_frames) (clk : clock) (n n' : nat)
    (months : list string) :
  (_extract_months (lower query) df clk n = (Ok months, n') ->
   has_ranking_token (lower query) = true ->
   has_metric_keyword (lower query) = true ->
   exists w ds m,
     search_ranking (lower query) = Some (w, ds) /\ In w ranking_words /\
     first_metric (lower query) = Some m /\
     get_intent query df clk n =
     if digits_ok ds then
       (Ok (metric_ranking m
              (if mem_str w ["top"; "highest"; "best"] then top else bottom)
              (match ds with EmptyString => 1 | _ => int_of ds end)), n')
     else (Raise int_refused, n')) /\
  get_intent "top 3 revenue months" df clk n = (Ok (metric_ranking Revenue top 3), n).
Proof.
  split; [| reflexivity].
  intros Hm Ht Hk.
  destruct (ranking_rule_fires (lower query) Ht Hk) as (w & ds & m & Hs & Hw & Hfm & Hr).
  exists w, ds, m. repeat (split; [assumption |]).
  rewrite get_intent_run, Hm. unfold ints_ok, ranking_digits_ok, intent_rules.
  rewrite Hs, Hr. cbn [orelse]. now destruct (digits_ok ds).
Qed.

Lemma ranking_preempts_witness :
  get_intent "Which months had the LOWEST 2 opex trend in 2025? Jan?" demo sept_2025 0%nat
  = (Ok (metric_ranking Opex bottom 2), 1%nat).
Proof.
  destruct (proj1 (ranking_preempts "Which months had the LOWEST 2 opex trend in 2025? Jan?"
                     demo sept_2025 0%nat 1%nat ["2025-01-01"]))
    as (w & ds & m & Hs & _ & Hfm & Hi); [reflexivity | reflexivity | reflexivity |].
  vm_compute in Hs. injection Hs as <- <-.
  vm_compute in Hfm. injection Hfm as <-.
  exact Hi.
Defined.

(** C3 fails as stated: the months are extracted before the ranking is
    looked for, and that extraction raises on this ranking query. *)
Lemma ranking_query_raises :
  has_ranking_token (lower "Top revenue months since Jan 0000") = true
  /\ has_metric_keyword (lower "Top revenue months since Jan 0000") = true
  /\ get_intent "Top revenue months since Jan 0000" demo sept_2025 0%nat
     = (Raise (ValueError "year is out of range"), 0%nat).
Proof. repeat split. Qed.

(** ** Readings of the process clock *)

Lemma clock_free_ret {A} (a : A) : clock_free (ret a).
Proof. now exists (Ok a). Qed.

Lemma clock_free_raise {A} e : clock_free (@raise A e).
Proof. now exists (Raise e). Qed.

Lemma clock_free_bind {A B} (c : M A) (k : A -> M B) :
  clock_free c -> (forall a, clock_free (k a)) -> clock_free (bind c k).
Proof.
  intros [r Hr] Hk. destruct r as [a | e].
  - destruct (Hk a) as [r' Hr']. exists r'. intros clk n. unfold bind. now rewrite Hr, Hr'.
  - exists (Raise e). intros clk n. unfold bind. now rewrite Hr.
Qed.

Lemma clock_free_column p c : clock_free (column p c).
Proof.
  unfold column. destruct (mem_str c (p_columns p));
    [apply clock_free_ret | apply clock_free_raise].
Qed.

Lemma clock_free_metric_column metric p : clock_free (metric_column metric p).
Proof.
  destruct metric; cbn [metric_column]; unfold gross_margin_column;
    repeat first [ apply clock_free_ret | apply clock_free_column
                 | apply clock_free_bind; [| intros ?] ].
Qed.

Lemma clock_free_last_window {A} months (rows : list (date * A)) :
  clock_free (last_window months rows).
Proof.
  unfold last_window. destruct rows; [apply clock_free_ret |].
  destruct (in_bounds _); [apply clock_free_ret | apply clock_free_raise].
Qed.

Lemma clock_free_lineplot rows : clock_free (lineplot rows).
Proof.
  unfold lineplot. destruct rows; [apply clock_free_raise | apply clock_free_ret].
Qed.

Ltac clock_free_steps :=
  repeat first [ apply clock_free_ret | apply clock_free_raise
               | apply clock_free_last_window | apply clock_free_lineplot
               | apply clock_free_metric_column
               | apply clock_free_bind; [| intros ?] ].

(** A tool that starts with [today = now()] and goes on without the
    clock reads it once, and depends on that one reading only. *)
Lemma one_reading {A} (k : date -> M A) clk clk' n :
  (forall today, clock_free (k today)) ->
  clk' n = clk n ->
  snd (bind now k clk n) = S n /\ bind now k clk' n = bind now k clk n.
Proof.
  intros Hk E. unfold bind, now. rewrite E.
  destruct (Hk (clk n)) as [r Hr]. rewrite !Hr. now destruct r.
Qed.

Lemma extract_months_count query df clk n :
  let reads := List.length (filter (needs_clock df) (finditer (lower query))) in
  (snd (_extract_months query df clk n) <= n + reads)%nat /\
  forall l n', _extract_months query df clk n = (Ok l, n') -> n' = (n + reads)%nat.
Proof.
  cbn zeta. pose proof (extract_months_outcome query df clk n) as H. cbn zeta in H.
  destruct (_extract_months query df clk n) as [[l | e] n1]; cbn [snd].
  - destruct H as [_ ->]. split; [apply le_n |]. now intros l' n' [= _ <-].
  - destruct H as [_ Hle]. split; [exact Hle | discriminate].
Qed.

(** C9, as amended.  The clock is not captured at the entry of a query: it
    is read where it is used.  Each trailing-window tool reads it exactly
    once, at its start, and its answer depends on that reading alone;
    month extraction reads it once for each month token that has neither a
    year nor a row of actuals in its calendar month. *)
Theorem clock_read_where_used (df : data_frames) (clk clk' : clock) (n : nat) :
  clk' n = clk n ->
  (snd (_calculate_net_burn df clk n) = S n
   /\ _calculate_net_burn df clk' n = _calculate_net_burn df clk n) /\
  (forall metric months,
     snd (get_metric_trend metric months df clk n) = S n
     /\ get_metric_trend metric months df clk' n = get_metric_trend metric months df clk n) /\
  (forall months,
     snd (get_gross_margin_trend months df clk n) = S n
     /\ get_gross_margin_trend months df clk' n = get_gross_margin_trend months df clk n) /\
  (forall months,
     snd (get_cash_balance_trend months df clk n) = S n
     /\ get_cash_balance_trend months df clk' n = get_cash_balance_trend months df clk n) /\
  (forall metric ranking_type k,
     snd (get_metric_ranking metric ranking_type k df clk n) = S n
     /\ get_metric_ranking metric ranking_type k df clk' n
        = get_metric_ranking metric ranking_type k df clk n) /\
  (forall query,
     let reads := List.length (filter (needs_clock df) (finditer (lower query))) in
     (snd (_extract_months query df clk n) <= n + reads)%nat /\
     forall l n', _extract_months query df clk n = (Ok l, n') -> n' = (n + reads)%nat).
Proof.
  intros E.
  split; [| split; [| split; [| split; [| split]]]].
  - unfold _calculate_net_burn. apply one_reading; [| exact E]. intros today.
    cbv zeta. destruct (last_opt _); [| apply clock_free_ret].
    destruct (_ <? 3); apply clock_free_ret.
  - intros metric months. unfold get_metric_trend. apply one_reading; [| exact E].
    intros today. cbv zeta. apply clock_free_bind; [| intros ?; clock_free_steps].
    destruct metric; first [apply clock_free_raise | apply clock_free_metric_column].
  - intros months. unfold get_gross_margin_trend. apply one_reading; [| exact E].
    intros today. cbv zeta.
    apply clock_free_bind; [| intros ?; clock_free_steps].
    apply (clock_free_metric_column GrossMargin).
  - intros months. unfold get_cash_balance_trend. apply one_reading; [| exact E].
    intros today. cbv zeta. clock_free_steps.
  - intros metric ranking_type k. unfold get_metric_ranking.
    apply one_reading; [| exact E]. intros today. cbv zeta.
    apply clock_free_bind; [apply clock_free_metric_column | intros ?].
    apply clock_free_bind; [| intros ?; apply clock_free_ret].
    destruct (firstn _ _); clock_free_steps.
  - intros query. apply extract_months_count.
Qed.

Lemma clock_read_where_used_witness :
  get_metric_ranking Revenue top 2 demo new_year 1%nat
  = get_metric_ranking Revenue top 2 demo (fun _ => mkDate 2026 1 1) 1%nat.
Proof.
  apply (clock_read_where_used demo (fun _ => mkDate 2026 1 1) new_year 1%nat).
  reflexivity.
Defined.

(** C9 fails as stated: one answer reads the clock twice and uses both
    readings.  Across a new year the two months of one comparison get two
    different years, and month extraction and the trend tool of one query
    see two different days. *)
Lemma clock_read_twice :
  get_intent "Compare revenue for November and December" demo new_year 0%nat
  = (Ok (multi_month_metric Revenue ["2025-11-01"; "2026-12-01"]), 2%nat)
  /\ snd (run_agent "Compare revenue for November and December" demo new_year 0%nat) = 2%nat
  /\ get_intent "Revenue trend up to December" demo new_year 0%nat
     = (Ok (metric_trend Revenue 6), 1%nat)
  /\ snd (run_agent "Revenue trend up to December" demo new_year 0%nat) = 2%nat.
Proof. repeat split. Qed.

(** ** Cash runway and cash projection *)

Lemma combine_map_same {A B C} (g : A -> B) (h : A -> C) (l : list A) :
  combine (map g l) (map h l) = map (fun i => (g i, h i)) l.
Proof. induction l as [| x l IH]; cbn; [reflexivity | now rewrite IH]. Qed.

Lemma range_length k : range (Z.of_nat (List.length (range k))) = range k.
Proof.
  unfold range. now rewrite length_map, length_seq, Nat2Z.id.
Qed.

(** The points of a projection: one a month from the month of the latest
    cash balance, the balance moving by [step] each month. *)
Lemma projection_points (last_month : date) (latest_cash : Q) (step : Z -> Q) (k : Z) :
  let projection_dates := map (add_months last_month) (range k) in
  map (fun r : date * Q => (XDate (fst r), Fin (snd r)))
      (combine projection_dates
         (map step (range (Z.of_nat (List.length projection_dates)))))
  = map (fun i => (XDate (add_months last_month i), Fin (step i))) (range k).
Proof.
  cbv zeta. rewrite length_map, range_length, combine_map_same, map_map. reflexivity.
Qed.


(** [int] is the floor on what is not negative. *)
Lemma int_Q_floor (x : Q) : (0 <= x)%Q -> int_Q x = Qfloor x.
Proof.
  intros H. unfold int_Q, Qfloor. destruct x as [p q].
  unfold Qle in H. cbn in *. apply Z.quot_div_nonneg; lia.
Qed.

Lemma runway_nonneg (cash avg : Q) : (0 <= cash -> 0 < avg -> 0 <= cash / avg)%Q.
Proof.
  intros Hc Ha. apply Qle_shift_div_l; [exact Ha |]. now rewrite Qmult_0_l.
Qed.

Lemma year_add_months d i : year (add_months d i) = (period_M d + i) / 12.
Proof. reflexivity. Qed.

(** The months between two months that timestamps hold. *)
Lemma add_months_in_range d lo hi i :
  in_timestamp_range (add_months d lo) -> in_timestamp_range (add_months d hi) ->
  lo <= i <= hi -> in_timestamp_range (add_months d i).
Proof.
  unfold in_timestamp_range. rewrite !year_add_months. intros [Hlo _] [_ Hhi] Hi.
  assert (H1 : (period_M d + lo) / 12 <= (period_M d + i) / 12)
    by (apply Z.div_le_mono; lia).
  assert (H2 : (period_M d + i) / 12 <= (period_M d + hi) / 12)
    by (apply Z.div_le_mono; lia).
  lia.
Qed.

Lemma ts_add_months_ok d k clk n :
  in_timestamp_range (add_months d k) ->
  ts_add_months d k clk n = (Ok (add_months d k), n).
Proof. intros H. unfold ts_add_months. now rewrite (in_range_bounds _ H). Qed.

Lemma mapM_ts_add_months d ks clk n :
  (forall i, In i ks -> in_timestamp_range (add_months d i)) ->
  mapM (ts_add_months d) ks clk n = (Ok (map (add_months d) ks), n).
Proof.
  induction ks as [| i ks IH]; intros H; cbn [mapM map]; [reflexivity |].
  unfold bind. rewrite ts_add_months_ok by (apply H; now left).
  unfold bind in IH. rewrite IH by (intros; apply H; now right). reflexivity.
Qed.

Lemma range_In k i : In i (range k) <-> 0 <= i < k.
Proof.
  unfold range. rewrite in_map_iff. split.
  - intros (j & <- & Hj). apply in_seq in Hj. lia.
  - intros H. exists (Z.to_nat i). split; [lia |]. apply in_seq. lia.
Qed.




(** ** Gross margin *)

Local Open Scope Q_scope.

Lemma Qsum_cons x l : Qsum (x :: l) = x + Qsum l.
Proof. reflexivity. Qed.

Lemma Qsum_ext {A} (f g : A -> Q) l :
  (forall x, In x l -> f x == g x) -> Qsum (map f l) == Qsum (map g l).
Proof.
  induction l as [| x l IH]; intros H; cbn [map]; [reflexivity |].
  rewrite !Qsum_cons, (H x (or_introl eq_refl)), IH; [reflexivity |].
  intros y Hy. apply H. now right.
Qed.

Lemma Qsum_plus {A} (f g : A -> Q) l :
  Qsum (map (fun x => f x + g x) l) == Qsum (map f l) + Qsum (map g l).
Proof.
  induction l as [| x l IH]; cbn [map]; [reflexivity |].
  rewrite !Qsum_cons, IH. ring.
Qed.

Lemma Qsum_zero {A} (l : list A) : Qsum (map (fun _ => 0) l) == 0.
Proof.
  induction l as [| x l IH]; cbn [map]; [reflexivity |]. rewrite Qsum_cons, IH. ring.
Qed.

(** Among distinct dates exactly one is the date of a given row. *)
Lemma Qsum_pick (x : date) (a : Q) ds :
  NoDup ds -> In x ds ->
  Qsum (map (fun d => if date_eqb x d then a else 0) ds) == a.
Proof.
  induction 1 as [| d ds Hd Hnd IH]; intros Hin; [contradiction |].
  cbn [map]. rewrite Qsum_cons. destruct Hin as [-> | Hin].
  - rewrite (proj2 (date_eqb_eq x x) eq_refl).
    rewrite (Qsum_ext _ (fun _ => 0)), Qsum_zero; [ring |].
    intros y Hy. destruct (date_eqb x y) eqn:E; [| reflexivity].
    apply date_eqb_eq in E. subst. contradiction.
  - destruct (date_eqb x d) eqn:E.
    + apply date_eqb_eq in E. subst. contradiction.
    + rewrite IH by assumption. ring.
Qed.

(** Summing the cells of a column over the months of the index gives the
    sum over the rows. *)
Lemma Qsum_by_month (P : usd_row -> bool) ds : forall rows,
  NoDup ds ->
  (forall r, In r rows -> In (row_month r) ds) ->
  Qsum (map (fun d => Qsum (map amount_usd
                              (filter (fun r => date_eqb (row_month r) d && P r) rows)))
            ds)
  == Qsum (map amount_usd (filter P rows)).
Proof.
  intros rows Hnd. induction rows as [| r rows IH]; intros Hin.
  - cbn [filter map]. apply Qsum_zero.
  - rewrite (Qsum_ext _
      (fun d => (if date_eqb (row_month r) d then (if P r then amount_usd r else 0) else 0)
                + Qsum (map amount_usd
                          (filter (fun r => date_eqb (row_month r) d && P r) rows)))).
    + rewrite Qsum_plus, IH by (intros; apply Hin; now right).
      rewrite Qsum_pick by (auto; apply Hin; now left).
      cbn [filter]. destruct (P r); cbn [map]; rewrite ?Qsum_cons; ring.
    + intros d _. cbn [filter].
      destruct (date_eqb (row_month r) d), (P r); cbn [andb map];
        rewrite ?Qsum_cons; ring.
Qed.

Lemma sorted_keys_In c l : In c (sorted_keys l) <-> In c l.
Proof. unfold sorted_keys, sorted_str. rewrite sort_by_In. apply set_of_In. Qed.

(** [pivot.get(c, pd.Series([0])).sum()] is the sum of the category over
    the rows of the pivot. *)
Lemma get_sum_category rows c : get_sum (pivot_table rows) c == category_sum c rows.
Proof.
  unfold get_sum, category_sum. cbn [p_columns p_index pivot_table].
  destruct (mem_str c (sorted_keys (map row_category rows))) eqn:E.
  - unfold cell. cbn [p_rows].
    apply (Qsum_by_month (fun r => String.eqb (row_category r) c)).
    + unfold sorted_dates. apply sort_by_NoDup, dedup_dates_NoDup.
    + intros r Hr. apply sorted_dates_In. now apply in_map.
  - assert (Hnone : filter (fun r => String.eqb (row_category r) c) rows = []).
    { destruct (filter _ rows) as [| r rs] eqn:Ef; [reflexivity |].
      assert (Hr : In r (filter (fun r => String.eqb (row_category r) c) rows))
        by (rewrite Ef; now left).
      apply filter_In in Hr. destruct Hr as [Hr Hc]. apply String.eqb_eq in Hc.
      assert (Hin : mem_str c (sorted_keys (map row_category rows)) = true).
      { apply mem_str_In, sorted_keys_In. rewrite <- Hc. now apply in_map. }
      congruence. }
    rewrite Hnone. cbn [map]. rewrite Qsum_cons. change (Qsum []) with 0. ring.
Qed.

Lemma Qeq_bool_eq (a b : Q) : a == b -> Qeq_bool a 0 = Qeq_bool b 0.
Proof.
  intros H. destruct (Qeq_bool b 0) eqn:E.
  - apply Qeq_bool_iff. apply Qeq_bool_iff in E. now rewrite H.
  - destruct (Qeq_bool a 0) eqn:E'; [| reflexivity].
    apply Qeq_bool_iff in E'. rewrite H in E'. apply Qeq_bool_iff in E'. congruence.
Qed.

(** The guarded gross margin of the single-month and multi-month tools. *)
Lemma guarded_gross_margin month_data :
  let revenue := category_sum "Revenue" month_data in
  let cogs := category_sum "COGS" month_data in
  let p := pivot_table month_data in
  (~ revenue == 0 ->
   Qeq_bool (get_sum p "Revenue") 0 = false /\
   gross_margin_pct (get_sum p "Revenue") (get_sum p "COGS") == gross_margin_pct revenue cogs)
  /\ (revenue == 0 -> Qeq_bool (get_sum p "Revenue") 0 = true).
Proof.
  cbv zeta. pose proof (get_sum_category month_data "Revenue") as Hr.
  pose proof (get_sum_category month_data "COGS") as Hc. split.
  - intros Hnz. split.
    + rewrite (Qeq_bool_eq _ _ Hr). destruct (Qeq_bool _ 0) eqn:E; [| reflexivity].
      apply Qeq_bool_iff in E. contradiction.
    + unfold gross_margin_pct. now rewrite Hr, Hc.
  - intros Hz. rewrite (Qeq_bool_eq _ _ Hr). now apply Qeq_bool_iff.
Qed.

(** C1, as amended.  On rows whose float64 sums are exact, Gross Margin %
    = (Revenue - COGS) / Revenue * 100 wherever the revenue of the period
    is not zero: in the single-month tool, in the multi-month comparison,
    and in each cell of the column of the trend and of the ranking.  The
    division is guarded in the single-month tool, where a revenue of zero
    gives the value 0, and in the multi-month comparison, where a month
    with a revenue of zero is left out of the comparison. *)
Theorem gross_margin_guarded :
  (forall df month_str target_month clk n,
     to_datetime month_str clk n = (Ok target_month, n) ->
     let month_data := in_month target_month (_convert_to_usd (actuals df) (fx df)) in
     let revenue := category_sum "Revenue" month_data in
     let cogs := category_sum "COGS" month_data in
     month_data <> [] ->
     exact_rows month_data = true ->
     exists value,
       get_single_metric GrossMargin month_str df clk n
       = (Ok ([Lit "**"; Lit "Gross Margin"; Lit " for "; Lit (strftime_BY target_month);
               Lit ":** "; money value; Lit " "; Lit "%"], None), n)
       /\ (~ revenue == 0 -> value == gross_margin_pct revenue cogs)
       /\ (revenue == 0 -> value = 0)) /\
  (forall month_data,
     let revenue := category_sum "Revenue" month_data in
     let cogs := category_sum "COGS" month_data in
     exact_rows month_data = true ->
     (revenue == 0 -> multi_month_value GrossMargin month_data = None) /\
     (~ revenue == 0 ->
      exists value, multi_month_value GrossMargin month_data = Some value
                    /\ value == gross_margin_pct revenue cogs)) /\
  (forall p clk n col n',
     gross_margin_column p clk n = (Ok col, n') ->
     exact_rows (p_rows p) = true ->
     forall d v, In (d, v) col ->
       ~ cell p d "Revenue" == 0 ->
       v = Fin (gross_margin_pct (cell p d "Revenue") (cell p d "COGS"))).
Proof.
  split; [| split].
  - intros df month_str target_month clk n Hd. cbv zeta. intros Hrows _.
    rewrite (get_single_metric_run _ _ _ _ _ _ Hd).
    destruct (guarded_gross_margin
                (in_month target_month (_convert_to_usd (actuals df) (fx df))))
      as [Hnz Hz].
    destruct (in_month target_month _) as [| r rows] eqn:Erows; [contradiction |].
    cbn [single_metric_value fst snd metric_name]. eexists. split; [reflexivity |].
    split.
    + intros H. destruct (Hnz H) as [E Hv]. rewrite E. cbn [negb]. exact Hv.
    + intros H. rewrite (Hz H). reflexivity.
  - intros month_data. cbv zeta. intros _.
    destruct (guarded_gross_margin month_data) as [Hnz Hz]. split.
    + intros H. unfold multi_month_value. destruct month_data; [reflexivity |].
      now rewrite (Hz H).
    + intros H. destruct (Hnz H) as [E Hv]. unfold multi_month_value.
      destruct month_data as [| r rows]; [now contradiction H |].
      rewrite E. cbn [negb]. eauto.
  - intros p clk n col n' Hcol _ d v Hin Hnz.
    unfold gross_margin_column, bind, column in Hcol.
    destruct (mem_str "Revenue" (p_columns p)); [| discriminate].
    destruct (mem_str "COGS" (p_columns p)); [| discriminate].
    cbn [ret] in Hcol. inversion Hcol; subst col. clear Hcol.
    rewrite map_map in Hin. apply in_map_iff in Hin. destruct Hin as (d' & E & _).
    cbn [fst snd] in E. inversion E; subst. unfold fdiv.
    destruct (Qeq_bool (cell p d "Revenue") 0) eqn:Eq; [| reflexivity].
    apply Qeq_bool_iff in Eq. contradiction.
Qed.

Lemma gross_margin_guarded_witness :
  exists value,
    get_single_metric GrossMargin "2025-06-01" demo sept_2025 0%nat
    = (Ok ([Lit "**"; Lit "Gross Margin"; Lit " for "; Lit "June 2025";
            Lit ":** "; money value; Lit " "; Lit "%"], None), 0%nat)
    /\ value == 60.
Proof.
  destruct (proj1 gross_margin_guarded demo "2025-06-01" (mkDate 2025 6 1)
              sept_2025 0%nat eq_refl) as (value & Hrun & Hnz & _);
    [vm_compute; discriminate | reflexivity |].
  exists value. split; [exact Hrun |].
  rewrite Hnz; [reflexivity | vm_compute; discriminate].
Defined.

(** C1 fails as stated.  August 2025 of the demo data has costs and no
    revenue.  The trend and the ranking divide without a guard: the cell of
    that month is minus infinity, not 0.  The multi-month comparison leaves
    the month out: no value 0 is reported for it. *)
Lemma gross_margin_not_zero :
  category_sum "Revenue"
    (in_month (mkDate 2025 8 1) (_convert_to_usd (actuals demo) (fx demo))) == 0
  /\ (exists c,
        get_gross_margin_trend 1 demo sept_2025 0%nat
        = (Ok ([Lit "**Gross Margin Trend ("; Lit "1"; Lit (" Months):**" ++ nl);
                Lit "- **"; Lit "Aug 2025"; Lit ":** "; Num Plain2 NInf; Lit ("%" ++ nl)],
               Some c), 1%nat))
  /\ (exists c,
        get_metric_ranking GrossMargin bottom 1 demo sept_2025 0%nat
        = (Ok ([Lit "**"; Lit "Bottom"; Lit " "; Lit "1"; Lit " Month(s) for ";
                Lit "Gross Margin"; Lit (":**" ++ nl);
                Lit "- **"; Lit "August 2025"; Lit ":** "; Num Plain2 NInf;
                Lit ("%" ++ nl)],
               Some c), 1%nat))
  /\ (exists value c,
        run_agent "Gross margin for July and August 2025" demo sept_2025 0%nat
        = (Ok ([Lit "**Comparison for "; Lit "Gross Margin %"; Lit (":**" ++ nl);
                Lit "- **"; Lit "Jul 2025"; Lit "**: "; Lit ""; money value; Lit "%";
                Lit nl],
               Some c), 0%nat)).
Proof.
  split; [reflexivity |].
  split; [eexists; vm_compute; reflexivity |].
  split; [eexists; vm_compute; reflexivity |].
  do 2 eexists. vm_compute. reflexivity.
Qed.

Local Close Scope Q_scope.

(* ================================================================== *)
(** * Further properties of the planner and of the tools *)

(** ** Upper and lower case *)

Lemma lower_char_idem c : lower_char (lower_char c) = lower_char c.
Proof. destruct c as [[] [] [] [] [] [] [] []]; reflexivity. Qed.

Lemma lower_idem s : lower (lower s) = lower s.
Proof.
  induction s as [| c s IH]; cbn; [reflexivity |]. now rewrite lower_char_idem, IH.
Qed.

(** X1. Classification ignores case: two queries that differ in the case
    of their letters only get the same answer, and lowering a query
    beforehand changes nothing. *)
Theorem answer_ignores_case (q1 q2 : string) (df : data_frames) (clk : clock) (n : nat) :
  lower q1 = lower q2 ->
  get_intent q1 df clk n = get_intent q2 df clk n
  /\ run_agent q1 df clk n = run_agent q2 df clk n
  /\ run_agent (lower q1) df clk n = run_agent q1 df clk n.
Proof.
  intros E.
  assert (Hi : forall a b, lower a = lower b -> get_intent a df = get_intent b df).
  { intros a b H. unfold get_intent. now rewrite H. }
  split; [now rewrite (Hi q1 q2 E) |].
  split; unfold run_agent.
  - now rewrite (Hi q1 q2 E).
  - now rewrite (Hi (lower q1) q1 (lower_idem q1)).
Qed.

Lemma answer_ignores_case_witness :
  run_agent "TOP 2 Months for REVENUE" demo sept_2025 0%nat
  = run_agent "top 2 months for Revenue" demo sept_2025 0%nat.
Proof.
  apply (answer_ignores_case "TOP 2 Months for REVENUE" "top 2 months for Revenue"
           demo sept_2025 0%nat).
  reflexivity.
Defined.

(** ** The matches of the month regex, in order *)

Lemma month_at_start_len pos prev s m :
  month_at pos prev s = Some m -> m_start m = pos /\ (3 <= m_len m)%nat.
Proof.
  unfold month_at. destruct (word_boundary prev (head s)); [| discriminate].
  destruct (name_at month_alts s) as [[name rest] |] eqn:En; [| discriminate].
  assert (Hlen : (3 <= String.length name)%nat).
  { apply name_at_word in En. cbn in En.
    repeat (destruct En as [<- | En]; [cbn; lia |]). contradiction. }
  destruct (year_at rest) as [[ys k] |]; intros [= <-]; cbn; split; lia.
Qed.

Lemma finditer_from_ordered s : forall pos skip prev,
  Forall (fun m => (pos + skip <= m_start m)%nat) (finditer_from pos skip prev s)
  /\ StronglySorted (fun a b => (m_start a + m_len a <= m_start b)%nat)
       (finditer_from pos skip prev s).
Proof.
  induction s as [| c s IH]; intros pos skip prev; cbn [finditer_from].
  - split; constructor.
  - destruct skip as [| k].
    + destruct (month_at pos prev (String c s)) as [m |] eqn:E.
      * destruct (month_at_start_len _ _ _ _ E) as [Hs Hl].
        destruct (IH (S pos) (m_len m - 1)%nat (Some c)) as [Hge Hsorted].
        split.
        -- constructor; [lia |]. eapply Forall_impl; [| exact Hge]. cbn. intros; lia.
        -- constructor; [exact Hsorted |].
           eapply Forall_impl; [| exact Hge]. cbn. intros; lia.
      * destruct (IH (S pos) 0%nat (Some c)) as [Hge Hsorted]. split; [| exact Hsorted].
        eapply Forall_impl; [| exact Hge]. cbn. intros; lia.
    + destruct (IH (S pos) k (Some c)) as [Hge Hsorted]. split; [| exact Hsorted].
      eapply Forall_impl; [| exact Hge]. cbn. intros; lia.
Qed.

(** X2. The matches of the month regex come from left to right and do not
    overlap: each one ends before the next one starts, and each covers at
    least the three letters of an abbreviation. *)
Theorem month_matches_in_order (query : string) :
  StronglySorted (fun a b => (m_start a + m_len a <= m_start b)%nat) (finditer query)
  /\ Forall (fun m => (3 <= m_len m)%nat) (finditer query).
Proof.
  split; [apply finditer_from_ordered |].
  apply Forall_forall. intros m Hm. apply finditer_from_In in Hm.
  destruct Hm as (k & _ & Hm). now apply month_at_start_len in Hm.
Qed.

(** ** The rules of the classifier, one by one *)

Lemma first_prefix_prefix ws s w rest :
  first_prefix ws s = Some (w, rest) -> prefix w s = true.
Proof.
  induction ws as [| w0 ws IH]; cbn; [discriminate |].
  destruct (prefix w0 s) eqn:E; [intros [= <- _]; exact E | auto].
Qed.

Lemma contains_prefix w s : prefix w s = true -> contains w s = true.
Proof. intros H. destruct s; cbn in *; now rewrite H. Qed.

Lemma contains_tail w c s : contains w s = true -> contains w (String c s) = true.
Proof.
  intros H. change (contains w (String c s)) with (prefix w (String c s) || contains w s).
  rewrite H. apply orb_true_r.
Qed.

Lemma search_ranking_contains s w ds :
  search_ranking s = Some (w, ds) -> In w ranking_words /\ contains w s = true.
Proof.
  intros H. split; [eapply search_ranking_word; eassumption |].
  induction s as [| c s IH]; cbn [search_ranking] in H.
  - cbn in H. discriminate.
  - destruct (ranking_at (String c s)) as [[w' ds'] |] eqn:E.
    + inversion H; subst. unfold ranking_at in E.
      destruct (first_prefix ranking_words (String c s)) as [[w0 rest] |] eqn:Ef;
        [| discriminate].
      destruct (span is_space rest) as [sp r1]. destruct (span is_digit r1).
      inversion E; subst. apply contains_prefix. eapply first_prefix_prefix; eassumption.
    + apply contains_tail. auto.
Qed.

Lemma no_ranking_match q : has_ranking_token q = false -> search_ranking q = None.
Proof.
  intros H.
  destruct (search_ranking q) as [[w ds] |] eqn:E; [| reflexivity].
  apply search_ranking_contains in E. destruct E as [Hw Hc].
  unfold has_ranking_token in H.
  assert (existsb (fun w => contains w q) ranking_words = true)
    by (apply existsb_exists; eauto).
  congruence.
Qed.

Lemma no_ranking_token q : has_ranking_token q = false -> ranking_rule q = None.
Proof. intros H. unfold ranking_rule. now rewrite (no_ranking_match _ H). Qed.

Lemma span_all p s a b : span p s = (a, b) -> forall acc,
  (forall c, p c = true -> 0 <= digit_val c) -> 0 <= acc -> 0 <= int_acc acc a.
Proof.
  revert a b. induction s as [| c s IH]; intros a b H acc Hp Hacc; cbn in H.
  - inversion H; subst. exact Hacc.
  - destruct (p c) eqn:Ec.
    + destruct (span p s) as [a' b'] eqn:Es. inversion H; subst. cbn [int_acc].
      eapply IH; [reflexivity | exact Hp |]. specialize (Hp c Ec). lia.
    + inversion H; subst. exact Hacc.
Qed.

Lemma number_at_digits s ds : number_at s = Some ds -> 0 <= int_of ds.
Proof.
  unfold number_at.
  destruct (first_prefix ["last"; "past"] s) as [[w rest] |]; [| discriminate].
  destruct (span is_space rest) as [sp r1].
  destruct (span is_digit r1) as [ds' r2] eqn:Ed.
  destruct (span is_space r2) as [sp' r3].
  destruct ds' as [| c ds']; [discriminate |].
  destruct (prefix "months" r3); [| discriminate].
  intros [= <-]. unfold int_of. eapply span_all; [exact Ed | | lia].
  intros c' Hc. apply is_digit_val in Hc. lia.
Qed.

Lemma search_number_spec s :
  match search_number s with
  | Some ds => 0 <= int_of ds /\ (contains "last" s = true \/ contains "past" s = true)
  | None => True
  end.
Proof.
  induction s as [| c s IH]; cbn [search_number].
  - cbn. exact I.
  - destruct (number_at (String c s)) as [ds |] eqn:E.
    + split; [eapply number_at_digits; eassumption |].
      unfold number_at in E.
      destruct (first_prefix ["last"; "past"] (String c s)) as [[w rest] |] eqn:Ef;
        [| discriminate].
      pose proof (first_prefix_prefix _ _ _ _ Ef) as Hp.
      apply first_prefix_In in Ef. apply contains_prefix in Hp.
      destruct Ef as [<- | [<- | []]]; auto.
    + destruct (search_number s) as [ds |]; [| exact I].
      destruct IH as [Hd Hc]. split; [exact Hd |].
      destruct Hc as [Hc | Hc]; [left | right]; now apply contains_tail.
Qed.

Lemma number_of_months_spec (query : string) (default : Z) :
  (contains "last" query = false -> contains "past" query = false ->
   search_number query = None)
  /\ (0 <= default -> 0 <= number_of_months query default).
Proof.
  unfold number_of_months. pose proof (search_number_spec query) as H.
  destruct (search_number query) as [ds |].
  - destruct H as [Hd Hc]. split; [| auto].
    intros H1 H2. destruct Hc; congruence.
  - split; auto.
Qed.

Lemma extract_number_of_months_run query default clk n :
  _extract_number_of_months query default clk n
  = match search_number query with
    | Some ds => if digits_ok ds then (Ok (int_of ds), n) else (Raise int_refused, n)
    | None => (Ok default, n)
    end.
Proof.
  unfold _extract_number_of_months. destruct (search_number query) as [ds |]; [| reflexivity].
  apply int_str_run.
Qed.

(** X3. The number of months of a trend is the default when the query
    holds neither "last" nor "past", and it is never negative when the
    default is not: [_extract_number_of_months] returns a number that is
    not negative, or raises the [ValueError] of [int] on more than 4300
    digits. *)
Theorem number_of_months_default (query : string) (default : Z) (clk : clock) (n : nat) :
  (contains "last" query = false -> contains "past" query = false ->
   _extract_number_of_months query default clk n = (Ok default, n))
  /\ (0 <= default ->
      match _extract_number_of_months query default clk n with
      | (Ok months, n') => 0 <= months /\ n' = n
      | (Raise e, n') => e = int_refused /\ n' = n
      end).
Proof.
  rewrite extract_number_of_months_run.
  destruct (number_of_months_spec query default) as [Hnone Hpos]. split.
  - intros H1 H2. now rewrite (Hnone H1 H2).
  - intros Hd. specialize (Hpos Hd). unfold number_of_months in Hpos.
    destruct (search_number query) as [ds |]; [| auto].
    destruct (digits_ok ds); auto.
Qed.

Lemma number_of_months_default_witness :
  _extract_number_of_months "show the revenue trend" 6 sept_2025 0%nat = (Ok 6, 0%nat)
  /\ _extract_number_of_months "revenue trend for the past 18 months" 6 sept_2025 0%nat
     = (Ok 18, 0%nat).
Proof.
  split.
  - apply (proj1 (number_of_months_default "show the revenue trend" 6 sept_2025 0%nat));
      reflexivity.
  - pose proof (proj2 (number_of_months_default "revenue trend for the past 18 months" 6
                         sept_2025 0%nat)) as H.
    remember (_extract_number_of_months "revenue trend for the past 18 months" 6
                sept_2025 0%nat) as out eqn:E in H |- *.
    vm_compute in E. subst out. reflexivity.
Defined.

Lemma contains_append_r pre w s : contains (pre ++ w) s = true -> contains w s = true.
Proof.
  assert (Hp : forall t, prefix (pre ++ w) t = true -> contains w t = true).
  { intros t Ht. apply prefix_append in Ht.
    generalize dependent (drop (String.length (pre ++ w)) t). intros rest ->.
    rewrite append_assoc_local. induction pre as [| c pre IH]; cbn [append].
    - apply contains_prefix, prefix_append_same.
    - now apply contains_tail. }
  induction s as [| c s IH]; intros H.
  - apply Hp. cbn in H. now rewrite orb_false_r in H.
  - change (contains (pre ++ w) (String c s))
      with (prefix (pre ++ w) (String c s) || contains (pre ++ w) s) in H.
    apply orb_true_iff in H. destruct H as [H | H]; [now apply Hp |].
    apply contains_tail. auto.
Qed.

Lemma first_metric_None q :
  first_metric q = None ->
  contains "revenue" q = false /\ contains "opex" q = false
  /\ contains "ebitda" q = false /\ contains "gross margin" q = false.
Proof.
  unfold first_metric. cbn [metric_keywords find fst].
  destruct (contains "revenue" q); [discriminate |].
  destruct (contains "opex" q); [discriminate |].
  destruct (contains "ebitda" q); [discriminate |].
  destruct (contains "gross margin" q); [discriminate |]. auto.
Qed.

(** X4. A query that holds none of the words revenue, opex, ebitda, gross
    margin, cash balance and runway is not recognised, whatever else it
    holds (ranking words, trend words, months): when month extraction
    returns, the answer is the apology, without a chart, unless the query
    hands [int] more than 4300 digits, after a ranking word or between
    last or past and months in a query with a trend word; then [get_intent]
    raises the [ValueError] of [int]. *)
Theorem no_keyword_is_unknown (query : string) (df : data_frames) (clk : clock) (n n' : nat)
    (months : list string) :
  _extract_months (lower query) df clk n = (Ok months, n') ->
  forallb (fun k => negb (contains k (lower query))) answer_keywords = true ->
  get_intent query df clk n
  = (if ranking_digits_ok (lower query) && trend_digits_ok (lower query)
     then (Ok unknown, n') else (Raise int_refused, n'))
  /\ run_agent query df clk n
     = (if ranking_digits_ok (lower query) && trend_digits_ok (lower query)
        then (Ok (sorry_message, None), n') else (Raise int_refused, n')).
Proof.
  intros Hm Hk. cbn [answer_keywords forallb] in Hk.
  repeat (apply andb_true_iff in Hk; destruct Hk as [? Hk]).
  repeat match goal with
         | H : negb _ = true |- _ => apply negb_true_iff in H
         end.
  assert (Hcash : contains "cash runway" (lower query) = false).
  { destruct (contains "cash runway" (lower query)) eqn:E; [| reflexivity].
    apply (contains_append_r "cash " "runway") in E. congruence. }
  assert (Hr : ranking_rule (lower query) = None).
  { unfold ranking_rule, ranking_choice, when, orelse.
    repeat match goal with
           | H : contains _ (lower query) = false |- _ => rewrite H; clear H
           end.
    now destruct (search_ranking (lower query)) as [[w ds] |]. }
  assert (Hi : intent_rules (lower query) months = unknown).
  { unfold intent_rules. rewrite Hr.
    unfold trend_rule, trend_choice, multi_month_rule, single_month_rule,
      general_rule, when, orelse.
    repeat match goal with
           | H : contains _ (lower query) = false |- _ => rewrite H; clear H
           end.
    cbn [andb orb].
    destruct (has_trend_word (lower query));
      destruct (1 <? Z.of_nat (List.length months));
      destruct months as [| m [| m' l]]; reflexivity. }
  assert (Hg : get_intent query df clk n
               = (if ranking_digits_ok (lower query) && trend_digits_ok (lower query)
                  then (Ok unknown, n') else (Raise int_refused, n'))).
  { rewrite get_intent_run, Hm. unfold ints_ok. now rewrite Hr, Hi. }
  split; [exact Hg |]. unfold run_agent, bind. rewrite Hg.
  now destruct (ranking_digits_ok (lower query) && trend_digits_ok (lower query)).
Qed.

Lemma no_keyword_is_unknown_witness :
  run_agent "Which month in 2025 was the BEST? Show the trend since Jan" demo sept_2025 0%nat
  = (Ok (sorry_message, None), 1%nat).
Proof.
  apply (proj2 (no_keyword_is_unknown
                  "Which month in 2025 was the BEST? Show the trend since Jan"
                  demo sept_2025 0%nat 1%nat ["2025-01-01"] eq_refl eq_refl)).
Defined.

(** X5. Without a ranking word, a trend word and a metric keyword make a
    trend, whatever months the query names: the metric is the first
    keyword found in the order revenue, opex, ebitda, gross margin, the
    gross margin having its own intent, and the window is the number read
    by [_extract_number_of_months], 6 by default; where that raises, on
    more than 4300 digits, [get_intent] raises the same. *)
Theorem trend_before_months (query : string) (df : data_frames) (clk : clock) (n n' : nat)
    (months : list string) (m : metric) :
  _extract_months (lower query) df clk n = (Ok months, n') ->
  has_ranking_token (lower query) = false ->
  has_trend_word (lower query) = true ->
  first_metric (lower query) = Some m ->
  get_intent query df clk n
  = match _extract_number_of_months (lower query) 6 clk n' with
    | (Ok months_n, _) => (Ok (trend_intent m months_n), n')
    | (Raise e, _) => (Raise e, n')
    end.
Proof.
  intros Hm Hr Ht Hf. rewrite get_intent_run, Hm, extract_number_of_months_run.
  unfold ints_ok, ranking_digits_ok, trend_digits_ok, intent_rules.
  rewrite (no_ranking_token _ Hr), (no_ranking_match _ Hr), Ht. cbn [andb orelse].
  unfold trend_rule, number_of_months. rewrite Ht.
  assert (Hc : forall k, trend_choice (lower query) k = Some (trend_intent m k)).
  { intros k. unfold first_metric in Hf. cbn [metric_keywords find fst snd] in Hf.
    unfold trend_choice, when, orelse.
    destruct (contains "revenue" (lower query)); [inversion Hf; reflexivity |].
    destruct (contains "opex" (lower query)); [inversion Hf; reflexivity |].
    destruct (contains "ebitda" (lower query)); [inversion Hf; reflexivity |].
    destruct (contains "gross margin" (lower query)); [inversion Hf; reflexivity |].
    discriminate. }
  rewrite Hc.
  destruct (search_number (lower query)) as [ds |]; [| reflexivity].
  now destruct (digits_ok ds).
Qed.

Lemma trend_before_months_witness :
  get_intent "Gross margin history from June to August 2025, past 2 months" demo
    sept_2025 0%nat
  = (Ok (gross_margin_trend 2), 0%nat).
Proof.
  apply (trend_before_months "Gross margin history from June to August 2025, past 2 months"
           demo sept_2025 0%nat 0%nat ["2025-06-01"; "2025-08-01"] GrossMargin);
    reflexivity.
Defined.

(** ** The intents that the classifier hands to the tools *)

Lemma search_ranking_digits s w ds : search_ranking s = Some (w, ds) -> 0 <= int_of ds.
Proof.
  induction s as [| c s IH]; cbn [search_ranking].
  - cbn. discriminate.
  - destruct (ranking_at (String c s)) as [[w' ds'] |] eqn:E; [| exact IH].
    intros [= <- <-]. unfold ranking_at in E.
    destruct (first_prefix ranking_words (String c s)) as [[w0 rest] |]; [| discriminate].
    destruct (span is_space rest) as [sp r1].
    destruct (span is_digit r1) as [ds r2] eqn:Ed. inversion E; subst.
    unfold int_of. eapply span_all; [exact Ed | | lia].
    intros c' Hc. apply is_digit_val in Hc. lia.
Qed.

Lemma ranking_rule_ok q i : ranking_rule q = Some i -> intent_ok i.
Proof.
  unfold ranking_rule. destruct (search_ranking q) as [[w ds] |] eqn:E; [| discriminate].
  apply search_ranking_digits in E. intros H.
  assert (Hn : 0 <= match ds with EmptyString => 1 | _ => int_of ds end)
    by (destruct ds; [lia | exact E]).
  revert H Hn. generalize (match ds with EmptyString => 1 | _ => int_of ds end).
  intros k H Hk. unfold ranking_choice in H. rule_cases; exact Hk.
Qed.

Lemma trend_rule_ok q i : trend_rule q = Some i -> intent_ok i.
Proof.
  unfold trend_rule. intros H.
  pose proof (proj2 (number_of_months_spec q 6) ltac:(lia)) as Hn.
  unfold trend_choice in H.
  rule_cases; cbn; try split; try exact Hn; discriminate.
Qed.

Lemma multi_month_rule_ok q months i :
  Forall month_string months -> multi_month_rule q months = Some i -> intent_ok i.
Proof.
  unfold multi_month_rule. intros Hm H.
  destruct (Z.ltb_spec 1 (Z.of_nat (List.length months))); [| discriminate].
  rule_cases; cbn; (split; [discriminate | split; [lia | exact Hm]]).
Qed.

Lemma single_month_rule_ok q months i :
  Forall month_string months -> single_month_rule q months = Some i -> intent_ok i.
Proof.
  unfold single_month_rule. intros Hm H.
  destruct months as [| month [| ? ?]]; try discriminate.
  inversion Hm as [| ? ? Hs _]; subst.
  rule_cases; cbn; try exact Hs; (split; [discriminate | exact Hs]).
Qed.

Lemma extracted_month_shape query df clk n months n' month :
  _extract_months query df clk n = (Ok months, n') ->
  In month months -> month_string month.
Proof.
  intros Hrun Hin. pose proof (extract_months_outcome query df clk n) as H.
  cbn zeta in H. rewrite Hrun in H.
  destruct H as [(ds & -> & _ & _ & _ & _ & Hvalid) _].
  apply in_map_iff in Hin. destruct Hin as (d & <- & Hd).
  rewrite Forall_forall in Hvalid. destruct (Hvalid d Hd) as (Hy & Hm & Hday).
  exists d. unfold calendar_month. repeat split; try assumption; lia.
Qed.

(** X6. Every intent that [get_intent] returns is one the tools have a
    branch for: the trend of a metric is never asked for the gross margin,
    a single metric or a comparison never for EBITDA, a comparison has two
    months or more, the number of months of a trend and the N of a ranking
    are not negative, and every month is the string that
    [strftime('%Y-%m-%d')] gives for the first day of a month of the
    calendar of a year from 1 to 9999, the year not padded: [2025-06-01],
    [999-01-01]. *)
Theorem get_intent_accepted (query : string) (df : data_frames) (clk : clock) (n n' : nat)
    (i : intent) :
  get_intent query df clk n = (Ok i, n') -> intent_ok i.
Proof.
  intros H. apply get_intent_Ok in H. destruct H as (months & Hm & ->).
  assert (Hms : Forall month_string months).
  { apply Forall_forall. intros s Hs.
    exact (extracted_month_shape _ _ _ _ _ _ s Hm Hs). }
  unfold intent_rules.
  destruct (ranking_rule (lower query)) as [i |] eqn:E1; cbn [orelse];
    [eapply ranking_rule_ok; eassumption |].
  destruct (trend_rule (lower query)) as [i |] eqn:E2; cbn [orelse];
    [eapply trend_rule_ok; eassumption |].
  destruct (multi_month_rule (lower query) months) as [i |] eqn:E3; cbn [orelse];
    [eapply multi_month_rule_ok; eassumption |].
  destruct (single_month_rule (lower query) months) as [i |] eqn:E4; cbn [orelse];
    [eapply single_month_rule_ok; eassumption |].
  destruct (general_rule (lower query)) as [i |] eqn:E5; [| exact I].
  apply general_rule_Some in E5. now subst.
Qed.

Lemma get_intent_accepted_witness :
  intent_ok (multi_month_metric Revenue ["2025-06-01"; "2025-07-01"]).
Proof.
  apply (get_intent_accepted "Show me revenue for June and July 2025" demo sept_2025
           0%nat 0%nat).
  reflexivity.
Defined.

(** ** Missing columns of the pivot *)

Lemma pivot_has_column rows c :
  mem_str c (p_columns (pivot_table rows)) = has_category c rows.
Proof.
  cbn [pivot_table p_columns]. unfold has_category.
  destruct (existsb (fun r => String.eqb (row_category r) c) rows) eqn:E.
  - apply mem_str_In, sorted_keys_In. apply existsb_exists in E.
    destruct E as (r & Hr & Hc). apply String.eqb_eq in Hc. rewrite <- Hc. now apply in_map.
  - destruct (mem_str c (sorted_keys (map row_category rows))) eqn:Em; [| reflexivity].
    apply mem_str_In, sorted_keys_In, in_map_iff in Em. destruct Em as (r & Hc & Hr).
    assert (existsb (fun r => String.eqb (row_category r) c) rows = true).
    { apply existsb_exists. exists r. split; [exact Hr | now apply String.eqb_eq]. }
    congruence.
Qed.

(** The column [value]: a [KeyError] for the first needed column that is
    missing, a value for every month of the index otherwise. *)
Lemma metric_column_outcome metric rows clk n :
  match missing_column metric rows with
  | Some c => metric_column metric (pivot_table rows) clk n = (Raise (KeyError c), n)
  | None => exists value,
      metric_column metric (pivot_table rows) clk n = (Ok value, n)
      /\ map fst value = p_index (pivot_table rows)
  end.
Proof.
  unfold missing_column.
  destruct metric; cbn [needed_columns find metric_column];
    unfold gross_margin_column, column, bind;
    rewrite ?pivot_has_column;
    repeat match goal with
           | |- context [has_category ?c rows] => destruct (has_category c rows); cbn [negb]
           end;
    try reflexivity;
    (eexists; split; [reflexivity |]);
    rewrite ?map_map; cbn [fst]; apply map_id.
Qed.

Lemma last_In {A} (l : list A) d : l <> [] -> In (List.last l d) l.
Proof.
  induction l as [| x [| y l] IH]; intros Hne; [contradiction | now left |].
  right. apply IH. discriminate.
Qed.

(** A window of one month or more of a frame that has rows has rows: the
    last row is in it. *)
Lemma last_months_nonempty {A} (k : Z) (rows : list (date * A)) :
  1 <= k -> rows <> [] -> last_months k rows <> [].
Proof.
  intros Hk Hne. destruct rows as [| r0 rows']; [contradiction |].
  unfold last_months.
  assert (Hin : In (List.last (r0 :: rows') r0)
                   (filter (fun r => period_M (fst (List.last (r0 :: rows') r0)) - k
                                     <? period_M (fst r)) (r0 :: rows'))).
  { apply filter_In. split; [now apply last_In |]. apply Z.ltb_lt. lia. }
  intros E. rewrite E in Hin. contradiction.
Qed.

Lemma pivot_index_nonempty rows : rows <> [] -> p_index (pivot_table rows) <> [].
Proof.
  destruct rows as [| r rows]; [contradiction |]. intros _ E.
  assert (Hin : In (row_month r) (p_index (pivot_table (r :: rows))))
    by (cbn [pivot_table p_index]; apply sorted_dates_In; now left).
  rewrite E in Hin. contradiction.
Qed.

(** The window and the line plot of a frame that has rows, for one month
    or more: they return, or the window leaves the range of timestamps. *)
Lemma window_plot_outcome (k : Z) (rows : list (date * fval)) clk n :
  1 <= k -> rows <> [] ->
  exists out,
    last_window k rows clk n = (out, n) /\
    match out with
    | Ok trend_data =>
        trend_data = last_months k rows /\
        exists points, lineplot trend_data clk n = (Ok points, n)
    | Raise e => e = out_of_bounds
    end.
Proof.
  intros Hk Hne. pose proof (last_months_nonempty k rows Hk Hne) as Hw.
  unfold last_window. destruct rows as [| r0 rows']; [contradiction |].
  destruct (in_bounds _).
  - exists (Ok (last_months k (r0 :: rows'))). split; [reflexivity |].
    split; [reflexivity |].
    unfold lineplot. destruct (last_months k (r0 :: rows')); [contradiction |].
    eexists. reflexivity.
  - exists (Raise out_of_bounds). split; reflexivity.
Qed.

(** X7. The trend, the gross-margin trend and the ranking raise a
    [KeyError] naming a column exactly when a column they read with
    [pivot[...]] is absent, that is when no row of actuals at or before the
    clock has the category: Revenue for the revenue, Revenue then COGS for
    EBITDA and the gross margin; the error names the first such column.
    With its columns present the ranking raises no [KeyError], and neither
    does a trend of one month or more; the opex needs no column. *)
Theorem missing_column_raises (metric : metric) (df : data_frames) (clk : clock) (n : nat)
    (months k : Z) (ranking_type : ranking) :
  let rows := historical df (clk n) in
  rows <> [] ->
  1 <= months ->
  match missing_column metric rows with
  | Some c =>
      get_metric_ranking metric ranking_type k df clk n = (Raise (KeyError c), S n)
      /\ (metric <> GrossMargin ->
          get_metric_trend metric months df clk n = (Raise (KeyError c), S n))
      /\ (metric = GrossMargin ->
          get_gross_margin_trend months df clk n = (Raise (KeyError c), S n))
  | None =>
      ~ raises_key_error (get_metric_ranking metric ranking_type k df clk n)
      /\ (metric <> GrossMargin ->
          ~ raises_key_error (get_metric_trend metric months df clk n))
      /\ (metric = GrossMargin ->
          ~ raises_key_error (get_gross_margin_trend months df clk n))
  end.
Proof.
  cbv zeta. unfold historical. intros Hrows Hmonths.
  pose proof (metric_column_outcome metric
                (up_to (clk n) (_convert_to_usd (actuals df) (fx df))) clk (S n)) as H.
  pose proof (pivot_index_nonempty _ Hrows) as Hidx.
  unfold raises_key_error, get_metric_ranking, get_metric_trend, get_gross_margin_trend,
    bind, now.
  cbv zeta.
  destruct (missing_column metric _) as [c |].
  - split; [now rewrite H |]. split.
    + intros Hm. destruct metric; try contradiction; now rewrite H.
    + intros ->. cbn [metric_column] in H. now rewrite H.
  - destruct H as (value & H & Hfst).
    assert (Hvalue : value <> []).
    { intros ->. cbn [map] in Hfst. now apply Hidx. }
    destruct (window_plot_outcome months value clk (S n) Hmonths Hvalue)
      as (out & Hw & Hout).
    split; [| split].
    + rewrite H. destruct (firstn _ _); cbn [ret raise];
        intros (c & j & E); discriminate.
    + intros Hm.
      assert (E : match metric with
                  | GrossMargin => raise (KeyError "value")
                  | _ => metric_column metric
                           (pivot_table (up_to (clk n) (_convert_to_usd (actuals df) (fx df))))
                  end clk (S n) = (Ok value, S n))
        by (destruct metric; try contradiction; exact H).
      rewrite E, Hw. destruct out as [trend_data | e].
      * destruct Hout as (_ & points & ->). intros (c & j & E'); discriminate.
      * subst e. intros (c & j & E'); discriminate.
    + intros ->. cbn [metric_column] in H. rewrite H, Hw.
      destruct out as [trend_data | e].
      * destruct Hout as (_ & points & ->). intros (c & j & E'); discriminate.
      * subst e. intros (c & j & E'); discriminate.
Qed.

Lemma missing_column_raises_witness :
  get_metric_trend Revenue 6 costs_only sept_2025 0%nat
  = (Raise (KeyError "Revenue"), 1%nat)
  /\ ~ raises_key_error (get_metric_trend Opex 6 costs_only sept_2025 0%nat).
Proof.
  split.
  - destruct (missing_column_raises Revenue costs_only sept_2025 0%nat 6 1 top)
      as (_ & H & _); [discriminate | lia |].
    apply H. discriminate.
  - destruct (missing_column_raises Opex costs_only sept_2025 0%nat 6 1 top)
      as (_ & H & _); [discriminate | lia |].
    apply H. discriminate.
Defined.

(** ** The ranking: how many months, and the order of the bars *)

Section SortOn.
Context {A : Type} (leb : A -> A -> bool) (P : A -> Prop).
Hypothesis total_on : forall a b, P a -> P b -> leb a b = true \/ leb b a = true.
Hypothesis trans_on : forall a b c, P a -> P b -> P c ->
  leb a b = true -> leb b c = true -> leb a c = true.

Lemma insert_sorted_on x l :
  P x -> Forall P l ->
  StronglySorted (fun a b => leb a b = true) l ->
  StronglySorted (fun a b => leb a b = true) (insert leb x l).
Proof.
  intros Hx Hl Hs. induction Hs as [| y l Hs IH Hy]; cbn.
  - repeat constructor.
  - inversion Hl as [| ? ? Py Pl]; subst. destruct (leb x y) eqn:E.
    + constructor; [now constructor |]. constructor; [exact E |].
      rewrite Forall_forall in *. intros z Hz. apply (trans_on x y z); auto.
    + constructor; [now apply IH |].
      assert (Hyx : leb y x = true) by (destruct (total_on x y Hx Py); congruence).
      rewrite Forall_forall in *. intros z Hz.
      apply (Permutation_in _ (Permutation_sym (insert_perm leb x l))) in Hz.
      destruct Hz as [<- | Hz]; auto.
Qed.

Lemma sort_by_sorted_on l :
  Forall P l -> StronglySorted (fun a b => leb a b = true) (sort_by leb l).
Proof.
  induction 1 as [| x l Hx Hl IH]; cbn; [constructor |].
  apply insert_sorted_on; [exact Hx | | exact IH].
  apply Forall_forall. intros z Hz. apply sort_by_In in Hz.
  rewrite Forall_forall in Hl. auto.
Qed.
End SortOn.

Lemma Qle_bool_total (x y : Q) : Qle_bool x y = true \/ Qle_bool y x = true.
Proof.
  destruct (Qlt_le_dec x y) as [H | H]; [left | right]; apply Qle_bool_iff;
    [now apply Qlt_le_weak | exact H].
Qed.

Lemma Qle_bool_trans (x y z : Q) :
  Qle_bool x y = true -> Qle_bool y z = true -> Qle_bool x z = true.
Proof. rewrite !Qle_bool_iff. apply Qle_trans. Qed.

Lemma fval_leb_total a b :
  is_nan a = false -> is_nan b = false -> fval_leb a b = true \/ fval_leb b a = true.
Proof.
  destruct a, b; cbn; intros; try discriminate; auto. apply Qle_bool_total.
Qed.

Lemma fval_leb_trans a b c :
  is_nan a = false -> is_nan b = false -> is_nan c = false ->
  fval_leb a b = true -> fval_leb b c = true -> fval_leb a c = true.
Proof.
  destruct a, b, c; cbn; intros; try discriminate; auto. eapply Qle_bool_trans; eassumption.
Qed.

(** [sort_values(ascending=True)]: the cells that are numbers in ascending
    order, then the NaN cells; the same cells as before. *)
Lemma sort_values_ascending {A} (l : list (A * fval)) :
  exists numbers nans,
    sort_values true l = (numbers ++ nans)%list
    /\ StronglySorted (fun a b => fval_leb (snd a) (snd b) = true) numbers
    /\ Forall (fun r => is_nan (snd r) = false) numbers
    /\ Forall (fun r => snd r = NaN) nans
    /\ Permutation l (numbers ++ nans)%list.
Proof.
  unfold sort_values.
  set (numbers := filter (fun r : A * fval => negb (is_nan (snd r))) l).
  set (nans := filter (fun r : A * fval => is_nan (snd r)) l).
  set (leb := fun a b : A * fval => fval_leb (snd a) (snd b)).
  assert (Hnum : Forall (fun r : A * fval => is_nan (snd r) = false) numbers).
  { apply Forall_forall. intros r Hr. apply filter_In in Hr.
    now apply negb_true_iff. }
  exists (sort_by leb numbers), nans. split; [reflexivity |]. split; [| split; [| split]].
  - apply (sort_by_sorted_on leb (fun r => is_nan (snd r) = false)); [| | exact Hnum].
    + intros a b. apply fval_leb_total.
    + intros a b c. apply fval_leb_trans.
  - apply Forall_forall. intros r Hr. apply sort_by_In in Hr.
    rewrite Forall_forall in Hnum. auto.
  - apply Forall_forall. intros r Hr. apply filter_In in Hr. destruct Hr as [_ Hr].
    now destruct (snd r).
  - eapply perm_trans; [| apply Permutation_app_tail, sort_by_perm].
    subst numbers nans. clear. induction l as [| r l IH]; cbn; [constructor |].
    destruct (is_nan (snd r)); cbn.
    + eapply perm_trans; [apply perm_skip, IH | apply Permutation_middle].
    + now apply perm_skip.
Qed.

Lemma sort_values_length {A} asc (l : list (A * fval)) :
  List.length (sort_values asc l) = List.length l.
Proof.
  unfold sort_values. rewrite length_app.
  assert (Hs : forall leb (x : list (A * fval)), List.length (sort_by leb x) = List.length x)
    by (intros; symmetry; apply Permutation_length, sort_by_perm).
  destruct asc; rewrite Hs; clear;
    induction l as [| r l IH]; cbn; try reflexivity;
    destruct (is_nan (snd r)); cbn; lia.
Qed.

Lemma flat_map_length_const {A B} (f : A -> list B) (k : nat) (l : list A) :
  (forall x, List.length (f x) = k) ->
  List.length (flat_map f l) = (k * List.length l)%nat.
Proof.
  intros H. induction l as [| x l IH]; cbn [flat_map List.length]; [lia |].
  rewrite length_app, IH, H. lia.
Qed.

Lemma filter_all {A} (f : A -> bool) l : Forall (fun x => f x = true) l -> filter f l = l.
Proof.
  induction 1 as [| x l Hx _ IH]; cbn [filter]; [reflexivity |]. now rewrite Hx, IH.
Qed.

Lemma filter_none {A} (f : A -> bool) l : Forall (fun x => f x = false) l -> filter f l = [].
Proof.
  induction 1 as [| x l Hx _ IH]; cbn [filter]; [reflexivity |]. now rewrite Hx.
Qed.

(** Without a NaN cell, [sort_values] is the sort of the whole column. *)
Lemma sort_values_numbers {A} asc (l : list (A * fval)) :
  Forall (fun r => is_nan (snd r) = false) l ->
  sort_values asc l
  = if asc then sort_by (fun a b => fval_leb (snd a) (snd b)) l
    else sort_by (fun a b => fval_leb (snd b) (snd a)) l.
Proof.
  intros H. unfold sort_values.
  rewrite (filter_all (fun r => negb (is_nan (snd r)))), (filter_none (fun r => is_nan (snd r)));
    [now rewrite app_nil_r | exact H |].
  eapply Forall_impl; [| exact H]. cbn. intros r ->. reflexivity.
Qed.

Lemma sorted_app_inv {A} (R : A -> A -> Prop) (a b : list A) :
  StronglySorted R (a ++ b)%list ->
  StronglySorted R a /\ forall x y, In x a -> In y b -> R x y.
Proof.
  induction a as [| x a IH]; cbn [app]; intros H.
  - split; [constructor | intros ? ? []].
  - inversion H as [| ? ? Hs Hx]; subst. destruct (IH Hs) as [Ha Hab]. split.
    + constructor; [exact Ha |]. rewrite Forall_forall in *. intros y Hy.
      apply Hx, in_or_app. now left.
    + intros x' y [<- | Hx'] Hy; [| now apply Hab].
      rewrite Forall_forall in Hx. apply Hx, in_or_app. now right.
Qed.

(** The cells of a column other than the gross margin are numbers. *)
Lemma metric_column_numbers metric p clk n value n' :
  metric <> GrossMargin ->
  metric_column metric p clk n = (Ok value, n') ->
  Forall (fun r : date * fval => is_nan (snd r) = false) value.
Proof.
  intros Hm. destruct metric; try contradiction; cbn [metric_column];
    unfold bind, column, ret;
    repeat match goal with
           | |- context [mem_str ?c ?l] => destruct (mem_str c l)
           end;
    cbn [raise]; intros [= <- _]; try discriminate;
    apply Forall_forall; intros r Hr; rewrite ?map_map in Hr;
    apply in_map_iff in Hr; destruct Hr as (x & <- & _); reflexivity.
Qed.

(** X8. The ranking of the revenue, the opex or EBITDA, on rows whose
    float64 sums are exact, when it returns: the months listed are N
    months of the column of the metric, or all its months when there are
    fewer than N, in the order asked for, the highest value first for the
    top and the lowest first for the bottom, and no month left out comes
    before a listed one in that order; the summary is the heading and one
    bullet for each listed month, in that order; the bars are the listed
    months in ascending order of their value, whatever the direction asked
    for. *)
Theorem ranking_bars_ascending (metric : metric) (ranking_type : ranking) (k : Z)
    (df : data_frames) (clk : clock) (n n' : nat) (text : summary) (c : chart) :
  metric <> GrossMargin ->
  exact_rows (historical df (clk n)) = true ->
  get_metric_ranking metric ranking_type k df clk n = (Ok (text, Some c), n') ->
  exists value ranked rest bars,
    metric_column metric (pivot_table (historical df (clk n))) clk (S n) = (Ok value, S n)
    /\ Permutation value (ranked ++ rest)%list
    /\ List.length ranked = Nat.min (Z.to_nat k) (List.length value)
    /\ ranked <> []
    /\ StronglySorted (ranked_before ranking_type) ranked
    /\ (forall r r', In r ranked -> In r' rest -> ranked_before ranking_type r r')
    /\ text = (Lit "**" :: Lit (capitalize (ranking_name ranking_type)) :: Lit " "
                 :: Lit (str_of_Z k) :: Lit " Month(s) for " :: Lit (metric_name metric)
                 :: Lit (":**" ++ nl)
                 :: flat_map (fun r : date * fval =>
                                [Lit "- **"; Lit (strftime_BY (fst r)); Lit ":** $";
                                 Num Comma2 (snd r); Lit (" USD" ++ nl)])
                             ranked)
    /\ series c = [map (fun r : date * fval => (XDate (fst r), snd r)) bars]
    /\ Permutation ranked bars
    /\ StronglySorted (fun a b => fval_leb (snd a) (snd b) = true) bars.
Proof.
  intros Hmetric _. unfold get_metric_ranking, bind, now, historical. cbv zeta.
  destruct (metric_column metric _ clk (S n)) as [[value | e] n1] eqn:Ecol;
    [| discriminate].
  pose proof (metric_column_numbers _ _ _ _ _ _ Hmetric Ecol) as Hnum.
  assert (n1 = S n) as ->.
  { pose proof (metric_column_outcome metric
                  (up_to (clk n) (_convert_to_usd (actuals df) (fx df))) clk (S n)) as H.
    destruct (missing_column metric _) as [col |]; [rewrite H in Ecol; discriminate |].
    destruct H as (v & H & _). rewrite H in Ecol. now inversion Ecol. }
  set (asc := match ranking_type with bottom => true | top => false end).
  set (sorted := sort_values asc value).
  assert (Hperm : Permutation value sorted).
  { subst sorted. rewrite (sort_values_numbers asc value Hnum).
    destruct asc; apply sort_by_perm. }
  assert (Hsorted : StronglySorted (ranked_before ranking_type) sorted).
  { subst sorted asc. rewrite (sort_values_numbers _ value Hnum).
    destruct ranking_type; unfold ranked_before.
    - apply (sort_by_sorted_on (fun a b : date * fval => fval_leb (snd b) (snd a))
               (fun r => is_nan (snd r) = false)); [| | exact Hnum].
      + intros a b Ha Hb. destruct (fval_leb_total (snd a) (snd b) Ha Hb); auto.
      + intros a b c0 Ha Hb Hc H1 H2. exact (fval_leb_trans _ _ _ Hc Hb Ha H2 H1).
    - apply (sort_by_sorted_on (fun a b : date * fval => fval_leb (snd a) (snd b))
               (fun r => is_nan (snd r) = false)); [| | exact Hnum].
      + intros a b. apply fval_leb_total.
      + intros a b c0. apply fval_leb_trans. }
  rewrite <- (firstn_skipn (Z.to_nat k) sorted) in Hperm, Hsorted.
  apply sorted_app_inv in Hsorted. destruct Hsorted as [Hs Hrest].
  destruct (firstn (Z.to_nat k) sorted) as [| r0 ranked'] eqn:Eranked;
    cbn [raise ret]; [discriminate |].
  rewrite <- Eranked in *. intros [= <- <- _].
  assert (Hranked_num : Forall (fun r : date * fval => is_nan (snd r) = false)
                          (firstn (Z.to_nat k) sorted)).
  { apply Forall_forall. intros r Hr. rewrite Forall_forall in Hnum. apply Hnum.
    eapply Permutation_in; [apply Permutation_sym, Hperm |]. apply in_or_app. now left. }
  exists value, (firstn (Z.to_nat k) sorted), (skipn (Z.to_nat k) sorted),
    (sort_values true (firstn (Z.to_nat k) sorted)).
  split; [reflexivity |]. split; [exact Hperm |]. split.
  { rewrite length_firstn. subst sorted. now rewrite sort_values_length. }
  split; [rewrite Eranked; discriminate |].
  split; [exact Hs |]. split; [exact Hrest |]. split.
  { destruct metric; try contradiction; reflexivity. }
  split; [reflexivity |].
  rewrite (sort_values_numbers true _ Hranked_num). split; [apply sort_by_perm |].
  apply (sort_by_sorted_on (fun a b : date * fval => fval_leb (snd a) (snd b))
           (fun r => is_nan (snd r) = false)); [| | exact Hranked_num].
  - intros a b. apply fval_leb_total.
  - intros a b c0. apply fval_leb_trans.
Qed.

Lemma ranking_bars_ascending_witness :
  exists text c,
    get_metric_ranking Revenue top 1 demo sept_2025 0%nat = (Ok (text, Some c), 1%nat)
    /\ text = [Lit "**"; Lit "Top"; Lit " "; Lit "1"; Lit " Month(s) for "; Lit "Revenue";
               Lit (":**" ++ nl);
               Lit "- **"; Lit "July 2025"; Lit ":** $";
               Num Comma2 (Fin (cell (pivot_table (historical demo (mkDate 2025 9 15)))
                                     (mkDate 2025 7 1) "Revenue"));
               Lit (" USD" ++ nl)]
    /\ exists ranked, List.length ranked = 1%nat
                      /\ exists bars, Permutation ranked bars
                                      /\ series c = [map (fun r : date * fval =>
                                                            (XDate (fst r), snd r)) bars].
Proof.
  remember (get_metric_ranking Revenue top 1 demo sept_2025 0%nat) as out eqn:E.
  assert (E' : out = get_metric_ranking Revenue top 1 demo sept_2025 0%nat) by exact E.
  vm_compute in E. subst out.
  match type of E' with
  | (Ok (?t, Some ?c), _) = _ =>
      destruct (ranking_bars_ascending Revenue top 1 demo sept_2025 0%nat 1%nat t c)
        as (value & ranked & rest & bars & Hcol & _ & Hlen & _ & _ & _ & _ & Hc & Hp & _);
        [discriminate | reflexivity | symmetry; exact E' |];
      exists t, c
  end.
  split; [reflexivity |]. split; [vm_compute; reflexivity |].
  exists ranked. split.
  - rewrite Hlen. vm_compute in Hcol. inversion Hcol. reflexivity.
  - exists bars. split; [exact Hp | exact Hc].
Defined.

(** ** Sums of the pivot and sums of the rows *)

Local Open Scope Q_scope.

Lemma Qsum_pick_key (x : string) (a : Q) ks :
  NoDup ks -> In x ks ->
  Qsum (map (fun k => if String.eqb x k then a else 0) ks) == a.
Proof.
  induction 1 as [| k ks Hk Hnd IH]; intros Hin; [contradiction |].
  cbn [map]. rewrite Qsum_cons. destruct Hin as [-> | Hin].
  - rewrite String.eqb_refl.
    rewrite (Qsum_ext _ (fun _ => 0)), Qsum_zero; [ring |].
    intros y Hy. destruct (String.eqb_spec x y); [subst; contradiction | reflexivity].
  - destruct (String.eqb_spec x k); [subst; contradiction |].
    rewrite IH by assumption. ring.
Qed.

Lemma Qsum_no_key (x : string) (a : Q) ks :
  ~ In x ks -> Qsum (map (fun k => if String.eqb x k then a else 0) ks) == 0.
Proof.
  intros Hn. rewrite (Qsum_ext _ (fun _ => 0)), Qsum_zero; [reflexivity |].
  intros y Hy. destruct (String.eqb_spec x y); [subst; contradiction | reflexivity].
Qed.

(** Grouping by a key and summing the groups of some keys gives the sum
    over the rows that have one of these keys. *)
Lemma Qsum_by_key {A} (key : A -> string) (f : A -> Q) ks : forall rows,
  NoDup ks ->
  Qsum (map (fun k => Qsum (map f (filter (fun r => String.eqb (key r) k) rows))) ks)
  == Qsum (map f (filter (fun r => mem_str (key r) ks) rows)).
Proof.
  intros rows Hnd. induction rows as [| r rows IH].
  - cbn [filter map]. apply Qsum_zero.
  - rewrite (Qsum_ext _
      (fun k => (if String.eqb (key r) k then f r else 0)
                + Qsum (map f (filter (fun r => String.eqb (key r) k) rows)))).
    + rewrite Qsum_plus, IH. cbn [filter].
      destruct (mem_str (key r) ks) eqn:E.
      * apply mem_str_In in E. rewrite Qsum_pick_key by assumption.
        cbn [map]. rewrite Qsum_cons. reflexivity.
      * rewrite Qsum_no_key; [ring |]. rewrite <- mem_str_In. congruence.
    + intros k _. cbn [filter].
      destruct (String.eqb (key r) k); cbn [map]; rewrite ?Qsum_cons; ring.
Qed.

Lemma sorted_keys_NoDup l : NoDup (sorted_keys l).
Proof. unfold sorted_keys, sorted_str. apply sort_by_NoDup, set_of_NoDup. Qed.

Lemma Qsum_filter_ext {A} (f : A -> Q) (p q : A -> bool) l :
  (forall x, In x l -> p x = q x) -> Qsum (map f (filter p l)) = Qsum (map f (filter q l)).
Proof. intros H. now rewrite (filter_ext_in _ _ _ H). Qed.

(** A column of the pivot, summed over the months, is the sum of its
    category over the rows. *)
Lemma column_sum rows c :
  Qsum (map (fun d => cell (pivot_table rows) d c) (p_index (pivot_table rows)))
  == category_sum c rows.
Proof.
  unfold cell, category_sum. cbn [p_rows p_index pivot_table].
  apply (Qsum_by_month (fun r => String.eqb (row_category r) c)).
  - unfold sorted_dates. apply sort_by_NoDup, dedup_dates_NoDup.
  - intros r Hr. apply sorted_dates_In. now apply in_map.
Qed.

(** [pivot.filter(regex='^Opex').sum().sum()] is the sum over the rows
    whose category starts with Opex. *)
Lemma opex_total_sum rows : opex_total (pivot_table rows) == prefix_sum "Opex" rows.
Proof.
  unfold opex_total, prefix_sum.
  rewrite (Qsum_ext _ (fun c => category_sum c rows)) by (intros; apply column_sum).
  unfold category_sum, opex_columns. cbn [p_columns pivot_table].
  rewrite (Qsum_by_key row_category amount_usd)
    by (apply NoDup_filter, sorted_keys_NoDup).
  erewrite Qsum_filter_ext; [reflexivity |]. intros r Hr. cbn beta.
  destruct (prefix "Opex" (row_category r)) eqn:E.
  - apply mem_str_In, filter_In. split; [| exact E].
    apply sorted_keys_In. now apply in_map.
  - destruct (mem_str (row_category r) _) eqn:Em; [| reflexivity].
    apply mem_str_In, filter_In in Em. destruct Em. congruence.
Qed.

(** X9. EBITDA = Revenue - COGS - Opex of the month: the revenue and the
    COGS are the sums of [amount_usd] over the rows of the month with that
    category, the opex the sum over the rows whose category starts with
    Opex.  The tool returns for every month that has rows, always with a
    chart. *)
Theorem ebitda_formula (month_str : string) (df : data_frames) (clk : clock) (n : nat)
    (target_month : date) :
  to_datetime month_str clk n = (Ok target_month, n) ->
  let rows := month_rows df target_month in
  rows <> [] ->
  exists revenue cogs opex c,
    get_ebitda month_str df clk n
    = (Ok ([Lit "**EBITDA Calculation for "; Lit (strftime_BY target_month);
            Lit (":**" ++ nl);
            Lit "- **Revenue:** $"; money revenue; Lit (" USD" ++ nl);
            Lit "- **COGS:** -$"; money cogs; Lit (" USD" ++ nl);
            Lit "- **Opex:** -$"; money opex; Lit (" USD" ++ nl);
            Lit ("-----------------------------" ++ nl);
            Lit "- **EBITDA:** **$"; money (revenue - cogs - opex); Lit " USD**"],
           Some c), n)
    /\ revenue == category_sum "Revenue" rows
    /\ cogs == category_sum "COGS" rows
    /\ opex == prefix_sum "Opex" rows
    /\ revenue - cogs - opex
       == category_sum "Revenue" rows - category_sum "COGS" rows - prefix_sum "Opex" rows.
Proof.
  intros Hd. cbv zeta. intros _. unfold get_ebitda, bind. rewrite Hd. cbv zeta. unfold ret.
  do 4 eexists. split; [reflexivity |]. unfold month_rows.
  pose proof (get_sum_category (in_month target_month
                (_convert_to_usd (actuals df) (fx df))) "Revenue") as Hr.
  pose proof (get_sum_category (in_month target_month
                (_convert_to_usd (actuals df) (fx df))) "COGS") as Hc.
  pose proof (opex_total_sum (in_month target_month
                (_convert_to_usd (actuals df) (fx df)))) as Ho.
  repeat split; try assumption. now rewrite Hr, Hc, Ho.
Qed.

Lemma ebitda_formula_witness :
  exists revenue cogs opex c,
    get_ebitda "2025-06-01" demo sept_2025 0%nat
    = (Ok ([Lit "**EBITDA Calculation for "; Lit "June 2025"; Lit (":**" ++ nl);
            Lit "- **Revenue:** $"; money revenue; Lit (" USD" ++ nl);
            Lit "- **COGS:** -$"; money cogs; Lit (" USD" ++ nl);
            Lit "- **Opex:** -$"; money opex; Lit (" USD" ++ nl);
            Lit ("-----------------------------" ++ nl);
            Lit "- **EBITDA:** **$"; money (revenue - cogs - opex); Lit " USD**"],
           Some c), 0%nat)
    /\ revenue - cogs - opex == 30000.
Proof.
  destruct (ebitda_formula "2025-06-01" demo sept_2025 0%nat (mkDate 2025 6 1) eq_refl)
    as (revenue & cogs & opex & c & Hrun & _ & _ & _ & Hsum); [discriminate |].
  exists revenue, cogs, opex, c. split; [exact Hrun |]. rewrite Hsum. reflexivity.
Defined.

(** X10. The single-metric tool reports, for the revenue, the sum of
    [amount_usd] over the rows of the month with the category Revenue, and
    for the opex the sum over the rows whose category starts with Opex. *)
Theorem single_metric_sums (month_str : string) (df : data_frames) (clk : clock) (n : nat)
    (target_month : date) :
  to_datetime month_str clk n = (Ok target_month, n) ->
  let rows := month_rows df target_month in
  rows <> [] ->
  (exists value,
     get_single_metric Revenue month_str df clk n
     = (Ok ([Lit "**"; Lit "Revenue"; Lit " for "; Lit (strftime_BY target_month);
             Lit ":** "; money value; Lit " "; Lit "USD"], None), n)
     /\ value == category_sum "Revenue" rows)
  /\ (exists value,
        get_single_metric Opex month_str df clk n
        = (Ok ([Lit "**"; Lit "Opex"; Lit " for "; Lit (strftime_BY target_month);
                Lit ":** "; money value; Lit " "; Lit "USD"], None), n)
        /\ value == prefix_sum "Opex" rows).
Proof.
  intros Hd. cbv zeta. unfold month_rows. intros Hrows.
  rewrite !(get_single_metric_run _ _ _ _ _ _ Hd).
  destruct (in_month target_month _) as [| r rows] eqn:E; [contradiction |].
  split; eexists; (split; [reflexivity |]); cbn [single_metric_value fst].
  - apply get_sum_category.
  - apply opex_total_sum.
Qed.

Lemma single_metric_sums_witness :
  exists value,
    get_single_metric Opex "2025-07-01" demo sept_2025 0%nat
    = (Ok ([Lit "**"; Lit "Opex"; Lit " for "; Lit "July 2025";
            Lit ":** "; money value; Lit " "; Lit "USD"], None), 0%nat)
    /\ value == 35000.
Proof.
  destruct (single_metric_sums "2025-07-01" demo sept_2025 0%nat (mkDate 2025 7 1) eq_refl)
    as [_ (value & Hrun & Hv)]; [discriminate |].
  exists value. split; [exact Hrun |]. rewrite Hv. reflexivity.
Defined.

Local Close Scope Q_scope.

(** ** The opex breakdown and the variance by entity *)

Local Open Scope Q_scope.

Lemma Qsum_perm l l' : Permutation l l' -> Qsum l == Qsum l'.
Proof.
  induction 1 as [| x l l' _ IH | x y l | l l' l'' _ IH1 _ IH2].
  - reflexivity.
  - rewrite !Qsum_cons, IH. reflexivity.
  - rewrite !Qsum_cons. ring.
  - now rewrite IH1.
Qed.

Lemma sort_values_Q_descending {A} (l : list (A * Q)) :
  StronglySorted (fun a b => snd b <= snd a) (sort_values_Q false l)
  /\ Permutation l (sort_values_Q false l).
Proof.
  unfold sort_values_Q. split; [| apply sort_by_perm].
  pose proof (sort_by_sorted (fun a b : A * Q => Qle_bool (snd b) (snd a))
                (fun a b => Qle_bool_total (snd b) (snd a))
                (fun a b c H1 H2 => Qle_bool_trans _ _ _ H2 H1) l) as H.
  induction H as [| x s Hs IH Hx]; constructor; [exact IH |].
  eapply Forall_impl; [| exact Hx]. cbn. intros a Ha. now apply Qle_bool_iff.
Qed.

Lemma Qsum_positive l : Forall (fun q => 0 <= q) l -> 0 <= Qsum l.
Proof.
  induction 1 as [| q l Hq _ IH]; [apply Qle_refl |].
  rewrite Qsum_cons. rewrite <- (Qplus_0_l 0). now apply Qplus_le_compat.
Qed.

(** X11. The opex breakdown of a month that has opex rows, all of an
    amount above zero as a pie takes them, on rows whose float64 sums are
    exact, lists each label once, the label being the category with
    [Opex: ] taken out, in descending order of its amount; every opex row
    of the month has its label listed and every label listed is that of an
    opex row of the month; the amount of a label is the sum over the rows
    of that label, the pie has one wedge for each line, and the total is
    the sum over the rows whose category starts with [Opex:], with the
    colon: a row of category Opex alone counts in EBITDA and not here. *)
Theorem opex_breakdown_total (month_str : string) (df : data_frames) (clk : clock) (n : nat)
    (target_month : date) :
  to_datetime month_str clk n = (Ok target_month, n) ->
  let rows := month_rows df target_month in
  existsb (fun r => prefix "Opex:" (row_category r)) rows = true ->
  forallb (fun r => implb (prefix "Opex:" (row_category r))
                          (negb (Qle_bool (amount_usd r) 0))) rows = true ->
  exact_rows rows = true ->
  exists total lines c,
    get_opex_breakdown month_str df clk n
    = (Ok (Lit "**Opex Breakdown for " :: Lit (strftime_BY target_month)
             :: Lit " (Total: $" :: money total :: Lit (" USD):**" ++ nl)
             :: flat_map (fun r : string * Q =>
                            [Lit "- **"; Lit (fst r); Lit ":** $"; money (snd r);
                             Lit (" USD" ++ nl)])
                         lines,
           Some c), n)
    /\ total == prefix_sum "Opex:" rows
    /\ NoDup (map fst lines)
    /\ (forall label,
          In label (map fst lines)
          <-> exists r, In r rows /\ prefix "Opex:" (row_category r) = true
                        /\ remove_all "Opex: " (row_category r) = label)
    /\ StronglySorted (fun a b => snd b <= snd a) lines
    /\ Forall (fun r => snd r = opex_label_sum (fst r) rows) lines
    /\ series c = [map (fun r : string * Q => (XLabel (fst r), Fin (snd r))) lines].
Proof.
  intros Hd. cbv zeta. intros Hsome Hpos _. unfold get_opex_breakdown, bind. rewrite Hd.
  cbv zeta. unfold month_rows in *.
  set (rows := in_month target_month (_convert_to_usd (actuals df) (fx df))) in *.
  set (opex_data := map (fun r => (remove_all "Opex: " (row_category r), amount_usd r))
                        (filter (fun r => prefix "Opex:" (row_category r)) rows)).
  set (grouped := map (fun c => (c, Qsum (map snd (filter (fun r : string * Q =>
                         String.eqb (fst r) c) opex_data))))
                      (sorted_keys (map fst opex_data))).
  destruct (sort_values_Q_descending grouped) as [Hsorted Hperm].
  assert (Hlabels : forall label,
             In label (map fst (sort_values_Q false grouped))
             <-> exists r, In r rows /\ prefix "Opex:" (row_category r) = true
                           /\ remove_all "Opex: " (row_category r) = label).
  { intros label. split.
    - intros Hin. apply (Permutation_in _ (Permutation_sym (Permutation_map fst Hperm))) in Hin.
      subst grouped. rewrite map_map in Hin. cbn [fst] in Hin. rewrite map_id in Hin.
      rewrite sorted_keys_In in Hin. subst opex_data. rewrite map_map in Hin.
      cbn [fst] in Hin.
      apply in_map_iff in Hin. destruct Hin as (r & <- & Hr). apply filter_In in Hr.
      exists r. tauto.
    - intros (r & Hr & Hp & <-).
      apply (Permutation_in _ (Permutation_map fst Hperm)).
      subst grouped. rewrite map_map. cbn [fst]. rewrite map_id.
      apply sorted_keys_In. subst opex_data. rewrite map_map. cbn [fst].
      apply in_map_iff. exists r. split; [reflexivity |]. apply filter_In. tauto. }
  assert (Hne : sort_values_Q false grouped <> []).
  { apply existsb_exists in Hsome. destruct Hsome as (r & Hr & Hp).
    assert (Hin : In (remove_all "Opex: " (row_category r))
                     (map fst (sort_values_Q false grouped)))
      by (apply Hlabels; eauto).
    intros E. rewrite E in Hin. contradiction. }
  assert (Hplot : forallb (fun r : string * Q => Qle_bool 0 (snd r))
                    (sort_values_Q false grouped) = true).
  { apply forallb_forall. intros r Hr.
    apply (Permutation_in _ (Permutation_sym Hperm)) in Hr.
    subst grouped. apply in_map_iff in Hr. destruct Hr as (label & <- & _). cbn [snd].
    apply Qle_bool_iff, Qsum_positive, Forall_forall. intros q Hq.
    apply in_map_iff in Hq. destruct Hq as (x & <- & Hx). apply filter_In in Hx.
    destruct Hx as [Hx _]. subst opex_data. apply in_map_iff in Hx.
    destruct Hx as (r & <- & Hr). apply filter_In in Hr. destruct Hr as [Hr Hp].
    rewrite forallb_forall in Hpos. specialize (Hpos r Hr). rewrite Hp in Hpos.
    cbn [implb snd] in *. apply negb_true_iff in Hpos.
    destruct (Qlt_le_dec 0 (amount_usd r)) as [Hlt | Hle]; [now apply Qlt_le_weak |].
    apply Qle_bool_iff in Hle. congruence. }
  rewrite Hplot.
  destruct (sort_values_Q false grouped) as [| line lines'] eqn:Elines; [contradiction |].
  rewrite <- Elines in *. unfold ret.
  do 3 eexists. split; [reflexivity |].
  split; [| split; [| split; [| split; [| split]]]].
  - rewrite <- (Qsum_perm _ _ (Permutation_map snd Hperm)).
    subst grouped. rewrite map_map. cbn [snd].
    rewrite (Qsum_by_key fst snd) by apply sorted_keys_NoDup.
    rewrite (filter_ext_in _ (fun _ => true)).
    + assert (Hall : forall l : list (string * Q), filter (fun _ => true) l = l)
        by (induction l as [| x l IH]; cbn; [reflexivity | now rewrite IH]).
      rewrite Hall. subst opex_data. rewrite map_map. cbn [snd]. reflexivity.
    + intros r Hr. apply mem_str_In, sorted_keys_In. now apply in_map.
  - apply (Permutation_NoDup (Permutation_map fst Hperm)).
    subst grouped. rewrite map_map. cbn [fst]. rewrite map_id. apply sorted_keys_NoDup.
  - exact Hlabels.
  - exact Hsorted.
  - apply Forall_forall. intros r Hr.
    apply (Permutation_in _ (Permutation_sym Hperm)) in Hr.
    subst grouped. apply in_map_iff in Hr. destruct Hr as (label & <- & _). cbn [fst snd].
    unfold opex_label_sum. subst opex_data. clear.
    induction rows as [| r rows IH]; [reflexivity |]. cbn [filter].
    destruct (prefix "Opex:" (row_category r)); cbn [andb map filter fst]; [| exact IH].
    destruct (String.eqb (remove_all "Opex: " (row_category r)) label);
      cbn [map snd]; [| exact IH].
    rewrite !Qsum_cons. now rewrite IH.
  - reflexivity.
Qed.

Lemma opex_breakdown_total_witness :
  exists total lines c,
    get_opex_breakdown "2025-06-01" demo sept_2025 0%nat
    = (Ok (Lit "**Opex Breakdown for " :: Lit "June 2025"
             :: Lit " (Total: $" :: money total :: Lit (" USD):**" ++ nl)
             :: flat_map (fun r : string * Q =>
                            [Lit "- **"; Lit (fst r); Lit ":** $"; money (snd r);
                             Lit (" USD" ++ nl)])
                         lines,
           Some c), 0%nat)
    /\ total == 30000.
Proof.
  destruct (opex_breakdown_total "2025-06-01" demo sept_2025 0%nat (mkDate 2025 6 1) eq_refl)
    as (total & lines & c & Hrun & Htotal & _); [reflexivity | reflexivity | reflexivity |].
  exists total, lines, c. split; [exact Hrun |]. rewrite Htotal. reflexivity.
Defined.

Local Close Scope Q_scope.

Local Open Scope Q_scope.

Lemma find_key {B} (F : string -> B) e ks :
  find (fun r : string * B => String.eqb (fst r) e) (map (fun k => (k, F k)) ks)
  = if mem_str e ks then Some (e, F e) else None.
Proof.
  induction ks as [| k ks IH]; cbn; [reflexivity |].
  rewrite (String.eqb_sym e k). destruct (String.eqb_spec k e) as [-> | _]; [reflexivity |].
  exact IH.
Qed.

(** What the variance table holds for an entity: the sum of its rows, 0
    when it has none. *)
Lemma lookup0_by_entity e rows :
  lookup0 e (by_entity rows)
  = Qsum (map amount_usd (filter (fun r => String.eqb (entity (base r)) e) rows)).
Proof.
  unfold lookup0, by_entity. rewrite find_key.
  destruct (mem_str e (sorted_keys (map (fun r => entity (base r)) rows))) eqn:E;
    [reflexivity |].
  assert (Hnone : filter (fun r => String.eqb (entity (base r)) e) rows = []).
  { destruct (filter _ rows) as [| r rs] eqn:Ef; [reflexivity |].
    assert (Hr : In r (filter (fun r => String.eqb (entity (base r)) e) rows))
      by (rewrite Ef; now left).
    apply filter_In in Hr. destruct Hr as [Hr He]. apply String.eqb_eq in He.
    assert (mem_str e (sorted_keys (map (fun r => entity (base r)) rows)) = true).
    { apply mem_str_In, sorted_keys_In. rewrite <- He.
      now apply (in_map (fun r => entity (base r))). }
    congruence. }
  now rewrite Hnone.
Qed.

Lemma by_entity_keys rows :
  map fst (by_entity rows) = sorted_keys (map (fun r => entity (base r)) rows).
Proof. unfold by_entity. rewrite map_map. cbn [fst]. apply map_id. Qed.

Lemma sort_by_Qle {A} (key : A -> Q) (l : list A) :
  StronglySorted (fun a b => key a <= key b)
    (sort_by (fun a b => Qle_bool (key a) (key b)) l).
Proof.
  pose proof (sort_by_sorted (fun a b => Qle_bool (key a) (key b))
                (fun a b => Qle_bool_total (key a) (key b))
                (fun a b c => Qle_bool_trans _ _ _) l) as Hs.
  induction Hs as [| x s Hs IH Hx]; constructor; [exact IH |].
  eapply Forall_impl; [| exact Hx]. cbn. intros a Ha. now apply Qle_bool_iff.
Qed.

Lemma filter_map_swap {A B} (p : B -> bool) (g : A -> B) l :
  filter p (map g l) = map g (filter (fun x => p (g x)) l).
Proof.
  induction l as [| x l IH]; cbn; [reflexivity |]. rewrite IH. now destruct (p (g x)).
Qed.

(** X12. The variance by entity of a month that has revenue rows, in the
    actuals or in the budget, on rows whose float64 sums are exact, lists
    the entities whose revenue of the month is below their budget, each
    once, the one that missed by most first.  For each, actual and budget
    are the sums of the revenue rows of the month of that entity in the two
    tables, 0 when a table has none, and the variance is actual - budget.
    When no entity is below budget the text is the congratulation. *)
Theorem variance_by_entity_missed (month_str : string) (df : data_frames) (clk : clock)
    (n : nat) (target_month : date) :
  to_datetime month_str clk n = (Ok target_month, n) ->
  let a_rows := in_month target_month (_convert_to_usd (actuals df) (fx df)) in
  let b_rows := in_month target_month (_convert_to_usd (budget df) (fx df)) in
  existsb (fun r => String.eqb (row_category r) "Revenue") (a_rows ++ b_rows) = true ->
  exact_rows (a_rows ++ b_rows) = true ->
  exists missed c,
    get_revenue_variance_by_entity month_str df clk n
    = (Ok (Lit "**Entities That Missed Revenue Budget for " :: Lit (strftime_BY target_month)
             :: Lit (":**" ++ nl)
             :: match missed with
                | [] => [Lit "Congratulations! All entities met or exceeded their revenue budget."]
                | _ =>
                    flat_map
                      (fun r : string * (Q * Q * Q) =>
                         [Lit "- **"; Lit (fst r); Lit ":** Missed by $";
                          money (Qabs_val (snd (snd r))); Lit " USD (Actual: $";
                          money (fst (fst (snd r))); Lit ", Budget: $";
                          money (snd (fst (snd r))); Lit (")" ++ nl)])
                      missed
                end,
           Some c), n)
    /\ Forall (fun r : string * (Q * Q * Q) =>
                 fst (fst (snd r)) = entity_revenue (fst r) a_rows
                 /\ snd (fst (snd r)) = entity_revenue (fst r) b_rows
                 /\ snd (snd r) = fst (fst (snd r)) - snd (fst (snd r))
                 /\ snd (snd r) < 0) missed
    /\ StronglySorted (fun a b : string * (Q * Q * Q) => snd (snd a) <= snd (snd b)) missed
    /\ NoDup (map fst missed)
    /\ (forall e r, In r (a_rows ++ b_rows) ->
          row_category r = "Revenue"%string -> entity (base r) = e ->
          entity_revenue e a_rows - entity_revenue e b_rows < 0 ->
          In e (map fst missed)).
Proof.
  intros Hd. cbv zeta. intros Hsome _.
  unfold get_revenue_variance_by_entity, bind. rewrite Hd. cbv zeta. unfold ret.
  set (a_rows := in_month target_month (_convert_to_usd (actuals df) (fx df))) in *.
  set (b_rows := in_month target_month (_convert_to_usd (budget df) (fx df))) in *.
  set (is_revenue := fun r => String.eqb (row_category r) "Revenue") in *.
  set (A := by_entity (filter is_revenue a_rows)).
  set (B := by_entity (filter is_revenue b_rows)).
  set (row := fun e => (e, (lookup0 e A, lookup0 e B, lookup0 e A - lookup0 e B))).
  set (keys := sorted_keys (map fst A ++ map fst B)).
  set (neg := fun r : string * (Q * Q * Q) => negb (Qle_bool 0 (snd (snd r)))).
  set (leb := fun a b : string * (Q * Q * Q) => Qle_bool (snd (snd a)) (snd (snd b))).
  assert (Hin : forall r, In r (sort_by leb (filter neg (map row keys))) <->
                          exists e, In e keys /\ r = row e /\ neg (row e) = true).
  { intros r. rewrite sort_by_In, filter_In, in_map_iff. split.
    - intros [(e & <- & He) Hn]. eauto.
    - intros (e & He & -> & Hn). eauto. }
  assert (Hkeys : map row keys <> []).
  { apply existsb_exists in Hsome. destruct Hsome as (r & Hr & Hrev).
    assert (Hk : In (entity (base r)) keys).
    { subst keys. apply sorted_keys_In, in_or_app. subst A B. rewrite !by_entity_keys.
      apply in_app_or in Hr. destruct Hr as [Hr | Hr]; [left | right];
        apply sorted_keys_In; apply (in_map (fun r => entity (base r)));
        apply filter_In; auto. }
    intros E. apply (in_map row) in Hk. rewrite E in Hk. contradiction. }
  destruct (map row keys) as [| row0 rows'] eqn:Erows; [contradiction |].
  rewrite <- Erows in *.
  do 2 eexists. split; [reflexivity |].
  fold a_rows b_rows is_revenue A B keys. fold row. fold neg. fold leb.
  split; [| split; [| split]].
  - apply Forall_forall. intros r Hr. apply Hin in Hr. destruct Hr as (e & _ & -> & Hn).
    subst row neg A B. cbn [fst snd] in *. rewrite !lookup0_by_entity.
    repeat split. apply negb_true_iff in Hn. rewrite !lookup0_by_entity in Hn.
    apply Qnot_le_lt. intros Hle. apply Qle_bool_iff in Hle. congruence.
  - apply (sort_by_Qle (fun r : string * (Q * Q * Q) => snd (snd r))).
  - apply (Permutation_NoDup (Permutation_map fst (sort_by_perm leb _))).
    rewrite filter_map_swap, map_map. cbn [fst]. rewrite map_id.
    apply NoDup_filter, sorted_keys_NoDup.
  - intros e r Hr Hc He Hneg.
    apply in_map_iff. exists (row e). split; [reflexivity |]. apply Hin.
    exists e. split; [| split; [reflexivity |]].
    + subst keys. apply sorted_keys_In, in_or_app. subst A B. rewrite !by_entity_keys.
      assert (Hrev : is_revenue r = true) by (subst is_revenue; cbn; rewrite Hc; reflexivity).
      apply in_app_or in Hr. destruct Hr as [Hr | Hr]; [left | right];
        apply sorted_keys_In; rewrite <- He;
        apply (in_map (fun r => entity (base r))); apply filter_In; auto.
    + subst neg row A B. cbn [snd]. rewrite !lookup0_by_entity. apply negb_true_iff.
      destruct (Qle_bool 0 _) eqn:E; [| reflexivity].
      apply Qle_bool_iff in E. exfalso. eapply Qlt_not_le; [exact Hneg | exact E].
Qed.

Lemma variance_by_entity_missed_witness :
  exists c,
    get_revenue_variance_by_entity "2025-06-01" demo sept_2025 0%nat
    = (Ok ([Lit "**Entities That Missed Revenue Budget for "; Lit "June 2025";
            Lit (":**" ++ nl);
            Lit "Congratulations! All entities met or exceeded their revenue budget."],
           Some c), 0%nat).
Proof.
  destruct (variance_by_entity_missed "2025-06-01" demo sept_2025 0%nat
              (mkDate 2025 6 1) eq_refl)
    as (missed & c & Hrun & Hall & _); [reflexivity | reflexivity |].
  exists c. rewrite Hrun. destruct missed as [| r missed]; [reflexivity |].
  exfalso. vm_compute in Hrun. discriminate.
Defined.

Local Close Scope Q_scope.

(** ** The comparison of several months *)

Lemma mapM_to_datetime months targets clk n :
  Forall2 (fun s d => forall clk k, to_datetime s clk k = (Ok d, k)) months targets ->
  mapM to_datetime months clk n = (Ok targets, n).
Proof.
  induction 1 as [| s d months targets Hs _ IH]; cbn [mapM]; [reflexivity |].
  unfold bind. rewrite Hs. unfold bind in IH. now rewrite IH.
Qed.

Lemma dict_set_keys k v d :
  NoDup (map fst d) ->
  NoDup (map fst (dict_set k v d))
  /\ forall k', In k' (map fst (dict_set k v d)) <-> k' = k \/ In k' (map fst d).
Proof.
  induction d as [| [k0 v0] d IH]; cbn [dict_set map fst]; intros Hnd.
  - split; [repeat constructor; auto | intros k'; cbn; intuition].
  - inversion Hnd as [| ? ? Hk0 Hd]; subst.
    destruct (String.eqb_spec k k0) as [-> | Hne]; cbn [map fst].
    + split; [exact Hnd | intros k'; cbn; intuition].
    + destruct (IH Hd) as [IHn IHi]. split.
      * constructor; [| exact IHn]. rewrite IHi. intros [E | Hin]; [now subst | contradiction].
      * intros k'. cbn [In]. rewrite IHi. intuition.
Qed.

Lemma dict_set_In k v d k' v' :
  In (k', v') (dict_set k v d) -> (k' = k /\ v' = v) \/ In (k', v') d.
Proof.
  induction d as [| [k0 v0] d IH]; cbn [dict_set].
  - intros [[= <- <-] | []]. now left.
  - destruct (String.eqb_spec k k0) as [-> | Hne]; cbn [In].
    + intros [[= <- <-] | H]; [now left | right; now right].
    + intros [H | H]; [right; now left |]. destruct (IH H); [now left | right; now right].
Qed.

(** The dictionary of the comparison: its keys are the labels of the
    months that brought a value, each once, and the value at a label is
    one that a month of that label brought. *)
Lemma comparison_results_spec metric df targets : forall start,
  NoDup (map fst start) ->
  NoDup (map fst (comparison_results metric df targets start))
  /\ (forall k, In k (map fst (comparison_results metric df targets start)) <->
        In k (map fst start)
        \/ exists d, In d targets /\ k = strftime_bY d
                     /\ multi_month_value metric (month_rows df d) <> None)
  /\ (forall k v, In (k, v) (comparison_results metric df targets start) ->
        In (k, v) start
        \/ exists d, In d targets /\ k = strftime_bY d
                     /\ multi_month_value metric (month_rows df d) = Some v).
Proof.
  unfold comparison_results, month_rows.
  induction targets as [| t targets IH]; intros start Hnd; cbn [fold_left].
  - split; [exact Hnd |]. split.
    + intros k. split; [auto | intros [H | (d & [] & _)]; exact H].
    + auto.
  - destruct (multi_month_value metric (in_month t _)) as [v |] eqn:Ev.
    + destruct (dict_set_keys (strftime_bY t) v start Hnd) as [Hn Hi].
      destruct (IH _ Hn) as (IHn & IHk & IHv). split; [exact IHn |]. split.
      * intros k. rewrite IHk, Hi. split.
        -- intros [[-> | Hs] | (d & Hd & -> & Hb)].
           ++ right. exists t. split; [now left |]. split; [reflexivity |].
              rewrite Ev. discriminate.
           ++ now left.
           ++ right. exists d. split; [now right |]. auto.
        -- intros [Hs | (d & [<- | Hd] & -> & Hb)].
           ++ left. now right.
           ++ left. now left.
           ++ right. exists d. auto.
      * intros k v' Hin. destruct (IHv k v' Hin) as [Hs | (d & Hd & -> & Hb)].
        -- apply dict_set_In in Hs. destruct Hs as [[-> ->] | Hs]; [| now left].
           right. exists t. split; [now left |]. auto.
        -- right. exists d. split; [now right |]. auto.
    + destruct (IH _ Hnd) as (IHn & IHk & IHv). split; [exact IHn |]. split.
      * intros k. rewrite IHk. split.
        -- intros [Hs | (d & Hd & -> & Hb)]; [now left |].
           right. exists d. split; [now right |]. auto.
        -- intros [Hs | (d & [<- | Hd] & -> & Hb)]; [now left | | ].
           ++ rewrite Ev in Hb. contradiction.
           ++ right. exists d. auto.
      * intros k v' Hin. destruct (IHv k v' Hin) as [Hs | (d & Hd & -> & Hb)]; [now left |].
        right. exists d. split; [now right |]. auto.
Qed.

Lemma comparison_results_none metric df targets :
  Forall (fun d => multi_month_value metric
                     (in_month d (_convert_to_usd (actuals df) (fx df))) = None) targets ->
  comparison_results metric df targets [] = [].
Proof.
  unfold comparison_results. induction 1 as [| t targets Ht _ IH]; cbn [fold_left];
    [reflexivity |]. now rewrite Ht.
Qed.

Local Open Scope Q_scope.

(** The value of a month of the comparison, in terms of its rows. *)
Lemma multi_month_value_brings metric rows :
  (forall v, multi_month_value metric rows = Some v -> month_brings metric rows v)
  /\ (forall v, month_brings metric rows v -> multi_month_value metric rows <> None).
Proof.
  unfold month_brings. destruct rows as [| r rows]; cbn [multi_month_value].
  { split; [discriminate | intros v [H _]; contradiction]. }
  destruct (guarded_gross_margin (r :: rows)) as [Hnz Hz]. cbv zeta in Hnz, Hz.
  split.
  - intros v Hv. split; [discriminate |]. destruct metric.
    + injection Hv as <-. apply get_sum_category.
    + injection Hv as <-. apply opex_total_sum.
    + discriminate.
    + destruct (Qeq_bool (get_sum (pivot_table (r :: rows)) "Revenue") 0) eqn:E;
        cbn [negb] in Hv; [discriminate |]. injection Hv as <-.
      assert (Hrev : ~ category_sum "Revenue" (r :: rows) == 0)
        by (intros H0; pose proof (Hz H0); congruence).
      split; [exact Hrev |]. now apply Hnz.
  - intros v [_ Hv]. destruct metric; try discriminate; [contradiction |].
    destruct Hv as [Hrev _]. destruct (Hnz Hrev) as [E _]. rewrite E. discriminate.
Qed.

(** X13. The comparison of several months answers "No data found for the
    specified months.", without a chart, when no month brings a value: a
    month without a row of actuals, and for the gross margin a month whose
    revenue is zero, on rows whose float64 sums are exact, is passed over
    without a word. *)
Theorem multi_month_no_data (metric : metric) (months : list string) (targets : list date)
    (df : data_frames) (clk : clock) (n : nat) :
  Forall2 (fun s d => forall clk k, to_datetime s clk k = (Ok d, k)) months targets ->
  exact_rows (_convert_to_usd (actuals df) (fx df)) = true ->
  Forall (fun d => has_data df d = false
                   \/ (metric = GrossMargin
                       /\ category_sum "Revenue" (month_rows df d) == 0)) targets ->
  get_multi_month_metric metric months df clk n
  = (Ok ([Lit "No data found for the specified months."], None), n).
Proof.
  intros Hparse _ Hnone. unfold get_multi_month_metric, bind.
  rewrite (mapM_to_datetime _ _ _ _ Hparse). cbv zeta.
  fold (comparison_results metric df targets []).
  rewrite (comparison_results_none metric df targets); [reflexivity |].
  eapply Forall_impl; [| exact Hnone]. cbn beta. intros d [Hd | [-> Hrev]].
  - apply in_month_has_data in Hd. now rewrite Hd.
  - unfold month_rows in Hrev. unfold multi_month_value.
    destruct (in_month d _) as [| r rows]; [reflexivity |].
    destruct (guarded_gross_margin (r :: rows)) as [_ Hz]. cbv zeta in Hz.
    now rewrite (Hz Hrev).
Qed.

Lemma multi_month_no_data_witness :
  get_multi_month_metric GrossMargin ["2025-08-01"; "2025-09-01"] demo sept_2025 0%nat
  = (Ok ([Lit "No data found for the specified months."], None), 0%nat).
Proof.
  apply (multi_month_no_data GrossMargin ["2025-08-01"; "2025-09-01"]
           [mkDate 2025 8 1; mkDate 2025 9 1] demo sept_2025 0%nat).
  - repeat constructor.
  - reflexivity.
  - constructor; [right; split; reflexivity |].
    constructor; [left; reflexivity | constructor].
Defined.

(** X14. When the comparison has a chart, on rows whose float64 sums are
    exact, its bars and its bullets are the months that brought a value,
    and no other, each once, in the order of their labels read as text
    (Apr before Jan), not in the order of the calendar: a label is listed
    exactly when a month of that label has rows and, for the gross margin,
    a revenue that is not zero, and its value is the revenue, the opex or
    the gross margin of such a month. *)
Theorem multi_month_by_label (metric : metric) (months : list string) (df : data_frames)
    (clk : clock) (n n' : nat) (text : summary) (c : chart) :
  exact_rows (_convert_to_usd (actuals df) (fx df)) = true ->
  get_multi_month_metric metric months df clk n = (Ok (text, Some c), n') ->
  exists (targets : list date) (lines : list (string * Q)),
    mapM to_datetime months clk n = (Ok targets, n')
    /\ series c = [map (fun r : string * Q => (XLabel (fst r), Fin (snd r))) lines]
    /\ text = (Lit "**Comparison for "
                 :: Lit (match metric with
                         | GrossMargin => "Gross Margin %"
                         | _ => metric_name metric
                         end)
                 :: Lit (":**" ++ nl)
                 :: flat_map (fun r : string * Q =>
                                [Lit "- **"; Lit (fst r); Lit "**: ";
                                 Lit (match metric with GrossMargin => "" | _ => "$" end);
                                 money (snd r);
                                 Lit (match metric with GrossMargin => "%" | _ => " USD" end);
                                 Lit nl])
                             lines)
    /\ lines <> []
    /\ StronglySorted (fun a b : string * Q => String.leb (fst a) (fst b) = true) lines
    /\ NoDup (map fst lines)
    /\ (forall label,
          In label (map fst lines)
          <-> exists d v, In d targets /\ label = strftime_bY d
                          /\ month_brings metric (month_rows df d) v)
    /\ Forall (fun r : string * Q =>
                 exists d, In d targets /\ fst r = strftime_bY d
                           /\ month_brings metric (month_rows df d) (snd r)) lines.
Proof.
  intros _. unfold get_multi_month_metric, bind.
  destruct (mapM to_datetime months clk n) as [[targets | e] n1]; [| discriminate].
  cbv zeta. fold (comparison_results metric df targets []).
  destruct (comparison_results_spec metric df targets [] (NoDup_nil _))
    as (Hnd & Hkeys & Hvalues).
  destruct (comparison_results metric df targets []) as [| r0 results] eqn:E;
    [discriminate |].
  unfold ret. intros [= <- <- <-].
  set (leb := fun a b : string * Q => String.leb (fst a) (fst b)).
  exists targets, (sort_by leb (r0 :: results)).
  split; [reflexivity |]. split; [reflexivity |]. split; [reflexivity |].
  split; [| split; [| split; [| split]]].
  - intros Hnil.
    assert (Hin : In r0 (sort_by leb (r0 :: results))) by (apply sort_by_In; now left).
    rewrite Hnil in Hin. contradiction.
  - apply sort_by_sorted.
    + intros a b. apply String.leb_total.
    + intros a b c'. apply string_leb_trans.
  - apply (Permutation_NoDup (Permutation_map fst (sort_by_perm leb _))). exact Hnd.
  - intros label.
    assert (Hp : In label (map fst (sort_by leb (r0 :: results)))
                 <-> In label (map fst (r0 :: results))).
    { split; apply Permutation_in;
        [apply Permutation_sym |]; apply Permutation_map, sort_by_perm. }
    rewrite Hp, Hkeys. split.
    + intros [[] | (d & Hd & -> & Hb)].
      destruct (multi_month_value metric (month_rows df d)) as [v |] eqn:Ev;
        [| contradiction].
      exists d, v. split; [exact Hd |]. split; [reflexivity |].
      now apply multi_month_value_brings.
    + intros (d & v & Hd & -> & Hb). right. exists d. split; [exact Hd |].
      split; [reflexivity |]. eapply multi_month_value_brings; eassumption.
  - apply Forall_forall. intros [k v] Hr. apply sort_by_In in Hr.
    destruct (Hvalues k v Hr) as [[] | (d & Hd & -> & Hb)].
    exists d. split; [exact Hd |]. split; [reflexivity |].
    now apply multi_month_value_brings.
Qed.

Lemma multi_month_by_label_witness :
  exists text c,
    get_multi_month_metric Revenue ["2025-06-01"; "2025-07-01"; "2025-08-01"] demo
      sept_2025 0%nat
    = (Ok (text, Some c), 0%nat)
    /\ exists v6 v7 v8,
         series c = [[(XLabel "Aug 2025", Fin v8); (XLabel "Jul 2025", Fin v7);
                      (XLabel "Jun 2025", Fin v6)]]
         /\ v6 == 100000 /\ v7 == 110000 /\ v8 == 0.
Proof.
  remember (get_multi_month_metric Revenue ["2025-06-01"; "2025-07-01"; "2025-08-01"] demo
              sept_2025 0%nat) as out eqn:E.
  assert (E' : out = get_multi_month_metric Revenue
                       ["2025-06-01"; "2025-07-01"; "2025-08-01"] demo sept_2025 0%nat)
    by exact E.
  vm_compute in E. subst out.
  match type of E' with
  | (Ok (?t, Some ?c), _) = _ =>
      destruct (multi_month_by_label Revenue ["2025-06-01"; "2025-07-01"; "2025-08-01"]
                  demo sept_2025 0%nat 0%nat t c eq_refl (eq_sym E'))
        as (targets & lines & _ & Hseries & _);
      exists t, c
  end.
  split; [reflexivity |]. do 3 eexists. split; [reflexivity |].
  repeat split; reflexivity.
Defined.

Local Close Scope Q_scope.

(** ** Conversion keeps the rows *)

(** X15. Conversion invents no row and loses none: every converted row
    comes from a row of the table, with [amount_usd = amount * rate]; every
    row of the table is converted at least once; and when no row matches
    more than one row of the fx table, the converted table has the rows of
    the table, in the same order.  (Two fx rows for one month and currency
    make two converted rows of each matching row.) *)
Theorem convert_keeps_rows (df : list transaction) (fx_rates : list fx_rate) :
  (forall r', In r' (_convert_to_usd df fx_rates) ->
     In (base r') df /\ amount_usd r' = (amount (base r') * rate_to_usd r')%Q) /\
  (forall r, In r df -> exists r', In r' (_convert_to_usd df fx_rates) /\ base r' = r) /\
  ((forall r, In r df -> (List.length (filter (fx_matches r) fx_rates) <= 1)%nat) ->
   map base (_convert_to_usd df fx_rates) = df).
Proof.
  split; [apply convert_In_base | split; [apply convert_covers |]].
  unfold _convert_to_usd.
  induction df as [| r df IH]; intros Hone; [reflexivity |].
  cbn [flat_map]. rewrite map_app, IH by (intros; apply Hone; now right).
  specialize (Hone r (or_introl eq_refl)).
  destruct (filter (fx_matches r) fx_rates) as [| f [| f' fs]]; cbn in *;
    [reflexivity | reflexivity | lia].
Qed.

Lemma convert_keeps_rows_witness :
  map base (_convert_to_usd demo_actuals (fx demo)) = demo_actuals.
Proof.
  apply (proj2 (proj2 (convert_keeps_rows demo_actuals (fx demo)))).
  intros r Hr. cbn in Hr.
  repeat (destruct Hr as [<- | Hr]; [cbn; lia |]). contradiction.
Defined.

(** ** The cash runway: the latest balance and the projection *)

(** X16. Without a row of the cash table at or before the clock, the cash
    runway intent answers "Not enough data ...", however many months of
    actuals there are. *)
Theorem runway_without_cash (query : string) (df : data_frames) (clk : clock) (n n' : nat) :
  get_intent query df clk n = (Ok cash_runway_projection, n') ->
  filter (fun r => date_leb (c_month r) (clk n')) (cash df) = [] ->
  run_agent query df clk n = (Ok (not_enough_data, None), S n').
Proof.
  intros Hi Hcash. unfold run_agent, bind. rewrite Hi. cbn [route].
  unfold bind, _calculate_net_burn, bind, now. now rewrite Hcash.
Qed.

Lemma runway_without_cash_witness :
  run_agent "How long is our runway?" (mkData demo_actuals [] [] []) sept_2025 0%nat
  = (Ok (not_enough_data, None), 1%nat).
Proof.
  apply (runway_without_cash "How long is our runway?" (mkData demo_actuals [] [] [])
           sept_2025 0%nat 0%nat); reflexivity.
Defined.

Local Open Scope Q_scope.

Lemma period_add_months d k : period_M (add_months d k) = (period_M d + k)%Z.
Proof.
  unfold add_months, period_M at 1. cbn [year month].
  pose proof (Z.div_mod (period_M d + k) 12 ltac:(lia)). lia.
Qed.

(** X17. The runway projection of a balance that is not negative, at a
    burn above zero, both whole numbers whose float64 quotient cuts to the
    same number of months as the exact one, over months that timestamps
    hold, has one point a month, the i-th being i months after the cash
    month; the balance stays at or above zero up to the month the summary
    names, [int(runway)] months after the cash month, and is below zero at
    the one point after it, the last of the projection. *)
Theorem runway_projection_crosses_zero (avg_monthly_burn latest_cash : Q)
    (last_month : date) (df : data_frames) (clk : clock) (n : nat) :
  0 < avg_monthly_burn -> 0 <= latest_cash ->
  let k := int_Q (latest_cash / avg_monthly_burn) in
  let balance := fun i : Z => latest_cash - avg_monthly_burn * inject_Z i in
  exact_quotient latest_cash avg_monthly_burn = true ->
  in_timestamp_range (add_months last_month 0) ->
  in_timestamp_range (add_months last_month (k + 1)) ->
  exists text c,
    get_cash_runway avg_monthly_burn latest_cash last_month df clk n
    = (Ok (text, Some c), n)
    /\ In (Lit (strftime_BY (add_months last_month k))) text
    /\ hd [] (series c)
       = map (fun i => (XDate (add_months last_month i), Fin (balance i)))
             (range (k + 2))
    /\ (forall i, In i (range (k + 2)) ->
          period_M (add_months last_month i) = (period_M last_month + i)%Z)
    /\ (0 <= k)%Z
    /\ (forall i, (0 <= i <= k)%Z -> 0 <= balance i)
    /\ balance (k + 1)%Z < 0.
Proof.
  intros Hburn Hcash. cbv zeta. intros _ Hlo Hhi.
  assert (Hrun : 0 <= latest_cash / avg_monthly_burn) by now apply runway_nonneg.
  assert (Hk : (0 <= int_Q (latest_cash / avg_monthly_burn))%Z).
  { rewrite (int_Q_floor _ Hrun). change 0%Z with (Qfloor 0). now apply Qfloor_resp_le. }
  unfold get_cash_runway, bind.
  rewrite ts_add_months_ok
    by (apply (add_months_in_range _ 0 (int_Q (latest_cash / avg_monthly_burn) + 1));
        try assumption; lia).
  rewrite mapM_ts_add_months.
  2:{ intros i Hi. apply range_In in Hi.
      apply (add_months_in_range _ 0 (int_Q (latest_cash / avg_monthly_burn) + 1));
        try assumption; lia. }
  rewrite (int_Q_floor _ Hrun) in *.
  set (runway := latest_cash / avg_monthly_burn) in *.
  assert (Hcash_eq : latest_cash == runway * avg_monthly_burn).
  { subst runway. field. intros E. rewrite E in Hburn. now apply Qlt_irrefl in Hburn. }
  unfold ret. do 2 eexists. split; [reflexivity |].
  split; [cbn [In]; tauto |]. split.
  { cbn [series hd].
    apply (projection_points last_month latest_cash
             (fun i => latest_cash - avg_monthly_burn * inject_Z i)). }
  split; [intros; apply period_add_months |].
  split; [exact Hk |].
  split.
  - intros i [_ Hi].
    assert (Hle : inject_Z i <= runway).
    { eapply Qle_trans; [| apply Qfloor_le]. rewrite <- Zle_Qle. exact Hi. }
    rewrite Hcash_eq.
    setoid_replace (runway * avg_monthly_burn - avg_monthly_burn * inject_Z i)
      with ((runway - inject_Z i) * avg_monthly_burn) by ring.
    apply Qmult_le_0_compat; [| now apply Qlt_le_weak].
    rewrite <- (Qplus_opp_r (inject_Z i)). apply Qplus_le_l. exact Hle.
  - pose proof (Qlt_floor runway) as Hlt. rewrite Hcash_eq.
    setoid_replace (runway * avg_monthly_burn
                    - avg_monthly_burn * inject_Z (Qfloor runway + 1))
      with (- ((inject_Z (Qfloor runway + 1) - runway) * avg_monthly_burn)) by ring.
    rewrite <- (Qplus_opp_r 0). setoid_replace (0 + - 0) with (- 0) by ring.
    apply Qopp_lt_compat. apply Qmult_lt_0_compat; [| exact Hburn].
    rewrite <- (Qplus_opp_r runway). apply Qplus_lt_l. exact Hlt.
Qed.

Lemma runway_projection_crosses_zero_witness :
  exists text c,
    get_cash_runway 40000 300000 (mkDate 2025 8 1) demo sept_2025 0%nat
    = (Ok (text, Some c), 0%nat)
    /\ In (Lit "March 2026") text
    /\ List.length (hd [] (series c)) = 9%nat.
Proof.
  destruct (runway_projection_crosses_zero 40000 300000 (mkDate 2025 8 1) demo sept_2025
              0%nat)
    as (text & c & Hrun & Hin & Hseries & _);
    [reflexivity | discriminate | reflexivity | split; vm_compute; discriminate
     | split; vm_compute; discriminate |].
  exists text, c. split; [exact Hrun |]. split; [exact Hin |].
  rewrite Hseries. reflexivity.
Defined.

Local Close Scope Q_scope.

(** ** The window of the trends *)

Lemma date_leb_refl d : date_leb d d = true.
Proof.
  unfold date_leb. rewrite !Z.eqb_refl, Z.leb_refl, Bool.orb_true_r. cbn.
  apply Bool.orb_true_r.
Qed.

Lemma date_leb_period a b :
  calendar_month a -> calendar_month b -> date_leb a b = true ->
  period_M a <= period_M b.
Proof.
  unfold calendar_month, date_leb, period_M. intros Ha Hb H.
  apply Bool.orb_true_iff in H. destruct H as [H | H].
  - apply Z.ltb_lt in H. lia.
  - apply Bool.andb_true_iff in H. destruct H as [Hy H]. apply Z.eqb_eq in Hy.
    apply Bool.orb_true_iff in H. destruct H as [H | H].
    + apply Z.ltb_lt in H. lia.
    + apply Bool.andb_true_iff in H. destruct H as [Hm _]. apply Z.eqb_eq in Hm. lia.
Qed.



Lemma StronglySorted_filter {A} (R : A -> A -> Prop) f l :
  StronglySorted R l -> StronglySorted R (filter f l).
Proof.
  induction 1 as [| x l Hs IH Hx]; cbn; [constructor |].
  destruct (f x); [| exact IH]. constructor; [exact IH |].
  rewrite Forall_forall in *. intros y Hy. apply filter_In in Hy. now apply Hx.
Qed.

Lemma sorted_last_max l d :
  StronglySorted (fun a b => date_leb a b = true) l ->
  forall x, In x l -> date_leb x (List.last l d) = true.
Proof.
  induction 1 as [| y l Hs IH Hy]; intros x Hx; [contradiction |].
  destruct l as [| z l].
  - destruct Hx as [<- | []]. apply date_leb_refl.
  - change (List.last (y :: z :: l) d) with (List.last (z :: l) d).
    destruct Hx as [<- | Hx]; [| now apply IH].
    rewrite Forall_forall in Hy. apply Hy, last_In. discriminate.
Qed.

(** The dates that [last] keeps, of rows in ascending order: those of the
    window that ends with the month of the last row. *)
Lemma last_months_dates {A} (n : Z) (rows : list (date * A)) :
  StronglySorted (fun a b => date_leb a b = true) (map fst rows) ->
  Forall calendar_month (map fst rows) ->
  forall d, In d (map fst (last_months n rows))
            <-> in_window (fun d => In d (map fst rows)) n d.
Proof.
  intros Hs Hcal d. unfold in_window. destruct rows as [| r0 rows'].
  { cbn. tauto. }
  remember (r0 :: rows') as rows eqn:Erows.
  assert (Hne : rows <> []) by (subst; discriminate).
  assert (Hlast : In (fst (List.last rows r0)) (map fst rows))
    by (apply in_map, last_In, Hne).
  assert (Hmax : forall d', In d' (map fst rows) ->
                   period_M d' <= period_M (fst (List.last rows r0))).
  { intros d' Hd'. rewrite Forall_forall in Hcal.
    apply date_leb_period; [now apply Hcal | now apply Hcal |].
    replace (fst (List.last rows r0)) with (List.last (map fst rows) (fst r0)).
    - now apply sorted_last_max.
    - clear -Hne. induction rows as [| x [| y l] IH]; [contradiction | reflexivity |].
      change (List.last (map fst (x :: y :: l)) (fst r0))
        with (List.last (map fst (y :: l)) (fst r0)).
      rewrite IH by discriminate. reflexivity. }
  assert (Hunfold : last_months n rows
                    = filter (fun r => period_M (fst (List.last rows r0)) - n
                                       <? period_M (fst r)) rows)
    by (subst rows; reflexivity).
  rewrite Hunfold, in_map_iff. split.
  - intros (r & <- & Hr). apply filter_In in Hr. destruct Hr as [Hr Hw].
    apply Z.ltb_lt in Hw. split; [now apply in_map |].
    intros d' Hd'. specialize (Hmax d' Hd'). lia.
  - intros [Hd Hw]. apply in_map_iff in Hd. destruct Hd as (r & <- & Hr).
    exists r. split; [reflexivity |]. apply filter_In. split; [exact Hr |].
    apply Z.ltb_lt. now apply Hw.
Qed.

Lemma filter_fst_sorted {A} (R : date -> date -> Prop) (f : date * A -> bool)
    (l : list (date * A)) :
  StronglySorted R (map fst l) -> StronglySorted R (map fst (filter f l)).
Proof.
  induction l as [| x l IH]; cbn; intros Hs; [constructor |].
  inversion Hs as [| ? ? Hs' Hx]; subst.
  destruct (f x); [| now apply IH]. cbn. constructor; [now apply IH |].
  rewrite Forall_forall in *. intros y Hy. apply Hx.
  apply in_map_iff in Hy. destruct Hy as (r & <- & Hr). apply filter_In in Hr.
  now apply in_map.
Qed.

Lemma last_months_sorted {A} (R : date -> date -> Prop) (n : Z) (rows : list (date * A)) :
  StronglySorted R (map fst rows) -> StronglySorted R (map fst (last_months n rows)).
Proof.
  intros Hs. destruct rows as [| r0 rows']; [constructor |].
  unfold last_months. now apply filter_fst_sorted.
Qed.

Lemma chart_dates_line {A} k t l (f : date * A -> fval) (rows : list (date * A)) more :
  chart_dates (mkChart k t l (map (fun r => (XDate (fst r), f r)) rows :: more))
  = map fst rows.
Proof.
  unfold chart_dates. cbn [series hd].
  induction rows as [| r rows IH]; cbn; [reflexivity |]. now rewrite IH.
Qed.


Lemma in_window_ext (P Q : date -> Prop) n d :
  (forall x, P x <-> Q x) -> in_window P n d <-> in_window Q n d.
Proof.
  intros H. unfold in_window. split; intros [Hd Hw]; (split; [now apply H |]);
    intros d' Hd'; apply Hw; now apply H.
Qed.


Lemma last_window_Ok {A} (k : Z) (rows w : list (date * A)) clk n n' :
  last_window k rows clk n = (Ok w, n') -> w = last_months k rows /\ n' = n.
Proof.
  unfold last_window. destruct rows as [| r0 rows']; [now intros [= <- <-] |].
  destruct (in_bounds _); [now intros [= <- <-] | discriminate].
Qed.

Lemma lineplot_Ok rows points clk n n' :
  lineplot rows clk n = (Ok points, n') ->
  points = map (fun r : date * fval => (XDate (fst r), snd r))
               (filter (fun r => is_finite (snd r)) rows).
Proof. unfold lineplot. destruct rows; [discriminate | now intros [= <- _]]. Qed.



(** The chart of a trend that returns: the line plot of the window of the
    column of the metric. *)
Lemma trend_route_chart metric months df clk n text c n' :
  route (trend_intent metric months) df clk n = (Ok (text, Some c), n') ->
  exists value points n1 n2,
    metric_column metric (pivot_table (historical df (clk n))) clk (S n) = (Ok value, n1)
    /\ lineplot (last_months months value) clk n1 = (Ok points, n2)
    /\ c = mkChart (kind c) (title c) (axis_label c) [points].
Proof.
  assert (Hroute : route (trend_intent metric months) df
                   = match metric with
                     | GrossMargin => get_gross_margin_trend months df
                     | _ => get_metric_trend metric months df
                     end) by (destruct metric; reflexivity).
  rewrite Hroute. unfold historical.
  destruct metric; unfold get_metric_trend, get_gross_margin_trend, bind, now; cbv zeta;
    try change (gross_margin_column ?p) with (metric_column GrossMargin p);
    match goal with
    | |- context [metric_column ?m ?p clk (S n)] =>
        destruct (metric_column m p clk (S n)) as [[value | e] n1] eqn:Ecol;
          [| discriminate]
    end;
    (destruct (last_window months value clk n1) as [[trend_data | e] n2] eqn:Ew;
       [| discriminate]);
    apply last_window_Ok in Ew; destruct Ew as [-> ->];
    (destruct (lineplot _ clk n1) as [[points | e] n3] eqn:El; [| discriminate]);
    unfold ret; intros [= <- <- <-];
    exists value, points, n1, n3; (split; [reflexivity |]); (split; [exact El |]);
    reflexivity.
Qed.



Lemma sorted_map_fst {A} (l : list (date * A)) :
  StronglySorted (fun a b : date * A => date_leb (fst a) (fst b) = true) l ->
  StronglySorted (fun a b => date_leb a b = true) (map fst l).
Proof.
  induction 1 as [| x l Hs IH Hx]; cbn; constructor; [exact IH |].
  rewrite Forall_forall in *. intros d Hd. apply in_map_iff in Hd.
  destruct Hd as (r & <- & Hr). now apply Hx.
Qed.

(** A window that starts in a year that timestamps hold is returned. *)
Lemma last_window_in_range {A} (k : Z) (rows : list (date * A)) clk n :
  0 <= k ->
  (forall r, In r rows -> in_timestamp_range (add_months (fst r) (- k))) ->
  last_window k rows clk n = (Ok (last_months k rows), n).
Proof.
  intros Hk Hrange. destruct rows as [| r0 rows']; [reflexivity |].
  unfold last_window.
  assert (Hb : in_bounds (window_start k (fst (List.last (r0 :: rows') r0))) = true).
  { unfold window_start.
    replace (k <? 0)%Z with false by (symmetry; apply Z.ltb_ge; lia).
    cbn [andb]. apply in_range_bounds.
    apply (Hrange (List.last (r0 :: rows') r0)), last_In. discriminate. }
  now rewrite Hb.
Qed.

(** X19. The cash balance trend over one month or more, of a cash table
    with a row at or before the clock, whose window starts in a year that
    timestamps hold, returns, and draws the cash rows of its window and no
    other: a month is on the chart exactly when the cash table has a row
    of it at or before the clock and it is less than [months] calendar
    months before every such month; the months are in ascending order. *)
Theorem cash_trend_window (months : Z) (df : data_frames) (clk : clock) (n : nat) :
  (forall r, In r (cash df) -> calendar_month (c_month r)) ->
  1 <= months ->
  existsb (fun r => date_leb (c_month r) (clk n)) (cash df) = true ->
  (forall r, In r (cash df) -> in_timestamp_range (add_months (c_month r) (- months))) ->
  exists text c,
    get_cash_balance_trend months df clk n = (Ok (text, Some c), S n)
    /\ StronglySorted (fun a b => date_leb a b = true) (chart_dates c)
    /\ forall d, In d (chart_dates c) <-> in_window (cash_month df (clk n)) months d.
Proof.
  intros Hcal Hmonths Hsome Hrange. unfold get_cash_balance_trend, bind, now. cbv zeta.
  set (by_date := fun a b : date * Q => date_leb (fst a) (fst b)).
  set (rows := map (fun r => (c_month r, cash_usd r))
                   (filter (fun r => date_leb (c_month r) (clk n)) (cash df))).
  assert (Hsorted : StronglySorted (fun a b => date_leb a b = true)
                      (map fst (sort_by by_date rows))).
  { apply sorted_map_fst. apply (sort_by_sorted by_date).
    - intros a b. apply date_leb_total.
    - intros a b c. apply date_leb_trans. }
  assert (Hin : forall d, In d (map fst (sort_by by_date rows)) <-> cash_month df (clk n) d).
  { intros d. unfold cash_month. rewrite in_map_iff. split.
    - intros (r & <- & Hr). apply sort_by_In in Hr. subst rows.
      apply in_map_iff in Hr. destruct Hr as (c0 & <- & Hc). apply filter_In in Hc.
      destruct Hc as [Hc Hle]. cbn [fst]. split; [exact Hle |]. now exists c0.
    - intros (Hle & c0 & Hc & <-). exists (c_month c0, cash_usd c0).
      split; [reflexivity |]. apply sort_by_In. subst rows.
      apply in_map_iff. exists c0. split; [reflexivity |]. now apply filter_In. }
  assert (Hne : sort_by by_date rows <> []).
  { apply existsb_exists in Hsome. destruct Hsome as (r & Hr & Hle).
    assert (Hd : In (c_month r) (map fst (sort_by by_date rows)))
      by (apply Hin; split; [exact Hle | now exists r]).
    intros E. rewrite E in Hd. contradiction. }
  assert (Hwindow : last_window months (sort_by by_date rows) clk (S n)
                    = (Ok (last_months months (sort_by by_date rows)), S n)).
  { apply last_window_in_range; [lia |]. intros r Hr.
    apply (in_map fst), Hin in Hr. destruct Hr as (_ & c0 & Hc & <-). now apply Hrange. }
  rewrite Hwindow.
  pose proof (last_months_nonempty months _ Hmonths Hne) as Hw.
  set (w := last_months months (sort_by by_date rows)) in *.
  assert (Hplot : lineplot (map (fun r : date * Q => (fst r, Fin (snd r))) w) clk (S n)
                  = (Ok (map (fun r : date * Q => (XDate (fst r), Fin (snd r))) w), S n)).
  { unfold lineplot. destruct w as [| r0 w']; [contradiction |].
    rewrite <- (map_map (fun r : date * Q => (fst r, Fin (snd r)))
                        (fun r : date * fval => (XDate (fst r), snd r))).
    rewrite filter_all; [reflexivity |].
    apply Forall_forall. intros r Hr. apply in_map_iff in Hr.
    destruct Hr as (x & <- & _). reflexivity. }
  rewrite Hplot. unfold ret.
  do 2 eexists. split; [reflexivity |]. rewrite chart_dates_line.
  split; [now apply last_months_sorted |].
  intros d. subst w. rewrite last_months_dates.
  - now apply in_window_ext.
  - exact Hsorted.
  - apply Forall_forall. intros x Hx. apply Hin in Hx.
    destruct Hx as (_ & c0 & Hc & <-). now apply Hcal.
Qed.

Lemma cash_trend_window_witness :
  exists text c,
    get_cash_balance_trend 2 demo sept_2025 0%nat = (Ok (text, Some c), 1%nat)
    /\ (In (mkDate 2025 6 1) (chart_dates c)
        <-> in_window (cash_month demo (sept_2025 0%nat)) 2 (mkDate 2025 6 1)).
Proof.
  destruct (cash_trend_window 2 demo sept_2025 0%nat) as (text & c & Hrun & _ & Hin).
  - intros r Hr. cbn in Hr.
    repeat (destruct Hr as [<- | Hr]; [unfold calendar_month; cbn; lia |]). contradiction.
  - lia.
  - reflexivity.
  - intros r Hr. cbn in Hr.
    repeat (destruct Hr as [<- | Hr]; [vm_compute; split; discriminate |]). contradiction.
  - exists text, c. split; [exact Hrun | apply Hin].
Defined.

(** ** Revenue against budget: the rows that count *)





(** ** The values of a trend *)

Local Open Scope Q_scope.

Lemma cell_rows_at rows d c :
  cell (pivot_table rows) d c = category_sum c (rows_at d rows).
Proof.
  unfold cell, category_sum, rows_at. cbn [p_rows pivot_table]. f_equal. f_equal.
  induction rows as [| r rows IH]; [reflexivity |]. cbn [filter].
  destruct (date_eqb (row_month r) d); cbn [andb filter]; [| exact IH].
  destruct (String.eqb (row_category r) c); now rewrite IH.
Qed.

Lemma opex_at_rows_at rows d :
  opex_at (pivot_table rows) d == prefix_sum "Opex" (rows_at d rows).
Proof.
  unfold opex_at, prefix_sum.
  rewrite (Qsum_ext _ (fun c => category_sum c (rows_at d rows)))
    by (intros c; rewrite cell_rows_at; reflexivity).
  unfold category_sum, opex_columns. cbn [p_columns pivot_table].
  rewrite (Qsum_by_key row_category amount_usd)
    by (apply NoDup_filter, sorted_keys_NoDup).
  erewrite Qsum_filter_ext; [reflexivity |]. intros r Hr. cbn beta.
  destruct (prefix "Opex" (row_category r)) eqn:E.
  - apply mem_str_In, filter_In. split; [| exact E].
    apply sorted_keys_In. apply in_map. unfold rows_at in Hr. now apply filter_In in Hr.
  - destruct (mem_str (row_category r) _) eqn:Em; [| reflexivity].
    apply mem_str_In, filter_In in Em. destruct Em. congruence.
Qed.

Lemma metric_column_values metric rows clk n n' value :
  metric <> GrossMargin ->
  metric_column metric (pivot_table rows) clk n = (Ok value, n') ->
  forall r, In r value ->
    exists q, snd r = Fin q /\ q == metric_value metric (rows_at (fst r) rows).
Proof.
  intros Hm. destruct metric; try contradiction;
    cbn [metric_column metric_value]; unfold column, bind, ret, raise;
    repeat match goal with
           | |- context [mem_str ?c ?l] => destruct (mem_str c l); try discriminate
           end;
    intros [= <- _] r Hr; rewrite ?map_map in Hr;
    apply in_map_iff in Hr; destruct Hr as (d0 & <- & _); cbn [fst snd];
    eexists; (split; [reflexivity |]);
    rewrite ?cell_rows_at, ?opex_at_rows_at; reflexivity.
Qed.

(** X21. Each point of a trend of the revenue, the opex or EBITDA is a
    number, computed from the rows of actuals of that very date at or
    before the clock: the sum of the revenue rows, the sum of the rows
    whose category starts with Opex, or revenue - COGS - opex of these
    rows. *)
Theorem trend_values (metric : metric) (months : Z) (df : data_frames) (clk : clock)
    (n n' : nat) (text : summary) (c : chart) (d : date) (v : fval) :
  get_metric_trend metric months df clk n = (Ok (text, Some c), n') ->
  In (XDate d, v) (hd [] (series c)) ->
  exists q, v = Fin q
            /\ q == metric_value metric (rows_at d (historical df (clk n))).
Proof.
  assert (Hm : metric = GrossMargin \/ metric <> GrossMargin)
    by (destruct metric; (now left) || (right; discriminate)).
  destruct Hm as [-> | Hm]; [discriminate |].
  intros Hrun Hin.
  assert (Hroute : route (trend_intent metric months) df clk n = (Ok (text, Some c), n'))
    by (destruct metric; try contradiction; exact Hrun).
  destruct (trend_route_chart _ _ _ _ _ _ _ _ Hroute)
    as (value & points & n1 & n2 & Hcol & Hplot & Hc).
  rewrite Hc in Hin. cbn [series hd] in Hin.
  apply lineplot_Ok in Hplot. subst points.
  apply in_map_iff in Hin. destruct Hin as ([d' v'] & Epair & Hr).
  cbn [fst snd] in Epair. injection Epair as -> ->.
  apply filter_In in Hr. destruct Hr as [Hr _].
  assert (Hv : In (d, v) value).
  { unfold last_months in Hr. destruct value; [contradiction |]. now apply filter_In in Hr. }
  exact (metric_column_values metric _ clk (S n) n1 value Hm Hcol (d, v) Hv).
Qed.

Lemma trend_values_witness :
  exists q, Fin (inject_Z 110000) = Fin q
            /\ q == metric_value Revenue
                      (rows_at (mkDate 2025 7 1) (historical demo (sept_2025 0%nat))).
Proof.
  eapply (trend_values Revenue 2 demo sept_2025 0%nat).
  - vm_compute. reflexivity.
  - vm_compute. tauto.
Defined.

Local Close Scope Q_scope.
